(** * Class tracking of the JDWP agent (libjdwp/classTrack.c)

    A shallow embedding of [classTrack.c]: the module that tags every prepared
    class object with its signature string and reports the signature to the
    event handler when the JVMTI substrate frees the class object.

    The C code talks to the world through JVMTI and through helpers of
    util.c.  The world is a [State] record (tag store of the tracking
    environment, the JVMTI heap, logs of the calls that leave the module) and
    the code is written in a state-and-exit monad over it.  Answers that the
    substrate alone decides (error codes, class signatures, the list of loaded
    classes) come from a [Host] record of oracles. *)

From stdpp Require Import gmap strings list fin_maps.
From Stdlib Require Import ZArith Lia.

Local Open Scope Z_scope.

(** ** Machine data *)

(** Pointers are 64-bit addresses, [NULL] is address zero; a [jlong] is a
    signed 64-bit integer; a [jint] a signed 32-bit one.  A [jclass] is named
    by the identity of the class object it refers to, because JVMTI tags are
    attached to objects, not to references. *)
Abbreviation ptr := Z (only parsing).
Abbreviation jlong := Z (only parsing).
Abbreviation jint := Z (only parsing).
Abbreviation jclass := Z (only parsing).
Abbreviation jvmtiError := Z (only parsing).

Definition NULL : ptr := 0.
Definition ptr_modulus : Z := 2 ^ 64.

(** [#define NOT_TAGGED 0] *)
Definition NOT_TAGGED : jlong := 0.

(** The macros [ptr_to_jlong] and [jlong_to_ptr] come from a header that is
    not part of the source at hand; they are the usual casts through
    [uintptr_t].  [ptr_to_jlong(a)] is [(jlong)(uintptr_t)(a)]: the address
    re-read as a signed 64-bit integer. *)
Definition ptr_to_jlong (a : ptr) : jlong :=
  let u := a mod ptr_modulus in
  if u <? 2 ^ 63 then u else u - ptr_modulus.

(** [jlong_to_ptr(a)] is [(void* )(uintptr_t)(a)]: the integer re-read as an
    unsigned 64-bit address. *)
Definition jlong_to_ptr (a : jlong) : ptr := a mod ptr_modulus.

(** Error codes and class status bits of jvmti.h and util.h that the module
    names.  No property below depends on the numeric values of the errors,
    only on [JVMTI_ERROR_NONE] being told apart from the others. *)
Definition JVMTI_ERROR_NONE : jvmtiError := 0.
Definition JVMTI_ERROR_OUT_OF_MEMORY : jvmtiError := 110.
Definition AGENT_ERROR_INTERNAL : jvmtiError := 181.

Definition JVMTI_CLASS_STATUS_PREPARED : jint := 2.
Definition JVMTI_CLASS_STATUS_ARRAY : jint := 16.

Inductive jvmtiEvent : Type :=
| JVMTI_EVENT_OBJECT_FREE
| JVMTI_EVENT_CLASS_PREPARE.

Global Instance jvmtiEvent_eq_dec : EqDecision jvmtiEvent.
Proof. solve_decision. Defined.

(** [strcmp]: the difference of the first pair of characters that differ,
    zero when the strings are the same.  Strings on the heap are C strings:
    they hold no NUL character. *)
Fixpoint strcmp (a b : string) : Z :=
  match a, b with
  | EmptyString, EmptyString => 0
  | EmptyString, String c _ => - Z.of_N (Ascii.N_of_ascii c) - 1
  | String c _, EmptyString => Z.of_N (Ascii.N_of_ascii c) + 1
  | String c a', String d b' =>
      if Ascii.eqb c d then strcmp a' b'
      else Z.of_N (Ascii.N_of_ascii c) - Z.of_N (Ascii.N_of_ascii d)
  end.

(** ** The world *)

(** What a JVMTI allocation holds: a signature string or the array of class
    references that the enumeration of loaded classes returns. *)
Inductive block : Type :=
| BString (s : string)
| BClasses (l : list Z).

Definition block_size (b : block) : Z :=
  match b with
  | BString s => Z.of_nat (String.length s) + 1
  | BClasses l => 8 * Z.max 1 (Z.of_nat (length l))
  end.

(** The calls on the tag store of the tracking environment, in order. *)
Inductive TagCall : Type :=
| CallGetTag (klass : Z)
| CallSetTag (klass : Z) (tag : Z).

(** The two callbacks the module registers. *)
Inductive callback : Type :=
| cbTrackingObjectFree_fn
| cbTrackingClassPrepare_fn.

Record State : Type := mkState {
  (** [static jvmtiEnv* trackingEnv] *)
  trackingEnv : Z;
  (** tag store of the tracking environment; an absent key is [NOT_TAGGED] *)
  tags : gmap Z Z;
  (** live JVMTI allocations, by address *)
  heap : gmap Z block;
  (** first address the allocator has not handed out yet *)
  brk : Z;
  (** number of signature queries made so far *)
  clock : nat;
  (** addresses of the signature strings allocated so far, newest first *)
  allocated : list Z;
  (** addresses passed to Deallocate, newest first *)
  released : list Z;
  (** calls of [eventHandler_synthesizeUnloadEvent], newest first:
      signature pointer and JNI environment *)
  unloads : list (Z * Z);
  (** calls of GetTag and SetTag, newest first *)
  tag_calls : list TagCall;
  (** [can_generate_object_free_events] has been added *)
  object_free_capability : bool;
  (** callbacks installed by SetEventCallbacks *)
  callbacks : list callback;
  (** events enabled by SetEventNotificationMode, newest first *)
  enabled_events : list jvmtiEvent;
  (** texts of the assertions that failed, newest first *)
  failed_asserts : list string
}.

Definition with_trackingEnv (e : Z) (s : State) : State :=
  mkState e (tags s) (heap s) (brk s) (clock s) (allocated s) (released s)
    (unloads s) (tag_calls s) (object_free_capability s) (callbacks s)
    (enabled_events s) (failed_asserts s).

Definition with_tags (t : gmap Z Z) (s : State) : State :=
  mkState (trackingEnv s) t (heap s) (brk s) (clock s) (allocated s)
    (released s) (unloads s) (tag_calls s) (object_free_capability s)
    (callbacks s) (enabled_events s) (failed_asserts s).

Definition with_heap (h : gmap Z block) (s : State) : State :=
  mkState (trackingEnv s) (tags s) h (brk s) (clock s) (allocated s)
    (released s) (unloads s) (tag_calls s) (object_free_capability s)
    (callbacks s) (enabled_events s) (failed_asserts s).

Definition with_brk (b : Z) (s : State) : State :=
  mkState (trackingEnv s) (tags s) (heap s) b (clock s) (allocated s)
    (released s) (unloads s) (tag_calls s) (object_free_capability s)
    (callbacks s) (enabled_events s) (failed_asserts s).

Definition with_clock (c : nat) (s : State) : State :=
  mkState (trackingEnv s) (tags s) (heap s) (brk s) c (allocated s)
    (released s) (unloads s) (tag_calls s) (object_free_capability s)
    (callbacks s) (enabled_events s) (failed_asserts s).

Definition with_allocated (l : list Z) (s : State) : State :=
  mkState (trackingEnv s) (tags s) (heap s) (brk s) (clock s) l
    (released s) (unloads s) (tag_calls s) (object_free_capability s)
    (callbacks s) (enabled_events s) (failed_asserts s).

Definition with_released (l : list Z) (s : State) : State :=
  mkState (trackingEnv s) (tags s) (heap s) (brk s) (clock s) (allocated s)
    l (unloads s) (tag_calls s) (object_free_capability s)
    (callbacks s) (enabled_events s) (failed_asserts s).

Definition with_unloads (l : list (Z * Z)) (s : State) : State :=
  mkState (trackingEnv s) (tags s) (heap s) (brk s) (clock s) (allocated s)
    (released s) l (tag_calls s) (object_free_capability s)
    (callbacks s) (enabled_events s) (failed_asserts s).

Definition with_tag_calls (l : list TagCall) (s : State) : State :=
  mkState (trackingEnv s) (tags s) (heap s) (brk s) (clock s) (allocated s)
    (released s) (unloads s) l (object_free_capability s)
    (callbacks s) (enabled_events s) (failed_asserts s).

Definition with_object_free_capability (b : bool) (s : State) : State :=
  mkState (trackingEnv s) (tags s) (heap s) (brk s) (clock s) (allocated s)
    (released s) (unloads s) (tag_calls s) b
    (callbacks s) (enabled_events s) (failed_asserts s).

Definition with_callbacks (l : list callback) (s : State) : State :=
  mkState (trackingEnv s) (tags s) (heap s) (brk s) (clock s) (allocated s)
    (released s) (unloads s) (tag_calls s) (object_free_capability s)
    l (enabled_events s) (failed_asserts s).

Definition with_enabled_events (l : list jvmtiEvent) (s : State) : State :=
  mkState (trackingEnv s) (tags s) (heap s) (brk s) (clock s) (allocated s)
    (released s) (unloads s) (tag_calls s) (object_free_capability s)
    (callbacks s) l (failed_asserts s).

Definition with_failed_asserts (l : list string) (s : State) : State :=
  mkState (trackingEnv s) (tags s) (heap s) (brk s) (clock s) (allocated s)
    (released s) (unloads s) (tag_calls s) (object_free_capability s)
    (callbacks s) (enabled_events s) l.

(** [gdata]: the agent's global data, of which the module reads the
    assertion switches. *)
Record GlobalData : Type := mkGlobalData {
  assertOn : bool;
  assertFatal : bool
}.

(** Everything the substrate decides on its own. *)
Record Host : Type := mkHost {
  (** the global pointer [gdata]; [None] is a null pointer *)
  gdata : option GlobalData;
  (** result of [getSpecialJvmti()], [NULL] when no environment is granted *)
  special_jvmti : Z;
  (** result of [getEnv()]: the JNI environment of the current thread *)
  current_env : Z;
  (** answer of GetClassSignature at the n-th query: the error code and,
      when that is [JVMTI_ERROR_NONE], the signature *)
  class_signature : nat → Z → Z * string;
  GetTag_error : Z → Z;
  SetTag_error : Z → Z → Z;
  AddCapabilities_error : Z;
  SetEventCallbacks_error : Z;
  SetEventNotificationMode_error : jvmtiEvent → Z;
  (** answer of GetLoadedClasses: the error code and, when that is
      [JVMTI_ERROR_NONE], the loaded classes *)
  loaded_classes : Z * list Z;
  (** answer of [classStatus] *)
  class_status : Z → Z
}.

(** ** The monad: state, fatal exit, undefined behaviour *)

Inductive Outcome (A : Type) : Type :=
| Ret (a : A) (s : State)
    (** the call returned *)
| Exit (e : Z) (msg : string) (s : State)
    (** the process was terminated by [EXIT_ERROR] *)
| Fault (why : string).
    (** the C code has no defined behaviour here *)
Arguments Ret {A} a s.
Arguments Exit {A} e msg s.
Arguments Fault {A} why.

Definition M (A : Type) : Type := State → Outcome A.

Global Instance M_ret : MRet M := λ A a s, Ret a s.

Global Instance M_bind : MBind M := λ A B f m s,
  match m s with
  | Ret a s' => f a s'
  | Exit e msg s' => Exit e msg s'
  | Fault why => Fault why
  end.

Definition get {A : Type} (f : State → A) : M A := λ s, Ret (f s) s.
Definition modify (f : State → State) : M unit := λ s, Ret tt (f s).
Definition fault {A : Type} (why : string) : M A := λ _, Fault why.

(** The state an outcome ends in, when there is one. *)
Definition final_state {A : Type} (o : Outcome A) : option State :=
  match o with
  | Ret _ s => Some s
  | Exit _ _ s => Some s
  | Fault _ => None
  end.

Definition returns {A : Type} (o : Outcome A) : Prop :=
  match o with Ret _ _ => True | _ => False end.

Definition exits {A : Type} (o : Outcome A) : Prop :=
  match o with Exit _ _ _ => True | _ => False end.

(** ** The substrate and the helpers of util.c *)

Section ClassTrack.

Variable host : Host.

(** [gdata && gdata->assertOn]: consistency checking is enabled. *)
Definition checking_enabled : bool :=
  match gdata host with
  | Some g => assertOn g
  | None => false
  end.

Definition assert_is_fatal : bool :=
  match gdata host with
  | Some g => assertFatal g
  | None => false
  end.

(** Modelled from the spec: the macro [EXIT_ERROR] of util.h is not part of
    the source at hand.  The spec calls it fatal, process-terminating and not
    recoverable: nothing after it runs. *)
Definition EXIT_ERROR {A : Type} (error : jvmtiError) (msg : string) : M A :=
  λ s, Exit error msg s.

(** Modelled from the spec: the macro [JDI_ASSERT] of util.h is not part of
    the source at hand.  The spec has assertions checked only when consistency
    checking is enabled, and then "asserted, not silently tolerated": the
    failure is reported.  Whether the report also ends the process is the
    switch [assertFatal] of the host.  The asserted expression is evaluated
    only when checking is enabled. *)
Definition JDI_ASSERT (expression : M bool) (text : string) : M unit :=
  if checking_enabled then
    holds ← expression;
    if (holds : bool) then mret tt
    else
      modify (λ s, with_failed_asserts (text :: failed_asserts s) s);;
      if assert_is_fatal
      then EXIT_ERROR AGENT_ERROR_INTERNAL "Assertion Failed"
      else mret tt
  else mret tt.

(** Modelled from the spec: the JVMTI allocator is outside the module.  The
    spec has every identity "allocated exactly once" and "never reused across
    two different class objects": the allocator hands out the addresses from
    [brk] upwards and never an address twice; it has no memory left when the
    block would not fit below the top of the address space. *)
Definition jvmti_allocate (b : block) (s : State) : option (ptr * State) :=
  if brk s + block_size b <=? ptr_modulus then
    Some (brk s,
          with_brk (brk s + block_size b)
            (with_heap (<[brk s := b]> (heap s)) s))
  else None.

(** Modelled from the spec: [classSignature(klass, &signature, NULL)] is a
    helper of util.c, which is not part of the source at hand.  The spec's
    [computeSignature] "may fail" and its string is "heap-allocated at tag
    time": the substrate is asked for the signature, which arrives in a fresh
    JVMTI allocation.  Returns the error code and the pointer written to
    [signature]. *)
Definition classSignature (klass : jclass) : M (jvmtiError * ptr) := λ s,
  let s1 := with_clock (S (clock s)) s in
  let '(error, sig) := class_signature host (clock s) klass in
  if decide (error = JVMTI_ERROR_NONE) then
    match jvmti_allocate (BString sig) s1 with
    | Some (p, s2) => Ret (JVMTI_ERROR_NONE, p) (with_allocated (p :: allocated s2) s2)
    | None => Ret (JVMTI_ERROR_OUT_OF_MEMORY, NULL) s1
    end
  else Ret (error, NULL) s1.

(** Modelled from the spec: [jvmtiDeallocate(ptr)] is a helper of util.c,
    which is not part of the source at hand; the spec calls it releasing the
    identity.  Nothing happens for [NULL], else the block is given back.
    Giving back an address that holds no live block is undefined. *)
Definition jvmtiDeallocate (p : ptr) : M unit := λ s,
  if decide (p = NULL) then Ret tt s
  else match heap s !! p with
       | Some _ =>
           Ret tt (with_released (p :: released s) (with_heap (delete p (heap s)) s))
       | None => Fault "Deallocate of an address that is not allocated"
       end.

(** Reading the C string at an address. *)
Definition read_string (p : ptr) : M string := λ s,
  match heap s !! p with
  | Some (BString str) => Ret str s
  | _ => Fault "read of an address that holds no string"
  end.

(** [JVMTI_FUNC_PTR(env, f)] dereferences [env]. *)
Definition JVMTI_FUNC_PTR (env : ptr) : M unit :=
  if decide (env = NULL) then fault "null jvmtiEnv" else mret tt.

(** Modelled from the spec: the tag store belongs to the substrate ("get/set,
    one slot per object").  GetTag on the tracking environment: error code and
    the tag read. *)
Definition GetTag (env : ptr) (klass : jclass) : M (jvmtiError * jlong) :=
  JVMTI_FUNC_PTR env;;
  modify (λ s, with_tag_calls (CallGetTag klass :: tag_calls s) s);;
  if decide (GetTag_error host klass = JVMTI_ERROR_NONE) then
    t ← get (λ s, default NOT_TAGGED (tags s !! klass));
    mret (JVMTI_ERROR_NONE, t)
  else mret (GetTag_error host klass, NOT_TAGGED).

(** SetTag on the tracking environment; setting the tag zero removes it. *)
Definition SetTag (env : ptr) (klass : jclass) (tag : jlong) : M jvmtiError :=
  JVMTI_FUNC_PTR env;;
  modify (λ s, with_tag_calls (CallSetTag klass tag :: tag_calls s) s);;
  if decide (SetTag_error host klass tag = JVMTI_ERROR_NONE) then
    modify (λ s, with_tags
                   (if decide (tag = NOT_TAGGED) then delete klass (tags s)
                    else <[klass := tag]> (tags s)) s);;
    mret JVMTI_ERROR_NONE
  else mret (SetTag_error host klass tag).

Definition AddCapabilities (env : ptr) : M jvmtiError :=
  JVMTI_FUNC_PTR env;;
  if decide (AddCapabilities_error host = JVMTI_ERROR_NONE) then
    modify (with_object_free_capability true);;
    mret JVMTI_ERROR_NONE
  else mret (AddCapabilities_error host).

Definition SetEventCallbacks (env : ptr) (cb : list callback) : M jvmtiError :=
  JVMTI_FUNC_PTR env;;
  if decide (SetEventCallbacks_error host = JVMTI_ERROR_NONE) then
    modify (with_callbacks cb);;
    mret JVMTI_ERROR_NONE
  else mret (SetEventCallbacks_error host).

Definition SetEventNotificationMode (env : ptr) (ev : jvmtiEvent) : M jvmtiError :=
  JVMTI_FUNC_PTR env;;
  if decide (SetEventNotificationMode_error host ev = JVMTI_ERROR_NONE) then
    modify (λ s, with_enabled_events (ev :: enabled_events s) s);;
    mret JVMTI_ERROR_NONE
  else mret (SetEventNotificationMode_error host ev).

(** Modelled from the spec: [allLoadedClasses(&classes, &classCount)] is a
    helper of util.c, which is not part of the source at hand; it is the
    spec's [enumerateLoadedClasses].  Error code, the array (a fresh JVMTI
    allocation) and its length. *)
Definition allLoadedClasses : M (jvmtiError * ptr * jint) := λ s,
  let '(error, l) := loaded_classes host in
  if decide (error = JVMTI_ERROR_NONE) then
    match jvmti_allocate (BClasses l) s with
    | Some (p, s') => Ret (JVMTI_ERROR_NONE, p, Z.of_nat (length l)) s'
    | None => Ret (JVMTI_ERROR_OUT_OF_MEMORY, NULL, 0) s
    end
  else Ret (error, NULL, 0) s.

(** [classes[i]] *)
Definition read_class (classes : ptr) (i : jint) : M jclass := λ s,
  match heap s !! classes with
  | Some (BClasses l) =>
      match l !! Z.to_nat i with
      | Some k => if decide (0 ≤ i) then Ret k s else Fault "index below the array"
      | None => Fault "index past the array"
      end
  | _ => Fault "read of an address that holds no class array"
  end.

(** Modelled from the spec: [classStatus], [getSpecialJvmti] and [getEnv]
    are helpers of util.c, which is not part of the source at hand.  They are
    the spec's [classStatus(classObject) -> flags], the "dedicated
    tagging-capable handle" and the "handle identifying the current execution
    context". *)
Definition classStatus (klass : jclass) : M jint := mret (class_status host klass).

Definition getSpecialJvmti : M ptr := mret (special_jvmti host).

Definition getEnv : M ptr := mret (current_env host).

(** Modelled from the spec: [eventHandler_synthesizeUnloadEvent] is in
    eventHandler.c, which is not part of the source at hand.  The spec has it
    "fire-and-forget; consumer takes ownership": the call is recorded and
    returns. *)
Definition eventHandler_synthesizeUnloadEvent (signature : ptr) (env : ptr) : M unit :=
  modify (λ s, with_unloads ((signature, env) :: unloads s) s).

(** ** classTrack.c *)

(** [cbTrackingObjectFree(jvmti_env, tag)] *)
Definition cbTrackingObjectFree (jvmti_env : ptr) (tag : jlong) : M unit :=
  JDI_ASSERT (e ← get trackingEnv; mret (bool_decide (jvmti_env = e)))
    "jvmti_env == trackingEnv";;
  env ← getEnv;
  eventHandler_synthesizeUnloadEvent (jlong_to_ptr tag) env.

(** [addPreparedClass(env, klass)] *)
Definition addPreparedClass (env : ptr) (klass : jclass) : M unit :=
  '(error, signature) ← classSignature klass;
  (if decide (error ≠ JVMTI_ERROR_NONE)
   then EXIT_ERROR error "signature" else mret tt);;
  returned ←
    (if checking_enabled then
       tenv ← get trackingEnv;
       '(error, tag) ← GetTag tenv klass;
       (if decide (error ≠ JVMTI_ERROR_NONE)
        then EXIT_ERROR error "Unable to GetTag with class trackingEnv"
        else mret tt);;
       if decide (tag ≠ NOT_TAGGED) then
         let oldSignature := jlong_to_ptr tag in
         JDI_ASSERT (a ← read_string signature;
                     b ← read_string oldSignature;
                     mret (bool_decide (strcmp a b = 0)))
           "strcmp(signature, oldSignature) == 0";;
         jvmtiDeallocate signature;;
         mret true
       else mret false
     else mret false);
  if (returned : bool) then mret tt
  else
    tenv ← get trackingEnv;
    error ← SetTag tenv klass (ptr_to_jlong signature);
    if decide (error ≠ JVMTI_ERROR_NONE) then
      jvmtiDeallocate signature;;
      EXIT_ERROR error "SetTag"
    else mret tt.

(** [cbTrackingClassPrepare(jvmti_env, env, thread, klass)] *)
Definition cbTrackingClassPrepare (jvmti_env : ptr) (env : ptr) (thread : Z)
    (klass : jclass) : M unit :=
  JDI_ASSERT (e ← get trackingEnv; mret (bool_decide (jvmti_env = e)))
    "jvmti_env == trackingEnv";;
  addPreparedClass env klass.

(** [setupEvents()]: [true] is [JNI_TRUE]. *)
Definition setupEvents : M bool :=
  tenv ← get trackingEnv;
  error ← AddCapabilities tenv;
  if decide (error ≠ JVMTI_ERROR_NONE) then mret false
  else
    let cb := [cbTrackingObjectFree_fn; cbTrackingClassPrepare_fn] in
    error ← SetEventCallbacks tenv cb;
    if decide (error ≠ JVMTI_ERROR_NONE) then mret false
    else
      error ← SetEventNotificationMode tenv JVMTI_EVENT_OBJECT_FREE;
      if decide (error ≠ JVMTI_ERROR_NONE) then mret false
      else
        error ← SetEventNotificationMode tenv JVMTI_EVENT_CLASS_PREPARE;
        if decide (error ≠ JVMTI_ERROR_NONE) then mret false
        else mret true.

(** The body of the loop of [classTrack_initialize] at index [i]. *)
Definition initialize_body (env : ptr) (classes : ptr) (i : jint) : M unit :=
  klass ← read_class classes i;
  let wanted := Z.lor JVMTI_CLASS_STATUS_PREPARED JVMTI_CLASS_STATUS_ARRAY in
  status ← classStatus klass;
  if decide (Z.land status wanted ≠ 0) then addPreparedClass env klass
  else mret tt.

(** [for (i = ...; i < classCount; i++)], with [n] iterations left. *)
Fixpoint initialize_loop (env : ptr) (classes : ptr) (i : jint) (n : nat) : M unit :=
  match n with
  | O => mret tt
  | S n' =>
      initialize_body env classes i;;
      initialize_loop env classes (i + 1) n'
  end.

(** [classTrack_initialize(env)] *)
Definition classTrack_initialize (env : ptr) : M unit :=
  tenv ← getSpecialJvmti;
  modify (with_trackingEnv tenv);;
  (if decide (tenv = NULL)
   then EXIT_ERROR AGENT_ERROR_INTERNAL "Failed to allocate tag-tracking jvmtiEnv"
   else mret tt);;
  ok ← setupEvents;
  (if negb ok
   then EXIT_ERROR AGENT_ERROR_INTERNAL "Unable to setup ObjectFree tracking"
   else mret tt);;
  '(error, classes, classCount) ← allLoadedClasses;
  if decide (error = JVMTI_ERROR_NONE) then
    initialize_loop env classes 0 (Z.to_nat classCount);;
    jvmtiDeallocate classes
  else EXIT_ERROR error "loaded classes array".

End ClassTrack.

(** ** The substrate's notifications *)

(** What happens to the tracker, one atomic step at a time.  The substrate
    never runs two notifications for the same object concurrently, so every
    interleaving of the bootstrap loop with the notification streams is a
    sequence of these steps. *)
Inductive event : Type :=
| Bootstrap (klass : Z)
    (** the loop of [classTrack_initialize] calls [addPreparedClass] *)
| ClassPrepared (klass : Z)
    (** the substrate delivers a class-prepare notification *)
| ObjectFreed (klass : Z).
    (** the substrate frees a class object *)

Section Substrate.

Variable host : Host.

(** Modelled from the spec: the delivery of notifications belongs to the
    JVMTI substrate, which is outside the module.  A prepare notification
    arrives on the tracking environment with the JNI environment of the
    current thread.  When an object is freed its tag slot is destroyed by the
    substrate and, when the slot held a tag, the object-free notification
    arrives on the tracking environment carrying that tag. *)
Definition step (ev : event) : M unit :=
  match ev with
  | Bootstrap klass =>
      env ← getEnv host;
      addPreparedClass host env klass
  | ClassPrepared klass =>
      tenv ← get trackingEnv;
      env ← getEnv host;
      cbTrackingClassPrepare host tenv env 0 klass
  | ObjectFreed klass =>
      slot ← get (λ s, tags s !! klass);
      match slot with
      | Some tag =>
          modify (λ s, with_tags (delete klass (tags s)) s);;
          tenv ← get trackingEnv;
          cbTrackingObjectFree host tenv tag
      | None => mret tt
      end
  end.

Fixpoint run (evs : list event) : M unit :=
  match evs with
  | [] => mret tt
  | ev :: evs' => step ev;; run evs'
  end.

End Substrate.

(** ** Well-formed worlds *)

(** The allocator's frontier is not the null address and lies above every
    live block. *)
Record heap_wf (s : State) : Prop := mkHeapWf {
  wf_brk_pos : 0 < brk s;
  wf_heap_below : ∀ p b, heap s !! p = Some b → 0 < p < brk s
}.

(** The addresses of the signatures forwarded to the event handler. *)
Definition forwarded (s : State) : list Z := (unloads s).*1.

(** Some tag slot holds the address [p]. *)
Definition held (s : State) (p : Z) : Prop :=
  ∃ k, tags s !! k = Some (ptr_to_jlong p).

(** Exactly one of three. *)
Definition exactly_one (A B C : Prop) : Prop :=
  (A ∧ ¬ B ∧ ¬ C) ∨ (¬ A ∧ B ∧ ¬ C) ∨ (¬ A ∧ ¬ B ∧ C).

(** The ledger of the identity strings: the allocator's frontier lies in the
    address space above everything it handed out, nothing is released twice
    or forwarded twice, no two slots share a string, every tag is the address
    of an allocated identity, and every allocated identity is released, or
    forwarded, or held by a slot, and only one of the three. *)
Record ledger (s : State) : Prop := mkLedger {
  ledger_brk_pos : 0 < brk s;
  ledger_brk_max : brk s ≤ ptr_modulus;
  ledger_alloc_range : ∀ p, p ∈ allocated s → 0 < p < brk s;
  ledger_released_range : ∀ p, p ∈ released s → p < brk s;
  ledger_forwarded_range : ∀ p, p ∈ forwarded s → p < brk s;
  ledger_released_once : NoDup (released s);
  ledger_forwarded_once : NoDup (forwarded s);
  ledger_slots_apart :
    ∀ k1 k2 t, tags s !! k1 = Some t → tags s !! k2 = Some t → k1 = k2;
  ledger_tags_allocated :
    ∀ k t, tags s !! k = Some t → ∃ p, p ∈ allocated s ∧ t = ptr_to_jlong p;
  ledger_accounted :
    ∀ p, p ∈ allocated s →
         exactly_one (p ∈ released s) (p ∈ forwarded s) (held s p)
}.

(** Every tagged slot holds the address of a live string that is the
    signature of its class. *)
Record consistent (host : Host) (s : State) : Prop := mkConsistent {
  cons_heap : heap_wf s;
  cons_env : trackingEnv s ≠ NULL;
  cons_tags :
    ∀ k t, tags s !! k = Some t →
           t ≠ NOT_TAGGED ∧
           ∃ str, heap s !! jlong_to_ptr t = Some (BString str) ∧
                  class_signature host 0 k = (JVMTI_ERROR_NONE, str)
}.

(** The signature of a class never changes. *)
Definition signature_stable (host : Host) : Prop :=
  ∀ n k, class_signature host n k = class_signature host 0 k.

(** ** The paths of the code, as outcomes *)

(** The state after a signature query. *)
Definition tick (s : State) : State := with_clock (S (clock s)) s.

(** The state after [classSignature] stored the signature [str]. *)
Definition sig_state (str : string) (s : State) : State :=
  with_allocated (brk s :: allocated s)
    (with_brk (brk s + block_size (BString str))
       (with_heap (<[brk s := BString str]> (heap s)) (tick s))).

Definition logged (c : TagCall) (s : State) : State :=
  with_tag_calls (c :: tag_calls s) s.

Definition freed (p : Z) (s : State) : State :=
  with_released (p :: released s) (with_heap (delete p (heap s)) s).

Definition asserted (text : string) (s : State) : State :=
  with_failed_asserts (text :: failed_asserts s) s.

Definition tag_written (k t : Z) (s : State) : State :=
  with_tags (if decide (t = NOT_TAGGED) then delete k (tags s)
             else <[k := t]> (tags s)) s.

(** The state after the event handler was called. *)
Definition reported (p env : Z) (s : State) : State :=
  with_unloads ((p, env) :: unloads s) s.

(** The state in which the loop of [classTrack_initialize] starts. *)
Definition enumerated (l : list Z) (s : State) : State :=
  with_brk (brk s + block_size (BClasses l))
    (with_heap (<[brk s := BClasses l]> (heap s)) s).

(** The text of the assertion of [addPreparedClass]. *)
Definition strcmp_text : string := "strcmp(signature, oldSignature) == 0".

Section PathDefinitions.

Variable host : Host.

(** The tail of [addPreparedClass]: the tag is written. *)
Definition set_path (k : Z) (s1 : State) (p : Z) : Outcome unit :=
  if decide (trackingEnv s1 = NULL) then Fault "null jvmtiEnv"
  else if decide (SetTag_error host k (ptr_to_jlong p) = JVMTI_ERROR_NONE)
       then Ret tt (tag_written k (ptr_to_jlong p) (logged (CallSetTag k (ptr_to_jlong p)) s1))
       else Exit (SetTag_error host k (ptr_to_jlong p)) "SetTag"
              (freed p (logged (CallSetTag k (ptr_to_jlong p)) s1)).

(** The duplicate path of [addPreparedClass]: the stored string is compared
    and the fresh one released. *)
Definition dup_path (str : string) (t : Z) (s2 : State) (p : Z) : Outcome unit :=
  match heap s2 !! jlong_to_ptr t with
  | Some (BString old) =>
      if decide (strcmp str old = 0) then Ret tt (freed p s2)
      else if assert_is_fatal host
           then Exit AGENT_ERROR_INTERNAL "Assertion Failed"
                  (asserted "strcmp(signature, oldSignature) == 0" s2)
           else Ret tt (freed p (asserted "strcmp(signature, oldSignature) == 0" s2))
  | _ => Fault "read of an address that holds no string"
  end.

(** [addPreparedClass], path by path. *)
Definition addPreparedClass_paths (k : Z) (s : State) : Outcome unit :=
  let '(error, str) := class_signature host (clock s) k in
  if decide (error ≠ JVMTI_ERROR_NONE) then Exit error "signature" (tick s)
  else if decide (brk s + block_size (BString str) ≤ ptr_modulus) then
    let s1 := sig_state str s in
    if checking_enabled host then
      if decide (trackingEnv s = NULL) then Fault "null jvmtiEnv"
      else
        let s2 := logged (CallGetTag k) s1 in
        if decide (GetTag_error host k ≠ JVMTI_ERROR_NONE)
        then Exit (GetTag_error host k) "Unable to GetTag with class trackingEnv" s2
        else if decide (default NOT_TAGGED (tags s !! k) ≠ NOT_TAGGED)
             then dup_path str (default NOT_TAGGED (tags s !! k)) s2 (brk s)
             else set_path k s2 (brk s)
    else set_path k s1 (brk s)
  else Exit JVMTI_ERROR_OUT_OF_MEMORY "signature" (tick s).

(** [step], path by path. *)
Definition step_paths (ev : event) (s : State) : Outcome unit :=
  match ev with
  | Bootstrap k | ClassPrepared k => addPreparedClass_paths k s
  | ObjectFreed k =>
      match tags s !! k with
      | Some t =>
          Ret tt (reported (jlong_to_ptr t) (current_env host)
                    (with_tags (delete k (tags s)) s))
      | None => Ret tt s
      end
  end.

(** Some step of the set-up of [classTrack_initialize] fails. *)
Definition setup_fails : Prop :=
  special_jvmti host = NULL ∨
  AddCapabilities_error host ≠ JVMTI_ERROR_NONE ∨
  SetEventCallbacks_error host ≠ JVMTI_ERROR_NONE ∨
  SetEventNotificationMode_error host JVMTI_EVENT_OBJECT_FREE ≠ JVMTI_ERROR_NONE ∨
  SetEventNotificationMode_error host JVMTI_EVENT_CLASS_PREPARE ≠ JVMTI_ERROR_NONE.

(** What [setupEvents] returns. *)
Definition setup_ok : bool :=
  bool_decide
    (AddCapabilities_error host = JVMTI_ERROR_NONE ∧
     SetEventCallbacks_error host = JVMTI_ERROR_NONE ∧
     SetEventNotificationMode_error host JVMTI_EVENT_OBJECT_FREE
       = JVMTI_ERROR_NONE ∧
     SetEventNotificationMode_error host JVMTI_EVENT_CLASS_PREPARE
       = JVMTI_ERROR_NONE).

End PathDefinitions.

(** ** The vocabulary of the properties *)

(** The slot of class object [k] holds a tag. *)
Definition tagged (s : State) (k : Z) : Prop :=
  ∃ t, tags s !! k = Some t ∧ t ≠ NOT_TAGGED.

(** The class object a call on the tag store is about. *)
Definition call_on (c : TagCall) : Z :=
  match c with
  | CallGetTag k => k
  | CallSetTag k _ => k
  end.

(** Between [s] and [s'] the tag store was called about [k]. *)
Definition called_since (s s' : State) (k : Z) : Prop :=
  ∃ new c, tag_calls s' = new ++ tag_calls s ∧ c ∈ new ∧ call_on c = k.

(** The calls on the tag store in [s'] are those of [s] and later ones. *)
Definition extends (s s' : State) : Prop :=
  ∃ new, tag_calls s' = new ++ tag_calls s.

(** The class has the "prepared" bit or the "array" bit in its status. *)
Definition prepared_or_array (status : Z) : Prop :=
  Z.testbit status 1 = true ∨ Z.testbit status 4 = true.

(** C3 as the spec states it: along every sequence of steps in which the
    class object is not freed, a slot that holds a tag holds that same tag
    ever after. *)
Definition single_tag_invariant (host : Host) : Prop :=
  ∀ (s : State) (evs : list event) (k t : Z) (s' : State),
    0 < brk s →
    tags s !! k = Some t → t ≠ NOT_TAGGED →
    ObjectFreed k ∉ evs →
    final_state (run host evs s) = Some s' →
    tags s' !! k = Some t.

(** A slot that holds a tag holds some tag ever after. *)
Definition stays_tagged (host : Host) : Prop :=
  ∀ (s : State) (evs : list event) (k : Z) (s' : State),
    0 < brk s →
    tagged s k →
    ObjectFreed k ∉ evs →
    final_state (run host evs s) = Some s' →
    tagged s' k.

(** The identity stored for a tagged class object is textually equal to the
    identity that [addPreparedClass] would compute for it now. *)
Definition stored_matches (host : Host) (s : State) : Prop :=
  ∀ k t str,
    tags s !! k = Some t →
    class_signature host (clock s) k = (JVMTI_ERROR_NONE, str) →
    ∃ old, heap s !! jlong_to_ptr t = Some (BString old) ∧ strcmp str old = 0.

(** C2 as the spec states it: after every sequence of steps that returns,
    every identity string that was allocated is released, or forwarded to the
    event handler, or stored in a tag slot from which the free of its class
    object forwards it, and only one of the three. *)
Definition no_leak_no_double_free (host : Host) : Prop :=
  ∀ (s : State) (evs : list event) (s' : State) (p : Z),
    ledger s →
    run host evs s = Ret tt s' →
    p ∈ allocated s' →
    exactly_one (p ∈ released s') (p ∈ forwarded s') (held s' p).

(** The slot that [addPreparedClass] is about to work on is untagged. *)
Definition target_untagged (ev : event) (s : State) : Prop :=
  match ev with
  | Bootstrap k | ClassPrepared k => tags s !! k = None
  | ObjectFreed _ => True
  end.

(** Every call of [addPreparedClass] in the run happens with consistency
    checking enabled or on an untagged class object. *)
Fixpoint guarded (host : Host) (evs : list event) (s : State) : Prop :=
  match evs with
  | [] => True
  | ev :: evs' =>
      (checking_enabled host = true ∨ target_untagged ev s) ∧
      ∀ s', step host ev s = Ret tt s' → guarded host evs' s'
  end.

(** ** Concrete worlds *)

(** Two classes with signatures, every JVMTI call succeeds, consistency
    checking is enabled and a failed assertion does not end the process. *)
Definition demo_signature (n : nat) (k : Z) : Z * string :=
  if decide (k = 1) then (JVMTI_ERROR_NONE, "Lcom/app/Main;"%string)
  else if decide (k = 2) then (JVMTI_ERROR_NONE, "Lcom/app/Helper;"%string)
  else (21, ""%string).

Definition demo_status (k : Z) : Z := if decide (k = 1) then 7 else 0.

Definition host_checked : Host :=
  mkHost (Some (mkGlobalData true false)) 4096 77 demo_signature
    (λ _, JVMTI_ERROR_NONE) (λ _ _, JVMTI_ERROR_NONE)
    JVMTI_ERROR_NONE JVMTI_ERROR_NONE (λ _, JVMTI_ERROR_NONE)
    (JVMTI_ERROR_NONE, [1; 3]) demo_status.

(** The same substrate with no global data: checking is disabled. *)
Definition host_unchecked : Host :=
  mkHost None 4096 77 demo_signature
    (λ _, JVMTI_ERROR_NONE) (λ _ _, JVMTI_ERROR_NONE)
    JVMTI_ERROR_NONE JVMTI_ERROR_NONE (λ _, JVMTI_ERROR_NONE)
    (JVMTI_ERROR_NONE, [1; 3]) demo_status.

(** Substrates on which one call fails. *)
Definition host_no_env : Host :=
  mkHost (Some (mkGlobalData true false)) NULL 77 demo_signature
    (λ _, JVMTI_ERROR_NONE) (λ _ _, JVMTI_ERROR_NONE)
    JVMTI_ERROR_NONE JVMTI_ERROR_NONE (λ _, JVMTI_ERROR_NONE)
    (JVMTI_ERROR_NONE, [1; 3]) demo_status.

Definition host_GetTag_fails : Host :=
  mkHost (Some (mkGlobalData true false)) 4096 77 demo_signature
    (λ _, 20) (λ _ _, JVMTI_ERROR_NONE)
    JVMTI_ERROR_NONE JVMTI_ERROR_NONE (λ _, JVMTI_ERROR_NONE)
    (JVMTI_ERROR_NONE, [1; 3]) demo_status.

Definition host_SetTag_fails : Host :=
  mkHost (Some (mkGlobalData true false)) 4096 77 demo_signature
    (λ _, JVMTI_ERROR_NONE) (λ _ _, 20)
    JVMTI_ERROR_NONE JVMTI_ERROR_NONE (λ _, JVMTI_ERROR_NONE)
    (JVMTI_ERROR_NONE, [1; 3]) demo_status.

(** Before [classTrack_initialize]. *)
Definition fresh_world : State :=
  mkState NULL ∅ ∅ 65536 0 [] [] [] [] false [] [] [].

(** The tracking environment is there, nothing is tagged. *)
Definition ready_world : State :=
  mkState 4096 ∅ ∅ 65536 0 [] [] [] [] false [] [] [].

(** Class 1 was prepared once. *)
Definition world_tagged : State :=
  mkState 4096 {[1 := 65536]} {[65536 := BString "Lcom/app/Main;"]} 65551 1
    [65536] [] [] [CallSetTag 1 65536] false [] [] [].

(** Class 1 was prepared twice without consistency checking. *)
Definition world_retagged : State :=
  mkState 4096 {[1 := 65551]}
    (<[65551 := BString "Lcom/app/Main;"]> {[65536 := BString "Lcom/app/Main;"]})
    65566 2 [65551; 65536] [] []
    [CallSetTag 1 65551; CallSetTag 1 65536] false [] [] [].

(** Classes 1 and 2 are tagged: the scenario of the spec before the free. *)
Definition world_two_classes : State :=
  mkState 4096 (<[2 := 65551]> {[1 := 65536]})
    (<[65551 := BString "Lcom/app/Helper;"]> {[65536 := BString "Lcom/app/Main;"]})
    65568 2 [65551; 65536] [] []
    [CallSetTag 2 65551; CallGetTag 2; CallSetTag 1 65536; CallGetTag 1]
    false [] [] [].

(** The state a run ends in, [fresh_world] when it ends in none. *)
Definition state_after (o : Outcome unit) : State :=
  match o with
  | Ret _ s => s
  | Exit _ _ s => s
  | Fault _ => fresh_world
  end.

(** The events of the scenario of the spec, with a repeated notification. *)
Definition demo_events : list event :=
  [Bootstrap 1; ClassPrepared 2; ClassPrepared 1; ObjectFreed 1].

(** ** More vocabulary: the set-up and the safety of memory *)

(** The callbacks that [setupEvents] installs. *)
Definition tracking_callbacks : list callback :=
  [cbTrackingObjectFree_fn; cbTrackingClassPrepare_fn].

(** The state [setupEvents] leaves: every call that succeeded has had its
    effect, up to the first call that failed. *)
Definition setup_result (host : Host) (s : State) : State :=
  if decide (AddCapabilities_error host ≠ JVMTI_ERROR_NONE) then s
  else
    let s1 := with_object_free_capability true s in
    if decide (SetEventCallbacks_error host ≠ JVMTI_ERROR_NONE) then s1
    else
      let s2 := with_callbacks tracking_callbacks s1 in
      if decide (SetEventNotificationMode_error host JVMTI_EVENT_OBJECT_FREE
                 ≠ JVMTI_ERROR_NONE) then s2
      else
        let s3 := with_enabled_events
                    (JVMTI_EVENT_OBJECT_FREE :: enabled_events s2) s2 in
        if decide (SetEventNotificationMode_error host JVMTI_EVENT_CLASS_PREPARE
                   ≠ JVMTI_ERROR_NONE) then s3
        else with_enabled_events
               (JVMTI_EVENT_CLASS_PREPARE :: enabled_events s3) s3.

(** The text of the assertion of the two callbacks. *)
Definition env_text : string := "jvmti_env == trackingEnv".

(** Every tag in the store is the address of a live string. *)
Definition tags_live (s : State) : Prop :=
  ∀ k t, tags s !! k = Some t →
         ∃ str, heap s !! jlong_to_ptr t = Some (BString str).

(** A host like [host_checked] on which a failed assertion ends the
    process. *)
Definition host_fatal : Host :=
  mkHost (Some (mkGlobalData true true)) 4096 77 demo_signature
    (λ _, JVMTI_ERROR_NONE) (λ _ _, JVMTI_ERROR_NONE)
    JVMTI_ERROR_NONE JVMTI_ERROR_NONE (λ _, JVMTI_ERROR_NONE)
    (JVMTI_ERROR_NONE, [1; 3]) demo_status.

(** Hosts on which one step of the set-up fails. *)
Definition host_callbacks_fail : Host :=
  mkHost (Some (mkGlobalData true false)) 4096 77 demo_signature
    (λ _, JVMTI_ERROR_NONE) (λ _ _, JVMTI_ERROR_NONE)
    JVMTI_ERROR_NONE 98 (λ _, JVMTI_ERROR_NONE)
    (JVMTI_ERROR_NONE, [1; 3]) demo_status.

Definition host_enumeration_fails : Host :=
  mkHost (Some (mkGlobalData true false)) 4096 77 demo_signature
    (λ _, JVMTI_ERROR_NONE) (λ _ _, JVMTI_ERROR_NONE)
    JVMTI_ERROR_NONE JVMTI_ERROR_NONE (λ _, JVMTI_ERROR_NONE)
    (112, []) demo_status.

(** A host whose loaded classes are neither prepared nor arrays. *)
Definition host_nothing_prepared : Host :=
  mkHost (Some (mkGlobalData true false)) 4096 77 demo_signature
    (λ _, JVMTI_ERROR_NONE) (λ _ _, JVMTI_ERROR_NONE)
    JVMTI_ERROR_NONE JVMTI_ERROR_NONE (λ _, JVMTI_ERROR_NONE)
    (JVMTI_ERROR_NONE, [3; 5]) demo_status.

(** ** Pointer and tag conversions *)

Lemma ptr_modulus_eq : ptr_modulus = 18446744073709551616.
Proof. reflexivity. Qed.

Lemma jlong_ptr_roundtrip (p : Z) :
  0 ≤ p < ptr_modulus → jlong_to_ptr (ptr_to_jlong p) = p.
Proof.
  intros Hp. unfold jlong_to_ptr, ptr_to_jlong. cbv zeta.
  rewrite (Z.mod_small p) by lia.
  destruct (p <? 2 ^ 63) eqn:E.
  - apply Z.mod_small. lia.
  - apply Z.ltb_ge in E. rewrite ptr_modulus_eq in *.
    replace (p - 18446744073709551616) with (p + (-1) * 18446744073709551616) by lia.
    rewrite Z.mod_add by lia. apply Z.mod_small. lia.
Qed.

Lemma ptr_to_jlong_inj (p q : Z) :
  0 ≤ p < ptr_modulus → 0 ≤ q < ptr_modulus →
  ptr_to_jlong p = ptr_to_jlong q → p = q.
Proof.
  intros Hp Hq E.
  rewrite <- (jlong_ptr_roundtrip p Hp), <- (jlong_ptr_roundtrip q Hq).
  by rewrite E.
Qed.

Lemma ptr_to_jlong_nonnull (p : Z) :
  0 < p < ptr_modulus → ptr_to_jlong p ≠ NOT_TAGGED.
Proof.
  intros Hp E.
  assert (jlong_to_ptr (ptr_to_jlong p) = p) as R by (apply jlong_ptr_roundtrip; lia).
  rewrite E in R. unfold jlong_to_ptr, NOT_TAGGED in R.
  rewrite Z.mod_0_l in R by (rewrite ptr_modulus_eq; lia). lia.
Qed.

Lemma strcmp_refl (a : string) : strcmp a a = 0.
Proof.
  induction a as [|c a IH]; [done|]. cbn. by rewrite Ascii.eqb_refl.
Qed.

Lemma strcmp_zero (a b : string) : strcmp a b = 0 ↔ a = b.
Proof.
  split; [|intros ->; apply strcmp_refl].
  revert b. induction a as [|c a IH]; intros [|d b]; cbn; try done; try lia.
  destruct (Ascii.eqb c d) eqn:E.
  - apply Ascii.eqb_eq in E. intros H. f_equal; [done|by apply IH].
  - intros H. apply Ascii.eqb_neq in E. exfalso. apply E.
    assert (Ascii.N_of_ascii c = Ascii.N_of_ascii d) as HN by lia.
    rewrite <- (Ascii.ascii_N_embedding c), <- (Ascii.ascii_N_embedding d).
    by rewrite HN.
Qed.

Lemma block_size_pos (b : block) : 0 < block_size b.
Proof. destruct b; cbn; lia. Qed.

(** ** Running the monad *)

Lemma bind_run {A B : Type} (m : M A) (f : A → M B) (s : State) :
  (m ≫= f) s =
    match m s with
    | Ret a s' => f a s'
    | Exit e msg s' => Exit e msg s'
    | Fault why => Fault why
    end.
Proof. reflexivity. Qed.

Lemma ret_run {A : Type} (a : A) (s : State) : (mret a : M A) s = Ret a s.
Proof. reflexivity. Qed.

Lemma bind_Ret {A B : Type} (m : M A) (f : A → M B) (s s' : State) (a : A) :
  m s = Ret a s' → (m ≫= f) s = f a s'.
Proof. intros E. by rewrite bind_run, E. Qed.

Lemma bind_Exit {A B : Type} (m : M A) (f : A → M B) (s s' : State) e msg :
  m s = Exit e msg s' → (m ≫= f) s = Exit e msg s'.
Proof. intros E. by rewrite bind_run, E. Qed.

Lemma bind_Fault {A B : Type} (m : M A) (f : A → M B) (s : State) why :
  m s = Fault why → (m ≫= f) s = Fault why.
Proof. intros E. by rewrite bind_run, E. Qed.

(** Decides the tests of an error code whose value is known. *)
Ltac same_error :=
  repeat match goal with
  | |- context [decide (?e ≠ ?e)] =>
      let Hc := fresh in
      destruct (decide (e ≠ e)) as [Hc|_]; [exfalso; apply Hc; reflexivity|]
  | H : ?e ≠ JVMTI_ERROR_NONE |- context [decide (?e ≠ JVMTI_ERROR_NONE)] =>
      rewrite (decide_True (P := e ≠ JVMTI_ERROR_NONE)) by exact H
  | H : ?e = JVMTI_ERROR_NONE |- context [decide (?e ≠ JVMTI_ERROR_NONE)] =>
      rewrite (decide_False (P := e ≠ JVMTI_ERROR_NONE)) by (intros ?; done)
  end.

Section Paths.
Variable host : Host.

Lemma classSignature_run (k : Z) (s : State) :
  classSignature host k s =
    let '(error, str) := class_signature host (clock s) k in
    if decide (error = JVMTI_ERROR_NONE) then
      if decide (brk s + block_size (BString str) ≤ ptr_modulus)
      then Ret (JVMTI_ERROR_NONE, brk s) (sig_state str s)
      else Ret (JVMTI_ERROR_OUT_OF_MEMORY, NULL) (tick s)
    else Ret (error, NULL) (tick s).
Proof.
  unfold classSignature, jvmti_allocate.
  destruct (class_signature host (clock s) k) as [e str].
  destruct (decide (e = JVMTI_ERROR_NONE)); [|done].
  cbn. case_decide as Hfit.
  - apply Z.leb_le in Hfit. by rewrite Hfit.
  - apply Z.leb_nle in Hfit. by rewrite Hfit.
Qed.

Lemma GetTag_run (env k : Z) (s : State) :
  env ≠ NULL →
  GetTag host env k s =
    Ret (GetTag_error host k,
         if decide (GetTag_error host k = JVMTI_ERROR_NONE)
         then default NOT_TAGGED (tags s !! k) else NOT_TAGGED)
        (logged (CallGetTag k) s).
Proof.
  intros Henv. unfold GetTag, JVMTI_FUNC_PTR.
  destruct (decide (env = NULL)); [done|].
  rewrite !bind_run. cbn.
  case_decide as E; [|done]. rewrite bind_run. cbn. by rewrite E.
Qed.

Lemma SetTag_run (env k t : Z) (s : State) :
  env ≠ NULL →
  SetTag host env k t s =
    Ret (SetTag_error host k t)
        (if decide (SetTag_error host k t = JVMTI_ERROR_NONE)
         then tag_written k t (logged (CallSetTag k t) s)
         else logged (CallSetTag k t) s).
Proof.
  intros Henv. unfold SetTag, JVMTI_FUNC_PTR.
  destruct (decide (env = NULL)); [done|].
  rewrite !bind_run. cbn.
  case_decide as E; [|done]. rewrite bind_run. cbn. by rewrite E.
Qed.

Lemma jvmtiDeallocate_run (p : Z) (b : block) (s : State) :
  p ≠ NULL → heap s !! p = Some b →
  jvmtiDeallocate p s = Ret tt (freed p s).
Proof.
  intros Hp Hb. unfold jvmtiDeallocate.
  destruct (decide (p = NULL)); [done|]. by rewrite Hb.
Qed.

Lemma JDI_ASSERT_off (e : M bool) (text : string) (s : State) :
  checking_enabled host = false → JDI_ASSERT host e text s = Ret tt s.
Proof. intros E. unfold JDI_ASSERT. by rewrite E. Qed.

Lemma JDI_ASSERT_on (e : M bool) (text : string) (s s' : State) (holds : bool) :
  checking_enabled host = true →
  e s = Ret holds s' →
  JDI_ASSERT host e text s =
    if holds then Ret tt s'
    else if assert_is_fatal host
         then Exit AGENT_ERROR_INTERNAL "Assertion Failed" (asserted text s')
         else Ret tt (asserted text s').
Proof.
  intros Hon E. unfold JDI_ASSERT. rewrite Hon, (bind_Ret _ _ _ _ _ E).
  destruct holds; [done|]. rewrite bind_run. cbn.
  by destruct (assert_is_fatal host).
Qed.

Lemma set_tail_run (k p : Z) (b : block) (s : State) :
  p ≠ NULL → heap s !! p = Some b →
  ((tenv ← get trackingEnv;
    error ← SetTag host tenv k (ptr_to_jlong p);
    if decide (error ≠ JVMTI_ERROR_NONE)
    then jvmtiDeallocate p;; EXIT_ERROR error "SetTag"
    else mret ()) : M unit) s = set_path host k s p.
Proof.
  intros Hp Hl. unfold set_path. rewrite bind_run. cbn [get].
  case_decide as Hnull.
  - unfold SetTag, JVMTI_FUNC_PTR. rewrite bind_run, bind_run.
    by rewrite decide_True.
  - rewrite bind_run, SetTag_run by done.
    destruct (decide (SetTag_error host k (ptr_to_jlong p) = JVMTI_ERROR_NONE))
      as [Hset|Hset].
    + by same_error.
    + same_error. rewrite bind_run.
      by erewrite jvmtiDeallocate_run.
Qed.

Lemma dup_tail_run (str : string) (p t : Z) (s : State) :
  checking_enabled host = true →
  p ≠ NULL → heap s !! p = Some (BString str) →
  ((JDI_ASSERT host (a ← read_string p;
                     b ← read_string (jlong_to_ptr t);
                     mret (bool_decide (strcmp a b = 0)))
      "strcmp(signature, oldSignature) == 0";;
    jvmtiDeallocate p;;
    mret true) : M bool) s =
  match dup_path host str t s p with
  | Ret _ s' => Ret true s'
  | Exit e msg s' => Exit e msg s'
  | Fault why => Fault why
  end.
Proof.
  intros Hchk Hp Hl. unfold dup_path. rewrite bind_run.
  destruct (heap s !! jlong_to_ptr t) as [[old|]|] eqn:Hold.
  - erewrite JDI_ASSERT_on; [|done|].
    2:{ rewrite bind_run. unfold read_string at 1. rewrite Hl.
        rewrite bind_run. unfold read_string. rewrite Hold. reflexivity. }
    destruct (decide (strcmp str old = 0)) as [E|E].
    + rewrite bool_decide_eq_true_2 by done.
      rewrite bind_run. by erewrite jvmtiDeallocate_run.
    + rewrite bool_decide_eq_false_2 by done.
      destruct (assert_is_fatal host); [done|].
      rewrite bind_run. by erewrite jvmtiDeallocate_run.
  - unfold JDI_ASSERT. rewrite Hchk, !bind_run. unfold read_string at 1.
    rewrite Hl, bind_run. unfold read_string. by rewrite Hold.
  - unfold JDI_ASSERT. rewrite Hchk, !bind_run. unfold read_string at 1.
    rewrite Hl, bind_run. unfold read_string. by rewrite Hold.
Qed.

Lemma addPreparedClass_run (env k : Z) (s : State) :
  brk s ≠ NULL →
  addPreparedClass host env k s = addPreparedClass_paths host k s.
Proof.
  intros Hp. unfold addPreparedClass, addPreparedClass_paths.
  rewrite bind_run, classSignature_run.
  destruct (class_signature host (clock s) k) as [e str].
  destruct (decide (e = JVMTI_ERROR_NONE)) as [->|Hne].
  2:{ rewrite bind_run. unfold EXIT_ERROR. by same_error. }
  same_error.
  case_decide as Hfit.
  2:{ rewrite bind_run. unfold EXIT_ERROR. by rewrite decide_True. }
  rewrite bind_run. same_error.
  rewrite ret_run. cbv beta iota.
  set (s1 := sig_state str s).
  assert (heap s1 !! brk s = Some (BString str)) as Hlive.
  { subst s1. cbn. apply lookup_insert_eq. }
  rewrite bind_run.
  destruct (checking_enabled host) eqn:Hchk.
  2:{ rewrite ret_run. cbv beta iota.
      by apply set_tail_run with (BString str). }
  rewrite bind_run. cbn [get].
  change (trackingEnv s1) with (trackingEnv s).
  case_decide as Hnull.
  { unfold GetTag, JVMTI_FUNC_PTR. rewrite !bind_run.
    by rewrite decide_True. }
  rewrite bind_run, GetTag_run by done.
  destruct (decide (GetTag_error host k = JVMTI_ERROR_NONE)) as [Hget|Hget].
  2:{ same_error. rewrite bind_run. unfold EXIT_ERROR. by same_error. }
  same_error.
  rewrite bind_run.
  rewrite ret_run. cbv beta iota.
  change (tags s1) with (tags s).
  case_decide as Htag.
  2:{ rewrite ret_run. cbv beta iota. by apply set_tail_run with (BString str). }
  rewrite (dup_tail_run str) by done.
  by destruct (dup_path _ _ _ _ _) as [[] ?| ? ? ? | ?].
Qed.

End Paths.

Section Steps.
Variable host : Host.

Lemma env_check_run (jvmti_env : Z) (s : State) :
  jvmti_env = trackingEnv s →
  JDI_ASSERT host (e ← get trackingEnv; mret (bool_decide (jvmti_env = e)))
    "jvmti_env == trackingEnv" s = Ret tt s.
Proof.
  intros ->. unfold JDI_ASSERT. destruct (checking_enabled host); [|done].
  rewrite !bind_run. cbn [get]. rewrite ret_run.
  by rewrite bool_decide_eq_true_2.
Qed.

Lemma cbTrackingObjectFree_run (jvmti_env tag : Z) (s : State) :
  jvmti_env = trackingEnv s →
  cbTrackingObjectFree host jvmti_env tag s =
    Ret tt (reported (jlong_to_ptr tag) (current_env host) s).
Proof.
  intros He. unfold cbTrackingObjectFree.
  rewrite bind_run, env_check_run by done. reflexivity.
Qed.

Lemma cbTrackingClassPrepare_run (jvmti_env env thread k : Z) (s : State) :
  jvmti_env = trackingEnv s → brk s ≠ NULL →
  cbTrackingClassPrepare host jvmti_env env thread k s =
    addPreparedClass_paths host k s.
Proof.
  intros He Hp. unfold cbTrackingClassPrepare.
  rewrite bind_run, env_check_run by done.
  by apply addPreparedClass_run.
Qed.

Lemma step_run (ev : event) (s : State) :
  brk s ≠ NULL → step host ev s = step_paths host ev s.
Proof.
  intros Hp. destruct ev as [k|k|k]; cbn [step step_paths].
  - rewrite bind_run. cbn. by apply addPreparedClass_run.
  - rewrite !bind_run. cbn [get getEnv]. rewrite bind_run. unfold getEnv. rewrite ret_run. cbv beta iota.
    by apply cbTrackingClassPrepare_run.
  - rewrite bind_run. cbn [get]. destruct (tags s !! k) as [t|]; [|done].
    rewrite !bind_run. cbn [modify get].
    rewrite bind_run. cbn [get]. by rewrite cbTrackingObjectFree_run.
Qed.

Lemma run_cons (ev : event) (evs : list event) (s : State) :
  run host (ev :: evs) s =
    match step host ev s with
    | Ret _ s' => run host evs s'
    | Exit e msg s' => Exit e msg s'
    | Fault why => Fault why
    end.
Proof. reflexivity. Qed.

(** *** What every path of [addPreparedClass] does to the world *)

(** The allocator's frontier only moves up. *)
Lemma addPreparedClass_paths_brk (k : Z) (s s' : State) :
  final_state (addPreparedClass_paths host k s) = Some s' → brk s ≤ brk s'.
Proof.
  unfold addPreparedClass_paths, set_path, dup_path.
  destruct (class_signature host (clock s) k) as [e str].
  pose proof (block_size_pos (BString str)).
  repeat (case_decide || case_match); cbn; intros [= <-]; cbn; lia.
Qed.

Lemma step_paths_brk (ev : event) (s s' : State) :
  final_state (step_paths host ev s) = Some s' → brk s ≤ brk s'.
Proof.
  destruct ev as [k|k|k]; cbn [step_paths];
    try apply addPreparedClass_paths_brk.
  destruct (tags s !! k); cbn; intros [= <-]; cbn; lia.
Qed.

Lemma fresh_not_live (s : State) : heap_wf s → heap s !! brk s = None.
Proof.
  intros Hwf. destruct (heap s !! brk s) eqn:E; [|done].
  apply (wf_heap_below _ Hwf) in E. lia.
Qed.

Lemma fresh_nonnull (s : State) (b : block) :
  0 < brk s → brk s + block_size b ≤ ptr_modulus →
  ptr_to_jlong (brk s) ≠ NOT_TAGGED.
Proof.
  intros Hpos Hfit. apply ptr_to_jlong_nonnull.
  pose proof (block_size_pos b). lia.
Qed.

(** C5: with consistency checking enabled, [addPreparedClass] on an object
    whose tag slot is already tagged queries the slot once and never writes
    it, compares the stored identity with the fresh one, and, when the two
    are textually equal, releases the fresh string and returns with the slot,
    the heap and the assertion record as they were.  When the two differ the
    failure of the assertion is recorded, the slot is still not written, and
    the fresh string is released unless the assertion ends the process. *)
Theorem addPreparedClass_already_tagged (env k t : Z) (str old : string) (s : State) :
  heap_wf s →
  checking_enabled host = true →
  trackingEnv s ≠ NULL →
  class_signature host (clock s) k = (JVMTI_ERROR_NONE, str) →
  brk s + block_size (BString str) ≤ ptr_modulus →
  GetTag_error host k = JVMTI_ERROR_NONE →
  tags s !! k = Some t → t ≠ NOT_TAGGED →
  heap s !! jlong_to_ptr t = Some (BString old) →
  ∃ s', final_state (addPreparedClass host env k s) = Some s' ∧
        tags s' = tags s ∧
        tag_calls s' = CallGetTag k :: tag_calls s ∧
        (str = old →
           addPreparedClass host env k s = Ret tt s' ∧
           failed_asserts s' = failed_asserts s ∧
           released s' = brk s :: released s ∧
           heap s' = heap s) ∧
        (str ≠ old →
           failed_asserts s' =
             "strcmp(signature, oldSignature) == 0"%string :: failed_asserts s ∧
           if assert_is_fatal host
           then addPreparedClass host env k s =
                  Exit AGENT_ERROR_INTERNAL "Assertion Failed" s'
           else addPreparedClass host env k s = Ret tt s' ∧
                released s' = brk s :: released s ∧
                heap s' = heap s).
Proof.
  intros Hwf Hchk Henv Hsig Hfit Hget Htag Hnz Hold.
  pose proof (fresh_not_live s Hwf) as Hfresh.
  assert (brk s ≠ NULL) as Hp by (destruct Hwf; unfold NULL; lia).
  assert (jlong_to_ptr t ≠ brk s) as Hne.
  { intros E. rewrite E in Hold. congruence. }
  rewrite addPreparedClass_run by done.
  assert (default NOT_TAGGED (tags s !! k) = t) as Hd by (by rewrite Htag).
  unfold addPreparedClass_paths. rewrite Hsig, Hchk, Hd.
  same_error. rewrite decide_True by done.
  rewrite (decide_False (P := trackingEnv s = NULL)) by done.
  same_error. rewrite decide_True by done.
  unfold dup_path. cbn [logged sig_state heap with_tag_calls with_allocated
    with_brk with_heap tick with_clock].
  rewrite lookup_insert_ne by done. rewrite Hold.
  destruct (decide (strcmp str old = 0)) as [E|E].
  - apply strcmp_zero in E. eexists. split; [reflexivity|]. cbn.
    split_and!; try done.
    + intros _. split_and!; try done. by apply delete_insert_id.
  - assert (str ≠ old) as Hdiff by (intros ->; apply E, strcmp_refl).
    destruct (assert_is_fatal host); eexists; (split; [reflexivity|]); cbn;
      split_and!; try done.
    intros _. split_and!; try done. by apply delete_insert_id.
Qed.

(** C6: when the write of the tag fails, [addPreparedClass] ends the process
    with the error of SetTag, and by then the fresh identity string has been
    released: it is recorded as released and is no longer on the heap, and
    the tag store is as it was. *)
Theorem addPreparedClass_SetTag_fails (env k : Z) (str : string) (s : State) :
  heap_wf s →
  trackingEnv s ≠ NULL →
  class_signature host (clock s) k = (JVMTI_ERROR_NONE, str) →
  brk s + block_size (BString str) ≤ ptr_modulus →
  (checking_enabled host = false ∨
   (GetTag_error host k = JVMTI_ERROR_NONE ∧ tags s !! k = None)) →
  SetTag_error host k (ptr_to_jlong (brk s)) ≠ JVMTI_ERROR_NONE →
  ∃ s', addPreparedClass host env k s =
          Exit (SetTag_error host k (ptr_to_jlong (brk s))) "SetTag" s' ∧
        allocated s' = brk s :: allocated s ∧
        released s' = brk s :: released s ∧
        heap s' !! brk s = None ∧
        heap s' = heap s ∧
        tags s' = tags s.
Proof.
  intros Hwf Henv Hsig Hfit Hreach Hset.
  pose proof (fresh_not_live s Hwf) as Hfresh.
  assert (brk s ≠ NULL) as Hp by (destruct Hwf; unfold NULL; lia).
  rewrite addPreparedClass_run by done.
  unfold addPreparedClass_paths. rewrite Hsig.
  same_error. rewrite decide_True by done.
  assert (∀ s1, trackingEnv s1 = trackingEnv s →
            heap s1 = <[brk s := BString str]> (heap s) →
            allocated s1 = brk s :: allocated s →
            released s1 = released s → tags s1 = tags s →
            ∃ s', set_path host k s1 (brk s) =
                    Exit (SetTag_error host k (ptr_to_jlong (brk s))) "SetTag" s' ∧
                  allocated s' = brk s :: allocated s ∧
                  released s' = brk s :: released s ∧
                  heap s' !! brk s = None ∧ heap s' = heap s ∧
                  tags s' = tags s) as Hpath.
  { intros s1 E1 E2 E3 E4 E5. unfold set_path. rewrite E1.
    rewrite (decide_False (P := trackingEnv s = NULL)) by done.
    rewrite decide_False by done.
    eexists. split; [reflexivity|]. cbn. rewrite E2, E3, E4, E5.
    split_and!; try done.
    - apply lookup_delete_eq.
    - by apply delete_insert_id. }
  destruct Hreach as [Hoff|[Hget Htag]].
  - rewrite Hoff. by apply Hpath.
  - destruct (checking_enabled host).
    + rewrite (decide_False (P := trackingEnv s = NULL)) by done.
      assert (default NOT_TAGGED (tags s !! k) = NOT_TAGGED) as Hd
        by (by rewrite Htag).
      same_error. rewrite Hd.
      rewrite decide_False by (intros ?; done).
      by apply Hpath.
    + by apply Hpath.
Qed.

(** C10: with consistency checking disabled (no global data, or its assert
    flag off) [addPreparedClass] makes one call on the tag store, the SetTag
    of the fresh identity: there is no GetTag.  The slot holds the fresh
    identity afterwards whatever it held before (a tag it held before is a
    different value), nothing is released, every block that was live is still
    live, and no failed assertion is recorded. *)
Theorem addPreparedClass_unchecked_overwrites (env k : Z) (str : string) (s : State) :
  (gdata host = None ∨ ∃ g, gdata host = Some g ∧ assertOn g = false) →
  heap_wf s →
  trackingEnv s ≠ NULL →
  class_signature host (clock s) k = (JVMTI_ERROR_NONE, str) →
  brk s + block_size (BString str) ≤ ptr_modulus →
  SetTag_error host k (ptr_to_jlong (brk s)) = JVMTI_ERROR_NONE →
  ∃ s', addPreparedClass host env k s = Ret tt s' ∧
        tag_calls s' = CallSetTag k (ptr_to_jlong (brk s)) :: tag_calls s ∧
        tags s' = <[k := ptr_to_jlong (brk s)]> (tags s) ∧
        ptr_to_jlong (brk s) ≠ NOT_TAGGED ∧
        (∀ t, tags s !! k = Some t → is_Some (heap s !! jlong_to_ptr t) →
              t ≠ ptr_to_jlong (brk s)) ∧
        released s' = released s ∧
        (∀ p b, heap s !! p = Some b → heap s' !! p = Some b) ∧
        failed_asserts s' = failed_asserts s.
Proof.
  intros Hoff Hwf Henv Hsig Hfit Hset.
  assert (checking_enabled host = false) as Hchk.
  { unfold checking_enabled. by destruct Hoff as [->|(g & -> & ->)]. }
  pose proof (fresh_not_live s Hwf) as Hfresh.
  assert (brk s ≠ NULL) as Hp by (destruct Hwf; unfold NULL; lia).
  assert (ptr_to_jlong (brk s) ≠ NOT_TAGGED) as Hnn.
  { apply fresh_nonnull with (BString str); [by destruct Hwf|done]. }
  rewrite addPreparedClass_run by done.
  unfold addPreparedClass_paths. rewrite Hsig, Hchk.
  same_error. rewrite decide_True by done.
  unfold set_path. cbn [sig_state trackingEnv with_allocated with_brk with_heap tick with_clock].
  rewrite (decide_False (P := trackingEnv s = NULL)) by done.
  rewrite decide_True by done.
  eexists. split; [reflexivity|]. cbn.
  rewrite (decide_False (P := ptr_to_jlong (brk s) = NOT_TAGGED)) by done.
  split_and!; try done.
  - intros t Ht [b Hb] ->. rewrite jlong_ptr_roundtrip in Hb.
    + congruence.
    + pose proof (block_size_pos (BString str)). destruct Hwf. lia.
  - intros p b Hb. rewrite lookup_insert_ne; [done|]. intros <-. congruence.
Qed.

End Steps.

Section Unload.
Variable host : Host.

(** C1: when a class object's slot holds a tag whose address is the identity
    string [S] and the substrate delivers the object-free notification with
    that tag on the tracking environment, the handler returns having made
    exactly one more call of [eventHandler_synthesizeUnloadEvent]; the call's
    first argument is the address of [S], still on the heap, and its second
    the JNI environment of the current thread.  So does the free of the class
    object by the substrate, which delivers that notification. *)
Theorem cbTrackingObjectFree_reports_identity
    (jvmti_env k tag : Z) (S : string) (s : State) :
  tags s !! k = Some tag →
  heap s !! jlong_to_ptr tag = Some (BString S) →
  jvmti_env = trackingEnv s →
  (∃ s' p, cbTrackingObjectFree host jvmti_env tag s = Ret tt s' ∧
           unloads s' = (p, current_env host) :: unloads s ∧
           p = jlong_to_ptr tag ∧
           heap s' !! p = Some (BString S)) ∧
  (∃ s', step host (ObjectFreed k) s = Ret tt s' ∧
         unloads s' = (jlong_to_ptr tag, current_env host) :: unloads s ∧
         heap s' !! jlong_to_ptr tag = Some (BString S)).
Proof.
  intros Htag Hheap Henv. split.
  - rewrite cbTrackingObjectFree_run by done.
    eexists _, _. split; [reflexivity|]. by cbn.
  - cbn [step]. rewrite bind_run. cbn [get]. rewrite Htag.
    rewrite !bind_run. cbn [modify]. rewrite bind_run. cbn [get].
    rewrite cbTrackingObjectFree_run by done.
    eexists. split; [reflexivity|]. by cbn.
Qed.

(** The handler whatever the environment it is called on. *)
Lemma cbTrackingObjectFree_any (jvmti_env tag : Z) (s : State) :
  ∃ s', final_state (cbTrackingObjectFree host jvmti_env tag s) = Some s' ∧
        tags s' = tags s ∧ heap s' = heap s ∧ released s' = released s ∧
        tag_calls s' = tag_calls s ∧ allocated s' = allocated s.
Proof.
  unfold cbTrackingObjectFree. rewrite bind_run.
  destruct (checking_enabled host) eqn:Hchk.
  - erewrite JDI_ASSERT_on; [|done|].
    2:{ rewrite bind_run. cbn [get]. rewrite ret_run. reflexivity. }
    destruct (bool_decide _).
    + eexists. split; [reflexivity|]. by cbn.
    + destruct (assert_is_fatal host); eexists; (split; [reflexivity|]); by cbn.
  - rewrite JDI_ASSERT_off by done. eexists. split; [reflexivity|]. by cbn.
Qed.

(** C9: the object-free handler leaves the tag store, the heap and the record
    of released blocks as they were and makes no call on the tag store,
    whatever tag it is given: it frees nothing and checks nothing about the
    tag, which it forwards as it is.  When the substrate frees one class
    object, the slot of every other class object is unchanged. *)
Theorem object_free_frame (jvmti_env tag k other : Z) (s : State) :
  other ≠ k →
  (∃ s', final_state (cbTrackingObjectFree host jvmti_env tag s) = Some s' ∧
         tags s' = tags s ∧ heap s' = heap s ∧ released s' = released s ∧
         tag_calls s' = tag_calls s) ∧
  cbTrackingObjectFree host (trackingEnv s) tag s =
    Ret tt (reported (jlong_to_ptr tag) (current_env host) s) ∧
  (∃ s', final_state (step host (ObjectFreed k) s) = Some s' ∧
         tags s' !! other = tags s !! other ∧ tags s' !! k = None ∧
         heap s' = heap s ∧ released s' = released s).
Proof.
  intros Hne. split_and!.
  - destruct (cbTrackingObjectFree_any jvmti_env tag s) as (s' & ? & ? & ? & ? & ? & ?).
    by exists s'.
  - by apply cbTrackingObjectFree_run.
  - cbn [step]. rewrite bind_run. cbn [get].
    destruct (tags s !! k) as [t|] eqn:Et.
    + rewrite !bind_run. cbn [modify]. rewrite bind_run. cbn [get].
      rewrite cbTrackingObjectFree_run by done.
      eexists. split; [reflexivity|]. cbn.
      split_and!; try done.
      * by apply lookup_delete_ne.
      * by apply lookup_delete_eq.
    + eexists. split; [reflexivity|]. by cbn.
Qed.

End Unload.

Section Fatal.
Variable host : Host.

Lemma setupEvents_run (s : State) :
  trackingEnv s ≠ NULL →
  ∃ s', setupEvents host s =
          Ret (bool_decide
                 (AddCapabilities_error host = JVMTI_ERROR_NONE ∧
                  SetEventCallbacks_error host = JVMTI_ERROR_NONE ∧
                  SetEventNotificationMode_error host JVMTI_EVENT_OBJECT_FREE
                    = JVMTI_ERROR_NONE ∧
                  SetEventNotificationMode_error host JVMTI_EVENT_CLASS_PREPARE
                    = JVMTI_ERROR_NONE)) s' ∧
        trackingEnv s' = trackingEnv s ∧ tags s' = tags s ∧
        heap s' = heap s ∧ brk s' = brk s ∧ tag_calls s' = tag_calls s.
Proof.
  intros Henv. unfold setupEvents. rewrite bind_run. cbn [get].
  unfold AddCapabilities, SetEventCallbacks, SetEventNotificationMode,
    JVMTI_FUNC_PTR.
  rewrite (decide_False (P := trackingEnv s = NULL)) by done.
  rewrite !bind_run, ret_run. cbv beta iota.
  destruct (decide (AddCapabilities_error host = JVMTI_ERROR_NONE)) as [E1|E1].
  2:{ rewrite ret_run. same_error. rewrite ret_run, bool_decide_eq_false_2 by tauto.
      by eexists. }
  rewrite bind_run. cbn [modify]. rewrite ret_run. same_error.
  rewrite !bind_run, ret_run. cbv beta iota.
  destruct (decide (SetEventCallbacks_error host = JVMTI_ERROR_NONE)) as [E2|E2].
  2:{ rewrite ret_run. same_error. rewrite ret_run, bool_decide_eq_false_2 by tauto.
      by eexists. }
  rewrite bind_run. cbn [modify]. rewrite ret_run. same_error.
  rewrite !bind_run, ret_run. cbv beta iota.
  destruct (decide (SetEventNotificationMode_error host JVMTI_EVENT_OBJECT_FREE
                    = JVMTI_ERROR_NONE)) as [E3|E3].
  2:{ rewrite ret_run. same_error. rewrite ret_run, bool_decide_eq_false_2 by tauto.
      by eexists. }
  rewrite bind_run. cbn [modify]. rewrite ret_run. same_error.
  rewrite !bind_run, ret_run. cbv beta iota.
  destruct (decide (SetEventNotificationMode_error host JVMTI_EVENT_CLASS_PREPARE
                    = JVMTI_ERROR_NONE)) as [E4|E4].
  2:{ rewrite ret_run. same_error. rewrite ret_run, bool_decide_eq_false_2 by tauto.
      by eexists. }
  rewrite bind_run. cbn [modify]. rewrite ret_run. same_error.
  rewrite ret_run, bool_decide_eq_true_2 by tauto.
  by eexists.
Qed.

End Fatal.

Section Initialize.
Variable host : Host.

Lemma allLoadedClasses_run (s : State) :
  allLoadedClasses host s =
    let '(error, l) := loaded_classes host in
    if decide (error = JVMTI_ERROR_NONE) then
      if decide (brk s + block_size (BClasses l) ≤ ptr_modulus)
      then Ret (JVMTI_ERROR_NONE, brk s, Z.of_nat (length l)) (enumerated l s)
      else Ret (JVMTI_ERROR_OUT_OF_MEMORY, NULL, 0) s
    else Ret (error, NULL, 0) s.
Proof.
  unfold allLoadedClasses, jvmti_allocate.
  destruct (loaded_classes host) as [e l].
  destruct (decide (e = JVMTI_ERROR_NONE)); [|done].
  case_decide as Hfit.
  - apply Z.leb_le in Hfit. by rewrite Hfit.
  - apply Z.leb_nle in Hfit. by rewrite Hfit.
Qed.

(** [classTrack_initialize] up to the loop. *)
Lemma classTrack_initialize_run (env : Z) (s : State) :
  ∃ s1, trackingEnv s1 = special_jvmti host ∧ tags s1 = tags s ∧
        heap s1 = heap s ∧ brk s1 = brk s ∧ tag_calls s1 = tag_calls s ∧
  classTrack_initialize host env s =
    if decide (special_jvmti host = NULL)
    then Exit AGENT_ERROR_INTERNAL "Failed to allocate tag-tracking jvmtiEnv"
           (with_trackingEnv (special_jvmti host) s)
    else if setup_ok host then
      let '(error, l) := loaded_classes host in
      if decide (error = JVMTI_ERROR_NONE) then
        if decide (brk s + block_size (BClasses l) ≤ ptr_modulus) then
          (initialize_loop host env (brk s) 0 (length l);;
           jvmtiDeallocate (brk s)) (enumerated l s1)
        else Exit JVMTI_ERROR_OUT_OF_MEMORY "loaded classes array" s1
      else Exit error "loaded classes array" s1
    else Exit AGENT_ERROR_INTERNAL "Unable to setup ObjectFree tracking" s1.
Proof.
  unfold classTrack_initialize. rewrite bind_run. unfold getSpecialJvmti.
  rewrite ret_run. cbv beta iota. rewrite bind_run. cbn [modify].
  rewrite bind_run.
  destruct (decide (special_jvmti host = NULL)) as [E0|E0].
  { exists (with_trackingEnv (special_jvmti host) s). by split_and!. }
  rewrite ret_run. cbv beta iota.
  destruct (setupEvents_run host (with_trackingEnv (special_jvmti host) s))
    as (s1 & Hrun & H1 & H2 & H3 & H4 & H5); [done|].
  exists s1. split_and!; try done.
  rewrite bind_run, Hrun. fold (setup_ok host).
  destruct (setup_ok host); [|by rewrite bind_run].
  rewrite bind_run. cbn [negb].
  rewrite ret_run. cbv beta iota.
  rewrite bind_run, allLoadedClasses_run. cbn in H4. rewrite H4.
  destruct (loaded_classes host) as [e l].
  destruct (decide (e = JVMTI_ERROR_NONE)) as [->|He].
  2:{ by rewrite decide_False by done. }
  destruct (decide (brk s + block_size (BClasses l) ≤ ptr_modulus)) as [Hfit|Hfit].
  - rewrite decide_True by done. by rewrite Nat2Z.id.
  - by rewrite decide_False by (by intros ?).
Qed.

(** C7: [classTrack_initialize] ends the process, and so does not return,
    when no tagging environment is granted, when the object-free capability
    cannot be added, when the callbacks cannot be registered, when either
    notification cannot be enabled, and when the loaded classes cannot be
    enumerated.  [addPreparedClass] ends the process when the signature
    cannot be computed and when, with consistency checking enabled, the tag
    slot cannot be read. *)
Theorem environment_faults_are_fatal (env k : Z) (s : State) :
  (setup_fails host ∨ (loaded_classes host).1 ≠ JVMTI_ERROR_NONE →
     exits (classTrack_initialize host env s) ∧
     ¬ returns (classTrack_initialize host env s)) ∧
  ((class_signature host (clock s) k).1 ≠ JVMTI_ERROR_NONE →
     addPreparedClass host env k s =
       Exit (class_signature host (clock s) k).1 "signature" (tick s)) ∧
  (checking_enabled host = true →
   (class_signature host (clock s) k).1 = JVMTI_ERROR_NONE →
   brk s + block_size (BString (class_signature host (clock s) k).2) ≤ ptr_modulus →
   trackingEnv s ≠ NULL →
   GetTag_error host k ≠ JVMTI_ERROR_NONE →
     ∃ s', addPreparedClass host env k s =
             Exit (GetTag_error host k)
               "Unable to GetTag with class trackingEnv" s' ∧
           tags s' = tags s).
Proof.
  split_and!.
  - intros Hfail.
    destruct (classTrack_initialize_run env s) as (s1 & _ & _ & _ & _ & _ & ->).
    unfold setup_fails in Hfail.
    destruct (decide (special_jvmti host = NULL)); [cbn; tauto|].
    destruct (setup_ok host) eqn:Hok; [|cbn; tauto].
    apply bool_decide_eq_true in Hok.
    destruct (loaded_classes host) as [e l]. cbn [fst] in Hfail.
    destruct (decide (e = JVMTI_ERROR_NONE)); [|cbn; tauto].
    exfalso. destruct Hok as (? & ? & ? & ?). destruct Hfail as [[?|[?|[?|[?|?]]]]|?]; done.
  - intros Hsig. unfold addPreparedClass.
    rewrite bind_run, classSignature_run.
    destruct (class_signature host (clock s) k) as [e str]. cbn [fst] in *.
    rewrite decide_False by done. rewrite bind_run. unfold EXIT_ERROR.
    by same_error.
  - intros Hchk Hsig Hfit Henv Hget. unfold addPreparedClass.
    rewrite bind_run, classSignature_run.
    destruct (class_signature host (clock s) k) as [e str]. cbn [fst snd] in *.
    subst e. same_error. rewrite !decide_True by done.
    rewrite bind_run. same_error. rewrite ret_run. cbv beta iota.
    rewrite Hchk. rewrite !bind_run. cbn [get]. rewrite bind_run.
    rewrite GetTag_run by done. rewrite bind_run. unfold EXIT_ERROR.
    same_error. by eexists.
Qed.

End Initialize.

Lemma extends_refl (s : State) : extends s s.
Proof. by exists []. Qed.

Lemma extends_trans (s1 s2 s3 : State) :
  extends s1 s2 → extends s2 s3 → extends s1 s3.
Proof.
  intros [n1 E1] [n2 E2]. exists (n2 ++ n1). by rewrite E2, E1, app_assoc.
Qed.

Lemma called_since_extends_r (s1 s2 s3 : State) (k : Z) :
  called_since s1 s2 k → extends s2 s3 → called_since s1 s3 k.
Proof.
  intros (n1 & c & E1 & Hc & Hk) [n2 E2]. exists (n2 ++ n1), c.
  split_and!; [by rewrite E2, E1, app_assoc | apply elem_of_app; tauto | done].
Qed.

Lemma called_since_extends_l (s1 s2 s3 : State) (k : Z) :
  extends s1 s2 → called_since s2 s3 k → called_since s1 s3 k.
Proof.
  intros [n1 E1] (n2 & c & E2 & Hc & Hk). exists (n2 ++ n1), c.
  split_and!; [by rewrite E2, E1, app_assoc | apply elem_of_app; tauto | done].
Qed.

Lemma wanted_bits (status : Z) :
  Z.land status (Z.lor JVMTI_CLASS_STATUS_PREPARED JVMTI_CLASS_STATUS_ARRAY) ≠ 0
  ↔ prepared_or_array status.
Proof.
  change (Z.lor JVMTI_CLASS_STATUS_PREPARED JVMTI_CLASS_STATUS_ARRAY) with 18.
  unfold prepared_or_array. split.
  - intros Hne.
    destruct (Z.testbit status 1) eqn:E1; [by left|].
    destruct (Z.testbit status 4) eqn:E4; [by right|].
    exfalso. apply Hne. apply Z.bits_inj'. intros n Hn.
    rewrite Z.land_spec, Z.bits_0.
    destruct (decide (n = 1)) as [->|]; [by rewrite E1|].
    destruct (decide (n = 4)) as [->|]; [by rewrite E4|].
    assert (Z.testbit 18 n = false) as ->; [|by rewrite andb_false_r].
    destruct (decide (n < 5)).
    + assert (n = 0 ∨ n = 2 ∨ n = 3) as [->|[->| ->]] by lia; reflexivity.
    + apply Z.bits_above_log2; [lia|]. change (Z.log2 18) with 4. lia.
  - intros [E|E] H0.
    + assert (Z.testbit (Z.land status 18) 1 = true) as Hb
        by (by rewrite Z.land_spec, E).
      rewrite H0 in Hb. by rewrite Z.bits_0 in Hb.
    + assert (Z.testbit (Z.land status 18) 4 = true) as Hb
        by (by rewrite Z.land_spec, E).
      rewrite H0 in Hb. by rewrite Z.bits_0 in Hb.
Qed.

Section Bootstrap.
Variable host : Host.

(** What a call of [addPreparedClass] that returns has done. *)
Lemma addPreparedClass_paths_ret (k : Z) (s s' : State) :
  0 < brk s →
  addPreparedClass_paths host k s = Ret tt s' →
  tagged s' k ∧
  (∀ k', tagged s k' → tagged s' k') ∧
  (∀ p, p < brk s → heap s' !! p = heap s !! p) ∧
  brk s ≤ brk s' ∧
  called_since s s' k ∧
  trackingEnv s' = trackingEnv s.
Proof.
  intros Hpos. unfold addPreparedClass_paths.
  destruct (class_signature host (clock s) k) as [e str].
  destruct (decide (e ≠ JVMTI_ERROR_NONE)); [done|].
  destruct (decide (brk s + block_size (BString str) ≤ ptr_modulus)) as [Hfit|];
    [|done].
  pose proof (block_size_pos (BString str)) as Hsz.
  pose proof (fresh_nonnull s _ Hpos Hfit) as Hnn.
  assert (∀ s1 calls,
    tags s1 = tags s → heap s1 = <[brk s := BString str]> (heap s) →
    brk s1 = brk s + block_size (BString str) →
    tag_calls s1 = calls ++ tag_calls s → trackingEnv s1 = trackingEnv s →
    set_path host k s1 (brk s) = Ret tt s' →
    tagged s' k ∧ (∀ k', tagged s k' → tagged s' k') ∧
    (∀ p, p < brk s → heap s' !! p = heap s !! p) ∧ brk s ≤ brk s' ∧
    called_since s s' k ∧ trackingEnv s' = trackingEnv s) as Hset.
  { intros s1 calls E1 E2 E3 E4 E5. unfold set_path.
    destruct (decide (trackingEnv s1 = NULL)); [done|].
    destruct (decide (_ = JVMTI_ERROR_NONE)); [|done].
    unfold tag_written.
    rewrite (decide_False (P := ptr_to_jlong (brk s) = NOT_TAGGED)) by done.
    intros [= <-]. unfold tagged.
    cbn [tags heap brk tag_calls trackingEnv with_tags logged with_tag_calls].
    rewrite E1, E2, E3.
    split_and!; try done.
    - eexists. by rewrite lookup_insert_eq.
    - intros k' (t & Ht & Hnz). destruct (decide (k' = k)) as [->|].
      + eexists. by rewrite lookup_insert_eq.
      + exists t. by rewrite lookup_insert_ne.
    - intros p Hp. apply lookup_insert_ne. lia.
    - lia.
    - exists (CallSetTag k (ptr_to_jlong (brk s)) :: calls), (CallSetTag k (ptr_to_jlong (brk s))).
      cbn. rewrite E4. split_and!; [done|constructor|done]. }
  destruct (checking_enabled host).
  2:{ by apply (Hset _ []). }
  destruct (decide (trackingEnv s = NULL)); [done|].
  destruct (decide (GetTag_error host k ≠ JVMTI_ERROR_NONE)); [done|].
  destruct (decide (default NOT_TAGGED (tags s !! k) ≠ NOT_TAGGED)) as [Ht|Ht].
  2:{ by apply (Hset _ [CallGetTag k]). }
  unfold dup_path.
  assert (tagged s k) as Hk.
  { destruct (tags s !! k) as [t|] eqn:Etag; [|done]. exists t. split; [done|exact Ht]. }
  assert (∀ s2, tags s2 = tags s →
     heap s2 = delete (brk s) (<[brk s := BString str]> (heap s)) →
     brk s2 = brk s + block_size (BString str) →
     tag_calls s2 = CallGetTag k :: tag_calls s →
     trackingEnv s2 = trackingEnv s →
     tagged s2 k ∧ (∀ k', tagged s k' → tagged s2 k') ∧
     (∀ p, p < brk s → heap s2 !! p = heap s !! p) ∧ brk s ≤ brk s2 ∧
     called_since s s2 k ∧ trackingEnv s2 = trackingEnv s) as Hdup.
  { intros s2 E1 E2 E3 E4 E5. unfold tagged. rewrite E1, E2, E3.
    split_and!; try done.
    - intros p Hp. rewrite lookup_delete_ne by lia. apply lookup_insert_ne. lia.
    - lia.
    - exists [CallGetTag k], (CallGetTag k). split_and!; [done|constructor|done]. }
  destruct (heap _ !! _) as [[old|]|]; try done.
  destruct (decide (strcmp str old = 0)).
  - intros [= <-]. by apply Hdup.
  - destruct (assert_is_fatal host); [done|]. intros [= <-]. by apply Hdup.
Qed.

Lemma read_class_run (classes i : Z) (l : list Z) (k : Z) (s : State) :
  heap s !! classes = Some (BClasses l) → 0 ≤ i → l !! Z.to_nat i = Some k →
  read_class classes i s = Ret k s.
Proof.
  intros Hh Hi Hk. unfold read_class. rewrite Hh, Hk. by rewrite decide_True.
Qed.

(** The loop of [classTrack_initialize] from index [i] on: when it returns,
    every wanted class from [i] on is tagged and the tag store was called
    about it, and the classes tagged before are still tagged. *)
Lemma initialize_loop_tags (env classes : Z) (l : list Z) (n : nat) :
  ∀ (i : nat) (s s' : State),
    heap s !! classes = Some (BClasses l) → classes < brk s → 0 < brk s →
    (i + n = length l)%nat →
    initialize_loop host env classes (Z.of_nat i) n s = Ret tt s' →
    (∀ j k, (i ≤ j)%nat → l !! j = Some k →
            prepared_or_array (class_status host k) →
            tagged s' k ∧ called_since s s' k) ∧
    (∀ k, tagged s k → tagged s' k) ∧
    extends s s'.
Proof.
  induction n as [|n IH]; intros i s s' Hh Hc Hpos Hlen.
  - cbn. intros [= <-]. split_and!; [|done|apply extends_refl].
    intros j k Hij Hj. apply lookup_lt_Some in Hj. lia.
  - cbn [initialize_loop]. rewrite bind_run.
    assert (is_Some (l !! i)) as [k Hk] by (apply lookup_lt_is_Some; lia).
    unfold initialize_body. rewrite bind_run.
    erewrite read_class_run; [|done|lia|by rewrite Nat2Z.id].
    rewrite bind_run. unfold classStatus. rewrite ret_run. cbv beta iota.
    replace (Z.of_nat i + 1) with (Z.of_nat (S i)) by lia.
    destruct (decide (Z.land (class_status host k)
                (Z.lor JVMTI_CLASS_STATUS_PREPARED JVMTI_CLASS_STATUS_ARRAY) ≠ 0))
      as [Hw|Hw].
    + rewrite addPreparedClass_run by (unfold NULL; lia).
      destruct (addPreparedClass_paths host k s) as [[] s1| |] eqn:Hadd; try done.
      apply addPreparedClass_paths_ret in Hadd as (Hk1 & Hkeep & Hheap & Hbrk & Hcall & _);
        [|done].
      intros Hloop.
      apply IH in Hloop as (Hlater & Hkeep' & Hext);
        [|by rewrite Hheap|lia|lia|lia].
      assert (extends s s1) as Hext1.
      { destruct Hcall as (new & _ & E & _). by exists new. }
      split_and!.
      * intros j k' Hij Hj Hwant. destruct (decide (j = i)) as [->|].
        -- assert (k' = k) as -> by congruence.
           split; [by apply Hkeep'|by eapply called_since_extends_r].
        -- destruct (Hlater j k') as [? ?]; [lia|done|done|].
           split; [done|by eapply called_since_extends_l].
      * intros k' Hk'. by apply Hkeep', Hkeep.
      * by eapply extends_trans.
    + rewrite ret_run. cbv beta iota. intros Hloop.
      apply IH in Hloop as (Hlater & Hkeep' & Hext); [|done|lia|lia|lia].
      split_and!; [|done|done].
      intros j k' Hij Hj Hwant. destruct (decide (j = i)) as [->|].
      * assert (k' = k) as -> by congruence.
        exfalso. apply Hw. by apply wanted_bits.
      * destruct (Hlater j k') as [? ?]; [lia|done|done|].
        split; [done|]. eapply called_since_extends_l; [|done]. apply extends_refl.
Qed.

(** C4: when [classTrack_initialize] returns, every class object of the
    enumeration of loaded classes whose status has the "prepared" bit or the
    "array" bit holds a tag in its slot, and the tag store has been called
    about that class object since the initialisation began, which is what
    [addPreparedClass] does on every path on which it returns. *)
Theorem initialize_tags_loaded_classes (env k : Z) (s s' : State) :
  0 < brk s →
  classTrack_initialize host env s = Ret tt s' →
  k ∈ (loaded_classes host).2 →
  prepared_or_array (class_status host k) →
  tagged s' k ∧ called_since s s' k.
Proof.
  intros Hpos Hrun Hin Hwant.
  destruct (classTrack_initialize_run host env s)
    as (s1 & E1 & E2 & E3 & E4 & E5 & Hinit).
  rewrite Hinit in Hrun. clear Hinit.
  destruct (decide (special_jvmti host = NULL)); [done|].
  destruct (setup_ok host); [|done].
  destruct (loaded_classes host) as [e l]. cbn [snd] in Hin.
  destruct (decide (e = JVMTI_ERROR_NONE)); [|done].
  destruct (decide (brk s + block_size (BClasses l) ≤ ptr_modulus)); [|done].
  rewrite bind_run in Hrun.
  destruct (initialize_loop host env (brk s) 0 (length l) (enumerated l s1))
    as [[] s2| |] eqn:Hloop; try done.
  pose proof (block_size_pos (BClasses l)) as Hsz.
  apply (initialize_loop_tags env (brk s) l (length l) 0) in Hloop
    as (Hall & _ & Hext); cycle 1.
  { cbn. rewrite E4. apply lookup_insert_eq. }
  { cbn. lia. }
  { cbn. lia. }
  { lia. }
  apply list_elem_of_lookup in Hin as [j Hj].
  destruct (Hall j k) as [Htag Hcall]; [lia|done|done|].
  unfold jvmtiDeallocate in Hrun.
  assert (tags s' = tags s2 ∧ tag_calls s' = tag_calls s2) as [Et Ec].
  { destruct (decide (brk s = NULL)).
    - by injection Hrun as <-.
    - destruct (heap s2 !! brk s); [|done]. by injection Hrun as <-. }
  unfold tagged, called_since in *. rewrite Et, Ec.
  split; [done|].
  destruct Hcall as (new & c & E & Hc & Hk).
  exists new, c. split_and!; [|done|done].
  rewrite E. cbn. by rewrite E5.
Qed.

End Bootstrap.

Section Inversion.
Variable host : Host.

(** A call of [addPreparedClass] that returns took the duplicate path or
    wrote the tag. *)
Lemma addPreparedClass_paths_Ret (k : Z) (s s' : State) :
  0 < brk s →
  addPreparedClass_paths host k s = Ret tt s' →
  ∃ str,
    class_signature host (clock s) k = (JVMTI_ERROR_NONE, str) ∧
    brk s + block_size (BString str) ≤ ptr_modulus ∧
    trackingEnv s ≠ NULL ∧
    trackingEnv s' = trackingEnv s ∧
    brk s' = brk s + block_size (BString str) ∧
    allocated s' = brk s :: allocated s ∧
    unloads s' = unloads s ∧
    ((checking_enabled host = true ∧
      (∃ t old, tags s !! k = Some t ∧ t ≠ NOT_TAGGED ∧
         <[brk s := BString str]> (heap s) !! jlong_to_ptr t = Some (BString old) ∧
         ((str = old ∧ failed_asserts s' = failed_asserts s) ∨
          (str ≠ old ∧ failed_asserts s' = strcmp_text :: failed_asserts s))) ∧
      tags s' = tags s ∧
      heap s' = delete (brk s) (<[brk s := BString str]> (heap s)) ∧
      released s' = brk s :: released s)
     ∨
     ((checking_enabled host = false ∨ tags s !! k = None ∨ tags s !! k = Some NOT_TAGGED) ∧
      ptr_to_jlong (brk s) ≠ NOT_TAGGED ∧
      tags s' = <[k := ptr_to_jlong (brk s)]> (tags s) ∧
      heap s' = <[brk s := BString str]> (heap s) ∧
      released s' = released s ∧
      failed_asserts s' = failed_asserts s)).
Proof.
  intros Hpos. unfold addPreparedClass_paths.
  destruct (class_signature host (clock s) k) as [e str].
  destruct (decide (e ≠ JVMTI_ERROR_NONE)) as [|He]; [done|].
  assert (e = JVMTI_ERROR_NONE) as -> by (destruct (decide (e = JVMTI_ERROR_NONE)); done).
  destruct (decide (brk s + block_size (BString str) ≤ ptr_modulus)) as [Hfit|];
    [|done].
  pose proof (fresh_nonnull s _ Hpos Hfit) as Hnn.
  assert (∀ s1,
    trackingEnv s1 = trackingEnv s → tags s1 = tags s →
    heap s1 = <[brk s := BString str]> (heap s) →
    brk s1 = brk s + block_size (BString str) →
    allocated s1 = brk s :: allocated s → unloads s1 = unloads s →
    released s1 = released s → failed_asserts s1 = failed_asserts s →
    set_path host k s1 (brk s) = Ret tt s' →
    trackingEnv s ≠ NULL ∧
    trackingEnv s' = trackingEnv s ∧
    brk s' = brk s + block_size (BString str) ∧
    allocated s' = brk s :: allocated s ∧
    unloads s' = unloads s ∧
    tags s' = <[k := ptr_to_jlong (brk s)]> (tags s) ∧
    heap s' = <[brk s := BString str]> (heap s) ∧
    released s' = released s ∧
    failed_asserts s' = failed_asserts s) as Hset.
  { intros s1 E1 E2 E3 E4 E5 E6 E7 E8. unfold set_path. rewrite E1.
    destruct (decide (trackingEnv s = NULL)); [done|].
    destruct (decide (_ = JVMTI_ERROR_NONE)); [|done].
    unfold tag_written.
    rewrite (decide_False (P := ptr_to_jlong (brk s) = NOT_TAGGED)) by done.
    intros [= <-]. cbn. by rewrite E2. }
  destruct (checking_enabled host).
  2:{ intros Hp. apply Hset in Hp; try done.
      exists str. destruct Hp as (? & ? & ? & ? & ? & ? & ? & ? & ?).
      split_and!; try done. right. split_and!; try done. by left. }
  destruct (decide (trackingEnv s = NULL)) as [|Henv]; [done|].
  destruct (decide (GetTag_error host k ≠ JVMTI_ERROR_NONE)); [done|].
  destruct (decide (default NOT_TAGGED (tags s !! k) ≠ NOT_TAGGED)) as [Ht|Ht].
  2:{ intros Hp. apply Hset in Hp; try done.
      exists str. destruct Hp as (? & ? & ? & ? & ? & ? & ? & ? & ?).
      split_and!; try done. right. split_and!; try done. right.
      destruct (tags s !! k) as [t|]; [|by left]. right. f_equal.
      cbn in Ht. by destruct (decide (t = NOT_TAGGED)). }
  destruct (tags s !! k) as [t|] eqn:Etag; [|done]. cbn [default from_option id] in *.
  unfold dup_path. cbn [heap logged sig_state with_tag_calls with_allocated with_brk with_heap].
  destruct (<[brk s := BString str]> (heap s) !! jlong_to_ptr t)
    as [[old|]|] eqn:Eold; try done.
  destruct (decide (strcmp str old = 0)) as [Ecmp|Ecmp].
  - intros [= <-]. exists str. split_and!; try done. left.
    split_and!; try done. exists t, old. split_and!; try done.
    left. split; [by apply strcmp_zero|done].
  - destruct (assert_is_fatal host); [done|].
    intros [= <-]. exists str. split_and!; try done. left.
    split_and!; try done. exists t, old. split_and!; try done.
    right. split; [|done]. intros ->. apply Ecmp, strcmp_refl.
Qed.

(** A call of [addPreparedClass] that ends the process left the tag store
    as it was, and recorded a failed assertion only when the stored identity
    and the fresh one differ. *)
Lemma addPreparedClass_paths_Exit (k : Z) (s s' : State) (e : Z) (msg : string) :
  addPreparedClass_paths host k s = Exit e msg s' →
  tags s' = tags s ∧ brk s ≤ brk s' ∧
  (failed_asserts s' = failed_asserts s ∨
   ∃ str t old,
     class_signature host (clock s) k = (JVMTI_ERROR_NONE, str) ∧
     tags s !! k = Some t ∧ t ≠ NOT_TAGGED ∧
     <[brk s := BString str]> (heap s) !! jlong_to_ptr t = Some (BString old) ∧
     str ≠ old).
Proof.
  unfold addPreparedClass_paths.
  destruct (class_signature host (clock s) k) as [e0 str].
  destruct (decide (e0 ≠ JVMTI_ERROR_NONE)) as [|He].
  { intros [= _ _ <-]. cbn. split_and!; [done|lia|by left]. }
  assert (e0 = JVMTI_ERROR_NONE) as -> by (destruct (decide (e0 = JVMTI_ERROR_NONE)); done).
  pose proof (block_size_pos (BString str)) as Hsz.
  destruct (decide (brk s + block_size (BString str) ≤ ptr_modulus)) as [Hfit|].
  2:{ intros [= _ _ <-]. cbn. split_and!; [done|lia|by left]. }
  assert (∀ s1,
    tags s1 = tags s → brk s1 = brk s + block_size (BString str) →
    failed_asserts s1 = failed_asserts s →
    set_path host k s1 (brk s) = Exit e msg s' →
    tags s' = tags s ∧ brk s ≤ brk s' ∧ failed_asserts s' = failed_asserts s) as Hset.
  { intros s1 E1 E2 E3. unfold set_path.
    destruct (decide (trackingEnv s1 = NULL)); [done|].
    destruct (decide (_ = JVMTI_ERROR_NONE)); [done|].
    intros [= _ _ <-]. cbn. rewrite E2. split_and!; [done|lia|done]. }
  destruct (checking_enabled host).
  2:{ intros Hp. apply Hset in Hp as (? & ? & ?); try done. split_and!; try done. by left. }
  destruct (decide (trackingEnv s = NULL)) as [|Henv]; [done|].
  destruct (decide (GetTag_error host k ≠ JVMTI_ERROR_NONE)).
  { intros [= _ _ <-]. cbn. split_and!; [done|lia|by left]. }
  destruct (decide (default NOT_TAGGED (tags s !! k) ≠ NOT_TAGGED)) as [Ht|Ht].
  2:{ intros Hp. apply Hset in Hp as (? & ? & ?); try done. split_and!; try done. by left. }
  destruct (tags s !! k) as [t|] eqn:Etag; [|done]. cbn [default from_option id] in *.
  unfold dup_path. cbn [heap logged sig_state with_tag_calls with_allocated with_brk with_heap].
  destruct (<[brk s := BString str]> (heap s) !! jlong_to_ptr t)
    as [[old|]|] eqn:Eold; try done.
  destruct (decide (strcmp str old = 0)) as [Ecmp|Ecmp]; [done|].
  destruct (assert_is_fatal host); [|done].
  intros [= _ _ <-]. cbn. split_and!; [done|lia|]. right.
  exists str, t, old. split_and!; try done.
  intros ->. apply Ecmp, strcmp_refl.
Qed.

End Inversion.

Section SingleTag.
Variable host : Host.

Lemma step_keeps_tag (ev : event) (s s' : State) (k t : Z) :
  0 < brk s → ev ≠ ObjectFreed k →
  final_state (step_paths host ev s) = Some s' →
  tags s !! k = Some t → t ≠ NOT_TAGGED →
  tagged s' k ∧ (checking_enabled host = true → tags s' !! k = Some t).
Proof.
  intros Hpos Hev Hfin Ht Hnz.
  assert (tagged s k) as Hk by (by exists t).
  assert (∀ k', final_state (addPreparedClass_paths host k' s) = Some s' →
     tagged s' k ∧ (checking_enabled host = true → tags s' !! k = Some t)) as Hadd.
  { intros k' Hf.
    destruct (addPreparedClass_paths host k' s) as [[] s1|e msg s1|] eqn:Hrun;
      [| |done]; injection Hf as ->.
    - apply addPreparedClass_paths_Ret in Hrun
        as (str & _ & _ & _ & _ & _ & _ & _ & Hcase); [|done].
      destruct Hcase as [(_ & _ & Et & _)|(Hwhy & Hnn & Et & _)].
      + unfold tagged. by rewrite Et.
      + unfold tagged. rewrite Et. destruct (decide (k' = k)) as [->|].
        * rewrite lookup_insert_eq. split; [by eexists|].
          intros Hchk. destruct Hwhy as [?|[?|?]]; congruence.
        * by rewrite lookup_insert_ne.
    - apply addPreparedClass_paths_Exit in Hrun as (Et & _).
      unfold tagged. by rewrite Et. }
  destruct ev as [k'|k'|k']; cbn [step_paths] in Hfin;
    [by apply (Hadd k')|by apply (Hadd k')|].
  assert (k' ≠ k) by (intros ->; by apply Hev).
  destruct (tags s !! k'); injection Hfin as <-; [|done].
  unfold tagged. cbn. by rewrite lookup_delete_ne.
Qed.

Lemma run_final_cons (ev : event) (evs : list event) (s s' : State) :
  brk s ≠ NULL →
  final_state (run host (ev :: evs) s) = Some s' →
  (∃ s1, step_paths host ev s = Ret tt s1 ∧
         final_state (run host evs s1) = Some s') ∨
  (∃ e msg, step_paths host ev s = Exit e msg s').
Proof.
  intros Hp. rewrite run_cons, step_run by done.
  destruct (step_paths host ev s) as [[] s1|e msg s1|]; [| |done].
  - intros ?. left. by exists s1.
  - intros [= <-]. right. by exists e, msg.
Qed.

Lemma run_keeps_tag (evs : list event) :
  ∀ (s s' : State) (k t : Z),
    0 < brk s → ObjectFreed k ∉ evs →
    final_state (run host evs s) = Some s' →
    tags s !! k = Some t → t ≠ NOT_TAGGED →
    tagged s' k ∧ (checking_enabled host = true → tags s' !! k = Some t).
Proof.
  induction evs as [|ev evs IH]; intros s s' k t Hpos Hfree Hfin Ht Hnz.
  - injection Hfin as <-. split; [by exists t|done].
  - apply not_elem_of_cons in Hfree as [Hev Hfree].
    apply run_final_cons in Hfin as [(s1 & Hstep & Hfin)|(e & msg & Hstep)];
      [| |unfold NULL; lia].
    + assert (final_state (step_paths host ev s) = Some s1) as Hf1 by (by rewrite Hstep).
      pose proof (step_paths_brk host ev s s1 Hf1) as Hbrk.
      destruct (step_keeps_tag ev s s1 k t) as [(t1 & Ht1 & Hnz1) Hsame];
        [done|congruence|done|done|done|].
      destruct (IH s1 s' k t1) as [Htagged Hchk]; [lia|done|done|done|done|].
      split; [done|]. intros Hon. rewrite Hsame in Ht1 by done.
      injection Ht1 as <-. by apply Hchk.
    + apply (step_keeps_tag ev s s' k t); [done|congruence| |done|done].
      by rewrite Hstep.
Qed.

(** C3, amended: with consistency checking enabled no step of the tracker
    replaces a tag, so a slot goes from [NOT_TAGGED] to a tag at most once;
    with or without checking, a tagged slot stays tagged until its class
    object is freed. *)
Theorem tag_set_once :
  (checking_enabled host = true → single_tag_invariant host) ∧
  stays_tagged host.
Proof.
  split.
  - intros Hchk s evs k t s' Hpos Ht Hnz Hfree Hfin.
    by apply (run_keeps_tag evs s s' k t).
  - intros s evs k s' Hpos (t & Ht & Hnz) Hfree Hfin.
    by apply (run_keeps_tag evs s s' k t).
Qed.

End SingleTag.

Section Stability.
Variable host : Host.
Hypothesis stable : signature_stable host.

Lemma addPreparedClass_paths_Fault (k : Z) (s : State) (why : string) :
  addPreparedClass_paths host k s = Fault why →
  trackingEnv s = NULL ∨
  ∃ str t,
    class_signature host (clock s) k = (JVMTI_ERROR_NONE, str) ∧
    tags s !! k = Some t ∧ t ≠ NOT_TAGGED ∧
    ∀ old, <[brk s := BString str]> (heap s) !! jlong_to_ptr t ≠ Some (BString old).
Proof.
  unfold addPreparedClass_paths.
  destruct (class_signature host (clock s) k) as [e str].
  destruct (decide (e ≠ JVMTI_ERROR_NONE)) as [|He]; [done|].
  assert (e = JVMTI_ERROR_NONE) as -> by (destruct (decide (e = JVMTI_ERROR_NONE)); done).
  destruct (decide (brk s + block_size (BString str) ≤ ptr_modulus)); [|done].
  assert (∀ s1, trackingEnv s1 = trackingEnv s →
            set_path host k s1 (brk s) = Fault why → trackingEnv s = NULL) as Hset.
  { intros s1 E. unfold set_path. rewrite E.
    destruct (decide (trackingEnv s = NULL)); [done|].
    by destruct (decide (_ = JVMTI_ERROR_NONE)). }
  destruct (checking_enabled host).
  2:{ intros Hp. left. eapply Hset; [|exact Hp]. done. }
  destruct (decide (trackingEnv s = NULL)); [by left|].
  destruct (decide (GetTag_error host k ≠ JVMTI_ERROR_NONE)); [done|].
  destruct (decide (default NOT_TAGGED (tags s !! k) ≠ NOT_TAGGED)) as [Ht|Ht].
  2:{ intros Hp. left. eapply Hset; [|exact Hp]. done. }
  destruct (tags s !! k) as [t|] eqn:Etag; [|done]. cbn [default from_option id] in *.
  unfold dup_path. cbn [heap logged sig_state with_tag_calls with_allocated with_brk with_heap].
  intros Hp. right. exists str, t. split_and!; try done.
  intros old Hold. rewrite Hold in Hp.
  destruct (decide (strcmp str old = 0)); [done|].
  by destruct (assert_is_fatal host).
Qed.

Lemma consistent_matches (s : State) : consistent host s → stored_matches host s.
Proof.
  intros [_ _ Htags] k t str Ht Hsig.
  destruct (Htags k t Ht) as (_ & old & Hold & Hsig0).
  rewrite stable in Hsig. exists old. split; [done|].
  apply strcmp_zero. congruence.
Qed.

(** One step from a consistent world: no undefined behaviour, no failed
    assertion, and the world stays consistent. *)
Lemma step_consistent (ev : event) (s : State) :
  consistent host s →
  match step_paths host ev s with
  | Ret _ s' => consistent host s' ∧ failed_asserts s' = failed_asserts s
  | Exit _ _ s' => failed_asserts s' = failed_asserts s
  | Fault _ => False
  end.
Proof.
  intros Hc. pose proof Hc as [Hwf Henv Htags].
  pose proof (fresh_not_live s Hwf) as Hfresh.
  pose proof (wf_brk_pos s Hwf) as Hpos.
  assert (∀ k t str old, tags s !! k = Some t →
            class_signature host (clock s) k = (JVMTI_ERROR_NONE, str) →
            <[brk s := BString str]> (heap s) !! jlong_to_ptr t = Some (BString old) →
            str = old) as Hsame.
  { intros k t str old Ht Hsig Hold.
    destruct (Htags k t Ht) as (_ & old' & Hold' & Hsig0).
    rewrite stable in Hsig.
    rewrite lookup_insert_ne in Hold by (intros E; rewrite <- E in Hold'; congruence).
    congruence. }
  assert (∀ k, match addPreparedClass_paths host k s with
     | Ret _ s' => consistent host s' ∧ failed_asserts s' = failed_asserts s
     | Exit _ _ s' => failed_asserts s' = failed_asserts s
     | Fault _ => False
     end) as Hadd.
  { intros k.
    destruct (addPreparedClass_paths host k s) as [[] s'|e msg s'|why] eqn:Hrun.
    - apply addPreparedClass_paths_Ret in Hrun
        as (str & Hsig & Hfit & _ & Eenv & Ebrk & _ & _ & Hcase); [|done].
      pose proof (block_size_pos (BString str)) as Hsz.
      destruct Hcase as [(_ & (t & old & Ht & _ & Hold & Hcmp) & Et & Eh & _)
                        |(_ & Hnn & Et & Eh & _ & Efa)].
      + rewrite delete_insert_id in Eh by done.
        assert (str = old) as <- by by eapply Hsame.
        destruct Hcmp as [[_ Efa]|[? _]]; [|done].
        split; [|done]. split.
        * split; [lia|]. rewrite Eh. intros p b Hb.
          apply (wf_heap_below _ Hwf) in Hb. lia.
        * by rewrite Eenv.
        * rewrite Et, Eh. apply Htags.
      + split; [|done]. split.
        * split; [lia|]. rewrite Eh. intros p b Hb.
          apply lookup_insert_Some in Hb as [[<- _]|[_ Hb]]; [lia|].
          apply (wf_heap_below _ Hwf) in Hb. lia.
        * by rewrite Eenv.
        * rewrite Et, Eh. intros k' t' Ht'.
          apply lookup_insert_Some in Ht' as [[<- <-]|[_ Ht']].
          -- split; [done|]. exists str.
             rewrite jlong_ptr_roundtrip by lia.
             rewrite lookup_insert_eq. split; [done|]. by rewrite <- stable with (n := clock s).
          -- destruct (Htags k' t' Ht') as (Hnz & old & Hold & Hsig0).
             split; [done|]. exists old. split; [|done].
             rewrite lookup_insert_ne; [done|].
             intros E. rewrite <- E in Hold. congruence.
    - apply addPreparedClass_paths_Exit in Hrun
        as (_ & _ & [Efa|(str & t & old & Hsig & Ht & _ & Hold & Hne)]); [done|].
      exfalso. apply Hne. by eapply Hsame.
    - apply addPreparedClass_paths_Fault in Hrun
        as [?|(str & t & Hsig & Ht & _ & Hno)]; [done|].
      destruct (Htags k t Ht) as (_ & old & Hold & _).
      apply (Hno old). rewrite lookup_insert_ne; [done|].
      intros E. rewrite <- E in Hold. congruence. }
  destruct ev as [k|k|k]; cbn [step_paths]; [apply Hadd|apply Hadd|].
  destruct (tags s !! k) as [t|] eqn:Ht; [|done].
  split; [|done]. split; [split; [exact (wf_brk_pos _ Hwf)|exact (wf_heap_below _ Hwf)]|exact Henv|].
  cbn. intros k' t' Ht'. apply lookup_delete_Some in Ht' as [_ Ht'].
  by apply Htags.
Qed.

(** C8: when the signature of a class never changes, then from a world in
    which every stored identity is the signature of its class, along every
    sequence of steps: the code never leaves defined behaviour, no assertion
    fails (neither on a run that returns nor on one that ends the process),
    and in every world reached the identity stored for a tagged class object
    is textually equal ([strcmp] is zero) to the one [addPreparedClass]
    computes for it. *)
Theorem identity_stable (evs : list event) (s : State) :
  consistent host s →
  (∃ s', final_state (run host evs s) = Some s' ∧
         failed_asserts s' = failed_asserts s) ∧
  (∀ s', run host evs s = Ret tt s' →
         consistent host s' ∧ stored_matches host s').
Proof.
  revert s. induction evs as [|ev evs IH]; intros s Hc.
  - cbn. split; [by exists s|].
    intros s' [= <-]. split; [done|by apply consistent_matches].
  - rewrite run_cons, step_run
      by (pose proof (wf_brk_pos s (cons_heap host s Hc)); unfold NULL; lia).
    pose proof (step_consistent ev s Hc) as Hstep.
    destruct (step_paths host ev s) as [[] s1|e msg s1|]; [| |done].
    + destruct Hstep as [Hc1 Efa].
      destruct (IH s1 Hc1) as [(s' & Hfin & Efa') Hret].
      split; [|done]. exists s'. split; [done|congruence].
    + split; [by exists s1|done].
Qed.

End Stability.

Lemma exactly_one_iff (A B C A' B' C' : Prop) :
  (A ↔ A') → (B ↔ B') → (C ↔ C') →
  exactly_one A B C → exactly_one A' B' C'.
Proof. unfold exactly_one. tauto. Qed.

Section Ledger.
Variable host : Host.

Lemma guarded_checked (evs : list event) (s : State) :
  checking_enabled host = true → guarded host evs s.
Proof.
  intros Hchk. revert s. induction evs as [|ev evs IH]; intros s; [done|].
  split; [by left|]. intros s' _. apply IH.
Qed.

Lemma ledger_tag_range (s : State) (k t : Z) :
  ledger s → tags s !! k = Some t →
  ∃ p, p ∈ allocated s ∧ t = ptr_to_jlong p ∧ 0 < p < brk s ∧
       jlong_to_ptr t = p ∧ t ≠ NOT_TAGGED.
Proof.
  intros L Ht. destruct (ledger_tags_allocated s L k t Ht) as (p & Hp & ->).
  pose proof (ledger_alloc_range s L p Hp) as Hr.
  pose proof (ledger_brk_max s L) as Hmax.
  exists p. split_and!; try done; try lia.
  - apply jlong_ptr_roundtrip. lia.
  - apply ptr_to_jlong_nonnull. lia.
Qed.

Lemma ledger_fresh_unheld (s : State) :
  ledger s → brk s < ptr_modulus → ¬ held s (brk s).
Proof.
  intros L Hlt [k Hk].
  destruct (ledger_tag_range s k _ L Hk) as (p & Hp & E & Hr & _).
  pose proof (ledger_brk_pos s L) as Hpos.
  apply ptr_to_jlong_inj in E; lia.
Qed.

(** A call of [addPreparedClass] that returns keeps the ledger, when it ran
    with consistency checking enabled or on an untagged class object. *)
Lemma addPreparedClass_ledger (k : Z) (s s' : State) :
  ledger s →
  checking_enabled host = true ∨ tags s !! k = None →
  addPreparedClass_paths host k s = Ret tt s' →
  ledger s'.
Proof.
  intros L Hguard Hrun.
  pose proof (ledger_brk_pos s L) as Hpos.
  apply addPreparedClass_paths_Ret in Hrun
    as (str & _ & Hfit & _ & _ & Ebrk & Ealloc & Eunl & Hcase); [|done].
  pose proof (block_size_pos (BString str)) as Hsz.
  assert (brk s < ptr_modulus) as Hlt by lia.
  pose proof (ledger_fresh_unheld s L Hlt) as Hunheld.
  assert (forwarded s' = forwarded s) as Efwd by (unfold forwarded; by rewrite Eunl).
  assert (brk s ∉ released s) as Hnr.
  { intros Hin. apply (ledger_released_range s L) in Hin. lia. }
  assert (brk s ∉ forwarded s) as Hnf.
  { intros Hin. apply (ledger_forwarded_range s L) in Hin. lia. }
  assert (brk s ∉ allocated s) as Hna.
  { intros Hin. apply (ledger_alloc_range s L) in Hin. lia. }
  destruct Hcase as [(_ & _ & Et & _ & Erel)|(Hwhy & Hnn & Et & _ & Erel & _)].
  - (* the duplicate was released *)
    split.
    + lia.
    + lia.
    + rewrite Ealloc, Ebrk. intros p [->|Hp]%elem_of_cons; [lia|].
      apply (ledger_alloc_range s L) in Hp. lia.
    + rewrite Erel, Ebrk. intros p [->|Hp]%elem_of_cons; [lia|].
      apply (ledger_released_range s L) in Hp. lia.
    + rewrite Efwd, Ebrk. intros p Hp.
      apply (ledger_forwarded_range s L) in Hp. lia.
    + rewrite Erel. apply NoDup_cons. split; [done|apply (ledger_released_once s L)].
    + rewrite Efwd. apply (ledger_forwarded_once s L).
    + rewrite Et. apply (ledger_slots_apart s L).
    + rewrite Et, Ealloc. intros k' t Ht.
      destruct (ledger_tags_allocated s L k' t Ht) as (p & Hp & ->).
      exists p. split; [by apply elem_of_cons; right|done].
    + rewrite Ealloc. intros p [->|Hp]%elem_of_cons.
      * left. rewrite Erel, Efwd. unfold held. rewrite Et.
        split_and!; [by apply elem_of_cons; left|done|done].
      * assert (p ≠ brk s) by (intros ->; done).
        eapply exactly_one_iff; [| | |apply (ledger_accounted s L p Hp)].
        -- rewrite Erel, elem_of_cons. split; [by right|by intros [?|?]].
        -- by rewrite Efwd.
        -- unfold held. by rewrite Et.
  - (* the tag was written *)
    assert (tags s !! k = None) as Hnone.
    { destruct Hguard as [Hchk|?]; [|done].
      destruct Hwhy as [?|[?|Hz]]; [congruence|done|].
      destruct (ledger_tag_range s k _ L Hz) as (_ & _ & _ & _ & _ & ?). done. }
    split.
    + lia.
    + lia.
    + rewrite Ealloc, Ebrk. intros p [->|Hp]%elem_of_cons; [lia|].
      apply (ledger_alloc_range s L) in Hp. lia.
    + rewrite Erel, Ebrk. intros p Hp.
      apply (ledger_released_range s L) in Hp. lia.
    + rewrite Efwd, Ebrk. intros p Hp.
      apply (ledger_forwarded_range s L) in Hp. lia.
    + rewrite Erel. apply (ledger_released_once s L).
    + rewrite Efwd. apply (ledger_forwarded_once s L).
    + rewrite Et. intros k1 k2 t H1 H2.
      apply lookup_insert_Some in H1 as [[<- <-]|[Hk1 H1]];
        apply lookup_insert_Some in H2 as [[<- E2]|[Hk2 H2]]; try done.
      * exfalso. apply Hunheld. by exists k2.
      * exfalso. apply Hunheld. exists k1. by rewrite E2.
      * by apply (ledger_slots_apart s L k1 k2 t).
    + rewrite Et, Ealloc. intros k' t Ht.
      apply lookup_insert_Some in Ht as [[<- <-]|[_ Ht]].
      * exists (brk s). split; [by apply elem_of_cons; left|done].
      * destruct (ledger_tags_allocated s L k' t Ht) as (p & Hp & ->).
        exists p. split; [by apply elem_of_cons; right|done].
    + rewrite Ealloc. intros p [->|Hp]%elem_of_cons.
      * right. right. rewrite Erel, Efwd. split_and!; [done|done|].
        exists k. rewrite Et. apply lookup_insert_eq.
      * assert (p ≠ brk s) by (intros ->; done).
        pose proof (ledger_alloc_range s L p Hp) as Hr.
        eapply exactly_one_iff; [| | |apply (ledger_accounted s L p Hp)].
        -- by rewrite Erel.
        -- by rewrite Efwd.
        -- unfold held. rewrite Et. split.
           ++ intros [k' Hk']. exists k'. rewrite lookup_insert_ne; [done|].
              intros <-. congruence.
           ++ intros [k' Hk']. exists k'.
              apply lookup_insert_Some in Hk' as [[_ E]|[_ Hk']]; [|done].
              apply ptr_to_jlong_inj in E; lia.
Qed.

(** The free of a class object keeps the ledger: the identity its slot held
    becomes a forwarded one. *)
Lemma object_free_ledger (k : Z) (s s' : State) :
  ledger s →
  step_paths host (ObjectFreed k) s = Ret tt s' →
  ledger s'.
Proof.
  intros L. cbn [step_paths].
  destruct (tags s !! k) as [t|] eqn:Ht; [|by intros [= <-]].
  intros [= <-].
  destruct (ledger_tag_range s k t L Ht) as (q & Hq & -> & Hr & Eq & Hnz).
  pose proof (ledger_brk_max s L) as Hmax.
  assert (held s q) as Hheld by (by exists k).
  pose proof (ledger_accounted s L q Hq) as Hacc.
  assert ((q ∉ released s) ∧ (q ∉ forwarded s)) as [Hnr Hnf].
  { unfold exactly_one in Hacc. tauto. }
  assert (forwarded (reported (jlong_to_ptr (ptr_to_jlong q)) (current_env host)
                       (with_tags (delete k (tags s)) s)) = q :: forwarded s) as Efwd.
  { unfold forwarded. cbn. by rewrite Eq. }
  split.
  - apply (ledger_brk_pos s L).
  - apply (ledger_brk_max s L).
  - apply (ledger_alloc_range s L).
  - apply (ledger_released_range s L).
  - rewrite Efwd. intros p [->|Hp]%elem_of_cons; [cbn; lia|].
    by apply (ledger_forwarded_range s L).
  - apply (ledger_released_once s L).
  - rewrite Efwd. apply NoDup_cons. split; [done|apply (ledger_forwarded_once s L)].
  - cbn. intros k1 k2 t H1 H2.
    apply lookup_delete_Some in H1 as [_ H1].
    apply lookup_delete_Some in H2 as [_ H2].
    by apply (ledger_slots_apart s L k1 k2 t).
  - cbn. intros k' t Ht'. apply lookup_delete_Some in Ht' as [_ Ht'].
    by apply (ledger_tags_allocated s L k' t).
  - intros p Hp. cbn in Hp. rewrite Efwd.
    destruct (decide (p = q)) as [->|Hne].
    + right. left. split_and!; [done|by apply elem_of_cons; left|].
      intros [k' Hk']. cbn in Hk'.
      apply lookup_delete_Some in Hk' as [Hk' Hk'']. apply Hk'.
      by apply (ledger_slots_apart s L k k' (ptr_to_jlong q)).
    + pose proof (ledger_alloc_range s L p Hp) as Hrp.
      eapply exactly_one_iff; [| | |apply (ledger_accounted s L p Hp)].
      * done.
      * rewrite elem_of_cons. split; [by right|by intros [?|?]].
      * unfold held. cbn. split.
        -- intros [k' Hk']. exists k'. apply lookup_delete_Some. split; [|done].
           intros <-. rewrite Ht in Hk'. injection Hk' as E.
           apply ptr_to_jlong_inj in E; lia.
        -- intros [k' Hk']. apply lookup_delete_Some in Hk' as [_ Hk'].
           by exists k'.
Qed.

Lemma step_ledger (ev : event) (s s' : State) :
  ledger s →
  checking_enabled host = true ∨ target_untagged ev s →
  step_paths host ev s = Ret tt s' →
  ledger s'.
Proof.
  intros L Hguard. destruct ev as [k|k|k].
  - by apply addPreparedClass_ledger.
  - by apply addPreparedClass_ledger.
  - by apply object_free_ledger.
Qed.

Lemma run_ledger (evs : list event) :
  ∀ s s', ledger s → guarded host evs s → run host evs s = Ret tt s' → ledger s'.
Proof.
  induction evs as [|ev evs IH]; intros s s' L Hg.
  - by intros [= <-].
  - destruct Hg as [Hhere Hlater].
    pose proof (ledger_brk_pos s L) as Hpos.
    rewrite run_cons.
    destruct (step host ev s) as [[] s1|e msg s1|] eqn:Hstep; [|done|done].
    intros Hrun. apply (IH s1 s'); [|by apply Hlater|done].
    apply (step_ledger ev s s1); [done|done|].
    rewrite <- Hstep. symmetry. apply step_run. unfold NULL. lia.
Qed.

(** C2, amended: along every run that returns and in which each call of
    [addPreparedClass] happens with consistency checking enabled or on a class
    object whose slot is untagged, every identity string allocated is
    released once, or forwarded once to the event handler, or held by one tag
    slot, and only one of the three; and when the class object of a slot
    that holds an identity is freed, that identity is forwarded, by one call,
    and is not released.  Runs with checking enabled are all of this kind. *)
Theorem identities_accounted (evs : list event) (s s' : State) :
  ledger s →
  guarded host evs s →
  run host evs s = Ret tt s' →
  (∀ p, p ∈ allocated s' →
        exactly_one (p ∈ released s') (p ∈ forwarded s') (held s' p)) ∧
  NoDup (released s') ∧ NoDup (forwarded s') ∧
  (∀ p k, p ∈ allocated s' → tags s' !! k = Some (ptr_to_jlong p) →
          ∃ s'', step host (ObjectFreed k) s' = Ret tt s'' ∧
                 unloads s'' = (p, current_env host) :: unloads s' ∧
                 released s'' = released s' ∧
                 tags s'' !! k = None) ∧
  (checking_enabled host = true → no_leak_no_double_free host).
Proof.
  intros L Hg Hrun.
  pose proof (run_ledger evs s s' L Hg Hrun) as L'.
  split_and!.
  - apply (ledger_accounted s' L').
  - apply (ledger_released_once s' L').
  - apply (ledger_forwarded_once s' L').
  - intros p k Hp Hk.
    pose proof (ledger_alloc_range s' L' p Hp) as Hr.
    pose proof (ledger_brk_max s' L') as Hmax.
    rewrite step_run by (unfold NULL; lia). cbn [step_paths]. rewrite Hk.
    eexists. split; [reflexivity|]. cbn.
    rewrite jlong_ptr_roundtrip by lia.
    split_and!; [done|done|apply lookup_delete_eq].
  - intros Hchk s0 evs0 s0' p L0 Hrun0 Hp.
    apply (ledger_accounted s0'); [|done].
    apply (run_ledger evs0 s0 s0'); [done|by apply guarded_checked|done].
Qed.

End Ledger.

Lemma heap_wf_world_tagged : heap_wf world_tagged.
Proof.
  split; [done|]. intros p b Hb. cbn in Hb.
  apply lookup_singleton_Some in Hb as [<- _]. done.
Qed.

Lemma ledger_ready_world : ledger ready_world.
Proof.
  split; cbn; try done.
  - intros p Hp. by apply elem_of_nil in Hp.
  - intros p Hp. by apply elem_of_nil in Hp.
  - intros p Hp. by apply elem_of_nil in Hp.
  - apply NoDup_nil_2.
  - apply NoDup_nil_2.
  - intros p Hp. by apply elem_of_nil in Hp.
Qed.

Lemma consistent_world_tagged : consistent host_checked world_tagged.
Proof.
  split; [apply heap_wf_world_tagged|done|].
  intros k t Ht. cbn in Ht. apply lookup_singleton_Some in Ht as [<- <-].
  split; [done|]. by exists "Lcom/app/Main;"%string.
Qed.

Lemma signature_stable_checked : signature_stable host_checked.
Proof. by intros n k. Qed.

(** The concrete worlds are worlds the tracker reaches. *)
Example world_tagged_reached :
  run host_unchecked [ClassPrepared 1] ready_world = Ret tt world_tagged.
Proof. vm_compute. reflexivity. Qed.

Example world_two_classes_reached :
  run host_checked [Bootstrap 1; ClassPrepared 2] ready_world
  = Ret tt world_two_classes.
Proof. vm_compute. reflexivity. Qed.

(** The scenario of the spec: after the bootstrap saw "Lcom/app/Main;" and a
    prepare notification came for "Lcom/app/Helper;", the free of the first
    class object makes one call of the event handler, with the address of
    "Lcom/app/Main;". *)
Example scenario_unload :
  unloads (state_after (run host_checked
             [Bootstrap 1; ClassPrepared 2; ObjectFreed 1] ready_world))
  = [(65536, 77)] ∧
  heap world_two_classes !! 65536 = Some (BString "Lcom/app/Main;").
Proof. split; vm_compute; reflexivity. Qed.

Lemma unchecked_run_retags :
  run host_unchecked [ClassPrepared 1; ClassPrepared 1] ready_world
  = Ret tt world_retagged.
Proof. vm_compute. reflexivity. Qed.

(** C3, counterexample: without consistency checking a second prepare
    notification for class 1 replaces the tag 65536 of its slot by 65551. *)
Lemma single_tag_unchecked_counterexample :
  ¬ single_tag_invariant host_unchecked.
Proof.
  intros H.
  specialize (H world_tagged [ClassPrepared 1] 1 65536
                (state_after (run host_unchecked [ClassPrepared 1] world_tagged))).
  assert (tags (state_after (run host_unchecked [ClassPrepared 1] world_tagged)) !! 1
          = Some 65536) as Hbad.
  { apply H; [done|done|done| |by vm_compute].
    intros Hin. apply list_elem_of_singleton in Hin. discriminate. }
  vm_compute in Hbad. discriminate.
Qed.

(** C2, counterexample: without consistency checking, after two prepare
    notifications for class 1 the first identity string, at 65536, is neither
    released nor forwarded nor held by a slot. *)
Lemma leak_unchecked_counterexample :
  ¬ no_leak_no_double_free host_unchecked.
Proof.
  intros H.
  specialize (H ready_world [ClassPrepared 1; ClassPrepared 1] world_retagged
                65536 ledger_ready_world unchecked_run_retags).
  destruct H as [(Hr & _)|[(_ & Hf & _)|(_ & _ & [k Hk])]].
  - cbn. apply elem_of_cons. right. apply elem_of_cons. by left.
  - cbn in Hr. by apply elem_of_nil in Hr.
  - cbn in Hf. by apply elem_of_nil in Hf.
  - cbn in Hk. apply lookup_singleton_Some in Hk as [_ Hk].
    vm_compute in Hk. discriminate.
Qed.

Lemma heap_wf_ready_world : heap_wf ready_world.
Proof. split; [done|]. intros p b Hb. cbn in Hb. by rewrite lookup_empty in Hb. Qed.

(** ** The theorems at concrete worlds *)

(** C1 at the world in which class 1 is tagged with "Lcom/app/Main;". *)
Lemma cbTrackingObjectFree_reports_identity_witness :
  (∃ s' p, cbTrackingObjectFree host_checked 4096 65536 world_tagged = Ret tt s' ∧
           unloads s' = (p, 77) :: unloads world_tagged ∧
           p = jlong_to_ptr 65536 ∧
           heap s' !! p = Some (BString "Lcom/app/Main;")) ∧
  (∃ s', step host_checked (ObjectFreed 1) world_tagged = Ret tt s' ∧
         unloads s' = (jlong_to_ptr 65536, 77) :: unloads world_tagged ∧
         heap s' !! jlong_to_ptr 65536 = Some (BString "Lcom/app/Main;")).
Proof.
  apply (cbTrackingObjectFree_reports_identity host_checked 4096 1 65536
           "Lcom/app/Main;" world_tagged); reflexivity.
Defined.

(** C2 along the scenario of the spec, with consistency checking enabled. *)
Lemma identities_accounted_witness :
  guarded host_checked demo_events ready_world ∧
  NoDup (released (state_after (run host_checked demo_events ready_world))) ∧
  NoDup (forwarded (state_after (run host_checked demo_events ready_world))).
Proof.
  split; [by apply guarded_checked|].
  destruct (identities_accounted host_checked demo_events ready_world
              (state_after (run host_checked demo_events ready_world)))
    as (_ & Hreleased & Hforwarded & _).
  - exact ledger_ready_world.
  - by apply guarded_checked.
  - vm_compute. reflexivity.
  - by split.
Defined.

(** C3: with checking enabled, two more prepare notifications leave the tag
    of class 1 as it was. *)
Lemma tag_set_once_witness :
  checking_enabled host_checked = true ∧
  tags (state_after (run host_checked [ClassPrepared 1; ClassPrepared 2] world_tagged)) !! 1
    = Some 65536.
Proof.
  split; [reflexivity|].
  apply (proj1 (tag_set_once host_checked) eq_refl world_tagged
           [ClassPrepared 1; ClassPrepared 2] 1 65536).
  - reflexivity.
  - reflexivity.
  - discriminate.
  - intros Hin. apply elem_of_cons in Hin as [Hin|Hin]; [discriminate|].
    apply list_elem_of_singleton in Hin. discriminate.
  - vm_compute. reflexivity.
Defined.

(** C4: the initialisation of a fresh world tags the prepared class 1. *)
Lemma initialize_tags_loaded_classes_witness :
  tagged (state_after (classTrack_initialize host_checked 77 fresh_world)) 1 ∧
  called_since fresh_world
    (state_after (classTrack_initialize host_checked 77 fresh_world)) 1.
Proof.
  apply (initialize_tags_loaded_classes host_checked 77 1 fresh_world).
  - reflexivity.
  - vm_compute. reflexivity.
  - apply elem_of_cons. by left.
  - left. reflexivity.
Defined.

(** C5: class 1 is prepared again with the same signature. *)
Lemma addPreparedClass_already_tagged_witness :
  ∃ s', addPreparedClass host_checked 77 1 world_tagged = Ret tt s' ∧
        tags s' = tags world_tagged ∧
        tag_calls s' = CallGetTag 1 :: tag_calls world_tagged ∧
        released s' = 65551 :: released world_tagged ∧
        heap s' = heap world_tagged ∧
        failed_asserts s' = failed_asserts world_tagged.
Proof.
  destruct (addPreparedClass_already_tagged host_checked 77 1 65536
              "Lcom/app/Main;" "Lcom/app/Main;" world_tagged)
    as (s' & _ & Ht & Hc & Hsame & _).
  - exact heap_wf_world_tagged.
  - reflexivity.
  - discriminate.
  - reflexivity.
  - vm_compute. discriminate.
  - reflexivity.
  - reflexivity.
  - discriminate.
  - reflexivity.
  - destruct (Hsame eq_refl) as (Hrun & Hfa & Hrel & Hheap).
    exists s'. by split_and!.
Defined.

(** C6: SetTag answers with error 20. *)
Lemma addPreparedClass_SetTag_fails_witness :
  ∃ s', addPreparedClass host_SetTag_fails 77 1 ready_world
          = Exit 20 "SetTag" s' ∧
        allocated s' = 65536 :: allocated ready_world ∧
        released s' = 65536 :: released ready_world ∧
        heap s' !! 65536 = None ∧
        heap s' = heap ready_world ∧
        tags s' = tags ready_world.
Proof.
  apply (addPreparedClass_SetTag_fails host_SetTag_fails 77 1
           "Lcom/app/Main;" ready_world).
  - exact heap_wf_ready_world.
  - discriminate.
  - reflexivity.
  - vm_compute. discriminate.
  - right. split; reflexivity.
  - discriminate.
Defined.

(** C7: no tracking environment; a class without signature; GetTag failing. *)
Lemma environment_faults_are_fatal_witness :
  exits (classTrack_initialize host_no_env 77 fresh_world) ∧
  addPreparedClass host_checked 77 3 ready_world
    = Exit 21 "signature" (tick ready_world) ∧
  ∃ s', addPreparedClass host_GetTag_fails 77 1 ready_world
          = Exit 20 "Unable to GetTag with class trackingEnv" s' ∧
        tags s' = tags ready_world.
Proof.
  split_and!.
  - apply (proj1 (environment_faults_are_fatal host_no_env 77 1 fresh_world)).
    left. left. reflexivity.
  - apply (proj1 (proj2 (environment_faults_are_fatal host_checked 77 3 ready_world))).
    discriminate.
  - apply (proj2 (proj2 (environment_faults_are_fatal host_GetTag_fails 77 1 ready_world))).
    + reflexivity.
    + reflexivity.
    + vm_compute. discriminate.
    + discriminate.
    + discriminate.
Defined.

(** C8 along the scenario of the spec from the world in which class 1 is
    tagged. *)
Lemma identity_stable_witness :
  ∃ s', final_state (run host_checked demo_events world_tagged) = Some s' ∧
        failed_asserts s' = failed_asserts world_tagged.
Proof.
  apply (identity_stable host_checked signature_stable_checked demo_events
           world_tagged consistent_world_tagged).
Defined.

(** C9: the free of class 1 ("Lcom/app/Main;") leaves the slot of class 2
    ("Lcom/app/Helper;") as it was. *)
Lemma object_free_frame_witness :
  2 ≠ 1 ∧
  ∃ s', final_state (step host_checked (ObjectFreed 1) world_two_classes) = Some s' ∧
        tags s' !! 2 = tags world_two_classes !! 2 ∧
        tags s' !! 1 = None ∧
        heap s' = heap world_two_classes ∧
        released s' = released world_two_classes.
Proof.
  split; [discriminate|].
  apply (object_free_frame host_checked 4096 65536 1 2 world_two_classes).
  discriminate.
Defined.

(** C10: class 1 is prepared again without consistency checking. *)
Lemma addPreparedClass_unchecked_overwrites_witness :
  ∃ s', addPreparedClass host_unchecked 77 1 world_tagged = Ret tt s' ∧
        tag_calls s' = CallSetTag 1 (ptr_to_jlong 65551) :: tag_calls world_tagged ∧
        tags s' = <[1 := ptr_to_jlong 65551]> (tags world_tagged) ∧
        released s' = released world_tagged.
Proof.
  destruct (addPreparedClass_unchecked_overwrites host_unchecked 77 1
              "Lcom/app/Main;" world_tagged)
    as (s' & Hrun & Hcalls & Htags & _ & _ & Hrel & _).
  - left. reflexivity.
  - exact heap_wf_world_tagged.
  - discriminate.
  - reflexivity.
  - vm_compute. discriminate.
  - reflexivity.
  - exists s'. by split_and!.
Defined.

(** ** The set-up of the notifications *)

Section SetUp.
Variable host : Host.

Lemma setupEvents_state (s : State) :
  trackingEnv s ≠ NULL →
  setupEvents host s = Ret (setup_ok host) (setup_result host s).
Proof.
  intros Henv. unfold setupEvents, setup_ok, setup_result.
  rewrite bind_run. cbn [get].
  unfold AddCapabilities, SetEventCallbacks, SetEventNotificationMode,
    JVMTI_FUNC_PTR.
  rewrite (decide_False (P := trackingEnv s = NULL)) by done.
  rewrite !bind_run, ret_run. cbv beta iota.
  destruct (decide (AddCapabilities_error host = JVMTI_ERROR_NONE)) as [E1|E1].
  2:{ rewrite ret_run. same_error. rewrite ret_run.
      by rewrite bool_decide_eq_false_2 by tauto. }
  rewrite bind_run. cbn [modify]. rewrite ret_run. same_error.
  rewrite !bind_run, ret_run. cbv beta iota.
  destruct (decide (SetEventCallbacks_error host = JVMTI_ERROR_NONE)) as [E2|E2].
  2:{ rewrite ret_run. same_error. rewrite ret_run.
      by rewrite bool_decide_eq_false_2 by tauto. }
  rewrite bind_run. cbn [modify]. rewrite ret_run. same_error.
  rewrite !bind_run, ret_run. cbv beta iota.
  destruct (decide (SetEventNotificationMode_error host JVMTI_EVENT_OBJECT_FREE
                    = JVMTI_ERROR_NONE)) as [E3|E3].
  2:{ rewrite ret_run. same_error. rewrite ret_run.
      by rewrite bool_decide_eq_false_2 by tauto. }
  rewrite bind_run. cbn [modify]. rewrite ret_run. same_error.
  rewrite !bind_run, ret_run. cbv beta iota.
  destruct (decide (SetEventNotificationMode_error host JVMTI_EVENT_CLASS_PREPARE
                    = JVMTI_ERROR_NONE)) as [E4|E4].
  2:{ rewrite ret_run. same_error. rewrite ret_run.
      by rewrite bool_decide_eq_false_2 by tauto. }
  rewrite bind_run. cbn [modify]. rewrite ret_run. same_error.
  rewrite ret_run. by rewrite bool_decide_eq_true_2 by tauto.
Qed.

(** X1: called on a tracking environment, [setupEvents] returns [JNI_TRUE]
    exactly when AddCapabilities, SetEventCallbacks and the two calls of
    SetEventNotificationMode all succeed; then the object-free capability is
    there, the installed callbacks are the two of the module, and the events
    enabled are OBJECT_FREE first and CLASS_PREPARE after it.  Whatever it
    returns, it does not touch the tag store, the heap, the tracking
    environment or the event handler. *)
Theorem setupEvents_wires_all_or_fails (s : State) :
  trackingEnv s ≠ NULL →
  ∃ ok s',
    setupEvents host s = Ret ok s' ∧
    (ok = true ↔
       AddCapabilities_error host = JVMTI_ERROR_NONE ∧
       SetEventCallbacks_error host = JVMTI_ERROR_NONE ∧
       SetEventNotificationMode_error host JVMTI_EVENT_OBJECT_FREE
         = JVMTI_ERROR_NONE ∧
       SetEventNotificationMode_error host JVMTI_EVENT_CLASS_PREPARE
         = JVMTI_ERROR_NONE) ∧
    (ok = true →
       object_free_capability s' = true ∧
       callbacks s' = [cbTrackingObjectFree_fn; cbTrackingClassPrepare_fn] ∧
       enabled_events s' =
         JVMTI_EVENT_CLASS_PREPARE :: JVMTI_EVENT_OBJECT_FREE :: enabled_events s) ∧
    tags s' = tags s ∧ tag_calls s' = tag_calls s ∧ heap s' = heap s ∧
    brk s' = brk s ∧ released s' = released s ∧ unloads s' = unloads s ∧
    trackingEnv s' = trackingEnv s.
Proof.
  intros Henv. exists (setup_ok host), (setup_result host s).
  split; [by apply setupEvents_state|].
  split; [apply bool_decide_eq_true|].
  unfold setup_ok, setup_result. split.
  - intros (E1 & E2 & E3 & E4)%bool_decide_eq_true.
    rewrite !decide_False by (intros ?; done). by cbn.
  - repeat case_decide; by cbn.
Qed.

(** X2: [setupEvents] stops at the first call that fails and returns
    [JNI_FALSE], with the effects of the calls before it and none of the
    calls after it: when AddCapabilities fails nothing has changed; when
    SetEventCallbacks fails no callback is installed and no event enabled;
    when OBJECT_FREE cannot be enabled the callbacks are installed but no
    event is enabled; when CLASS_PREPARE cannot be enabled OBJECT_FREE is
    enabled and CLASS_PREPARE is not. *)
Theorem setupEvents_stops_at_first_failure (s : State) :
  trackingEnv s ≠ NULL →
  (AddCapabilities_error host ≠ JVMTI_ERROR_NONE →
     setupEvents host s = Ret false s) ∧
  (AddCapabilities_error host = JVMTI_ERROR_NONE →
   SetEventCallbacks_error host ≠ JVMTI_ERROR_NONE →
     ∃ s', setupEvents host s = Ret false s' ∧
           object_free_capability s' = true ∧
           callbacks s' = callbacks s ∧
           enabled_events s' = enabled_events s) ∧
  (AddCapabilities_error host = JVMTI_ERROR_NONE →
   SetEventCallbacks_error host = JVMTI_ERROR_NONE →
   SetEventNotificationMode_error host JVMTI_EVENT_OBJECT_FREE ≠ JVMTI_ERROR_NONE →
     ∃ s', setupEvents host s = Ret false s' ∧
           callbacks s' = [cbTrackingObjectFree_fn; cbTrackingClassPrepare_fn] ∧
           enabled_events s' = enabled_events s) ∧
  (AddCapabilities_error host = JVMTI_ERROR_NONE →
   SetEventCallbacks_error host = JVMTI_ERROR_NONE →
   SetEventNotificationMode_error host JVMTI_EVENT_OBJECT_FREE = JVMTI_ERROR_NONE →
   SetEventNotificationMode_error host JVMTI_EVENT_CLASS_PREPARE ≠ JVMTI_ERROR_NONE →
     ∃ s', setupEvents host s = Ret false s' ∧
           callbacks s' = [cbTrackingObjectFree_fn; cbTrackingClassPrepare_fn] ∧
           enabled_events s' = JVMTI_EVENT_OBJECT_FREE :: enabled_events s).
Proof.
  intros Henv. rewrite setupEvents_state by done.
  unfold setup_ok, setup_result. split_and!.
  - intros E1. rewrite bool_decide_eq_false_2 by tauto. by rewrite decide_True.
  - intros E1 E2. rewrite bool_decide_eq_false_2 by tauto.
    rewrite decide_False by (intros ?; done). rewrite decide_True by done.
    by eexists.
  - intros E1 E2 E3. rewrite bool_decide_eq_false_2 by tauto.
    rewrite !decide_False by (intros ?; done). rewrite decide_True by done.
    by eexists.
  - intros E1 E2 E3 E4. rewrite bool_decide_eq_false_2 by tauto.
    rewrite !decide_False by (intros ?; done). rewrite decide_True by done.
    by eexists.
Qed.

End SetUp.

(** ** The callbacks on a foreign environment *)

Section ForeignEnv.
Variable host : Host.

Lemma env_check_fails (jvmti_env : Z) (s : State) :
  jvmti_env ≠ trackingEnv s →
  JDI_ASSERT host (e ← get trackingEnv; mret (bool_decide (jvmti_env = e)))
    env_text s =
    if checking_enabled host then
      if assert_is_fatal host
      then Exit AGENT_ERROR_INTERNAL "Assertion Failed" (asserted env_text s)
      else Ret tt (asserted env_text s)
    else Ret tt s.
Proof.
  intros Hne. destruct (checking_enabled host) eqn:Hchk.
  - erewrite JDI_ASSERT_on; [|done|].
    2:{ rewrite bind_run. cbn [get]. rewrite ret_run. reflexivity. }
    by rewrite bool_decide_eq_false_2.
  - by apply JDI_ASSERT_off.
Qed.

(** X3: the object-free handler called on an environment that is not the
    tracking environment.  Without consistency checking the environment is
    not looked at and the tag is forwarded.  With checking the failed
    assertion is recorded, and then the tag is forwarded all the same unless
    assertions are fatal, in which case the process ends and the event
    handler is not called. *)
Theorem cbTrackingObjectFree_foreign_env (jvmti_env tag : Z) (s : State) :
  jvmti_env ≠ trackingEnv s →
  (checking_enabled host = false →
     ∃ s', cbTrackingObjectFree host jvmti_env tag s = Ret tt s' ∧
           unloads s' = (jlong_to_ptr tag, current_env host) :: unloads s ∧
           failed_asserts s' = failed_asserts s) ∧
  (checking_enabled host = true → assert_is_fatal host = false →
     ∃ s', cbTrackingObjectFree host jvmti_env tag s = Ret tt s' ∧
           unloads s' = (jlong_to_ptr tag, current_env host) :: unloads s ∧
           failed_asserts s' = "jvmti_env == trackingEnv"%string :: failed_asserts s) ∧
  (checking_enabled host = true → assert_is_fatal host = true →
     ∃ s', cbTrackingObjectFree host jvmti_env tag s
             = Exit AGENT_ERROR_INTERNAL "Assertion Failed" s' ∧
           unloads s' = unloads s ∧
           failed_asserts s' = "jvmti_env == trackingEnv"%string :: failed_asserts s).
Proof.
  intros Hne. unfold cbTrackingObjectFree. rewrite bind_run.
  change "jvmti_env == trackingEnv"%string with env_text.
  rewrite env_check_fails by done.
  split_and!.
  - intros ->. by eexists.
  - intros -> ->. by eexists.
  - intros -> ->. by eexists.
Qed.

(** X4: the class-prepare callback hands the class to [addPreparedClass].
    On the tracking environment, and on any environment when consistency
    checking is disabled, its outcome is that of [addPreparedClass]; its
    thread argument and, on these paths, its environment play no part.  On
    a foreign environment with checking enabled the failed assertion is
    recorded first: when assertions are fatal the process ends before the
    signature is asked for, so that nothing is allocated and no tag is read
    or written; otherwise [addPreparedClass] runs all the same. *)
Theorem cbTrackingClassPrepare_delegates (jvmti_env env thread k : Z) (s : State) :
  (jvmti_env = trackingEnv s ∨ checking_enabled host = false →
     cbTrackingClassPrepare host jvmti_env env thread k s
       = addPreparedClass host env k s) ∧
  (jvmti_env ≠ trackingEnv s → checking_enabled host = true →
   assert_is_fatal host = true →
     ∃ s', cbTrackingClassPrepare host jvmti_env env thread k s
             = Exit AGENT_ERROR_INTERNAL "Assertion Failed" s' ∧
           clock s' = clock s ∧ allocated s' = allocated s ∧
           heap s' = heap s ∧ tags s' = tags s ∧ tag_calls s' = tag_calls s ∧
           failed_asserts s' = "jvmti_env == trackingEnv"%string :: failed_asserts s) ∧
  (jvmti_env ≠ trackingEnv s → checking_enabled host = true →
   assert_is_fatal host = false →
     cbTrackingClassPrepare host jvmti_env env thread k s
       = addPreparedClass host env k
           (with_failed_asserts
              ("jvmti_env == trackingEnv"%string :: failed_asserts s) s)).
Proof.
  unfold cbTrackingClassPrepare. rewrite bind_run. split_and!.
  - intros [He|Hoff].
    + by rewrite env_check_run.
    + by rewrite JDI_ASSERT_off.
  - intros Hne Hchk Hfatal.
    change "jvmti_env == trackingEnv"%string with env_text.
    rewrite env_check_fails, Hchk, Hfatal by done. by eexists.
  - intros Hne Hchk Hfatal.
    change "jvmti_env == trackingEnv"%string with env_text.
    by rewrite env_check_fails, Hchk, Hfatal by done.
Qed.

End ForeignEnv.

(** ** More on [addPreparedClass] *)

Section AddPrepared.
Variable host : Host.

(** What no path of [addPreparedClass] touches. *)
Lemma addPreparedClass_paths_frame (k : Z) (s s' : State) :
  final_state (addPreparedClass_paths host k s) = Some s' →
  trackingEnv s' = trackingEnv s ∧
  unloads s' = unloads s ∧
  object_free_capability s' = object_free_capability s ∧
  callbacks s' = callbacks s ∧
  enabled_events s' = enabled_events s ∧
  clock s' = S (clock s) ∧
  (∀ k', k' ≠ k → tags s' !! k' = tags s !! k') ∧
  (∀ p, p ≠ brk s → heap s' !! p = heap s !! p).
Proof.
  unfold addPreparedClass_paths.
  destruct (class_signature host (clock s) k) as [e str].
  destruct (decide (e ≠ JVMTI_ERROR_NONE)).
  { intros [= <-]. by cbn. }
  destruct (decide (brk s + block_size (BString str) ≤ ptr_modulus)).
  2:{ intros [= <-]. by cbn. }
  assert (∀ s1,
    trackingEnv s1 = trackingEnv s → unloads s1 = unloads s →
    object_free_capability s1 = object_free_capability s →
    callbacks s1 = callbacks s → enabled_events s1 = enabled_events s →
    clock s1 = S (clock s) → tags s1 = tags s →
    heap s1 = <[brk s := BString str]> (heap s) →
    final_state (set_path host k s1 (brk s)) = Some s' →
    trackingEnv s' = trackingEnv s ∧ unloads s' = unloads s ∧
    object_free_capability s' = object_free_capability s ∧
    callbacks s' = callbacks s ∧ enabled_events s' = enabled_events s ∧
    clock s' = S (clock s) ∧
    (∀ k', k' ≠ k → tags s' !! k' = tags s !! k') ∧
    (∀ p, p ≠ brk s → heap s' !! p = heap s !! p)) as Hset.
  { intros s1 E1 E2 E3 E4 E5 E6 E7 E8. unfold set_path, tag_written.
    destruct (decide (trackingEnv s1 = NULL)); [done|].
    destruct (decide (_ = JVMTI_ERROR_NONE)); intros [= <-]; cbn;
      rewrite ?E7, ?E8; split_and!; try done.
    - intros k' Hk'. case_decide.
      + by rewrite lookup_delete_ne.
      + by rewrite lookup_insert_ne.
    - intros p Hp. by rewrite lookup_insert_ne.
    - intros p Hp. rewrite lookup_delete_ne by done. by rewrite lookup_insert_ne. }
  destruct (checking_enabled host); [|by apply Hset].
  destruct (decide (trackingEnv s = NULL)); [done|].
  destruct (decide (GetTag_error host k ≠ JVMTI_ERROR_NONE)).
  { intros [= <-]. cbn. split_and!; try done.
    intros p Hp. by rewrite lookup_insert_ne. }
  destruct (decide (default NOT_TAGGED (tags s !! k) ≠ NOT_TAGGED));
    [|by apply Hset].
  unfold dup_path.
  destruct (heap _ !! _) as [[old|]|]; try done.
  destruct (decide (strcmp str old = 0)); [|destruct (assert_is_fatal host)];
    intros [= <-]; cbn; split_and!; try done; intros p Hp;
    rewrite ?lookup_delete_ne by done; by rewrite lookup_insert_ne.
Qed.

(** X5: whatever its outcome, [addPreparedClass] on one class object leaves
    the slot of every other class object as it was, never calls the event
    handler, does not change the tracking environment nor what
    [setupEvents] registered, and leaves every block that was live at an
    address other than the fresh one as it was. *)
Theorem addPreparedClass_frame (env k : Z) (s s' : State) :
  0 < brk s →
  final_state (addPreparedClass host env k s) = Some s' →
  (∀ k', k' ≠ k → tags s' !! k' = tags s !! k') ∧
  unloads s' = unloads s ∧
  trackingEnv s' = trackingEnv s ∧
  object_free_capability s' = object_free_capability s ∧
  callbacks s' = callbacks s ∧
  enabled_events s' = enabled_events s ∧
  (∀ p, p ≠ brk s → heap s' !! p = heap s !! p).
Proof.
  intros Hpos. rewrite addPreparedClass_run by (unfold NULL; lia).
  intros Hfin.
  apply addPreparedClass_paths_frame in Hfin
    as (? & ? & ? & ? & ? & ? & ? & ?).
  by split_and!.
Qed.

(** X6: [addPreparedClass] on a class object whose slot is untagged, when
    every call succeeds: it returns; the slot holds a tag that is not
    [NOT_TAGGED] and that [jlong_to_ptr] turns back into the address of the
    fresh string, which holds the signature of the class; with consistency
    checking the tag store was called twice, GetTag then SetTag, without it
    once, SetTag; nothing was released. *)
Theorem addPreparedClass_tags_untagged (env k : Z) (str : string) (s : State) :
  0 < brk s →
  trackingEnv s ≠ NULL →
  class_signature host (clock s) k = (JVMTI_ERROR_NONE, str) →
  brk s + block_size (BString str) ≤ ptr_modulus →
  tags s !! k = None →
  GetTag_error host k = JVMTI_ERROR_NONE →
  SetTag_error host k (ptr_to_jlong (brk s)) = JVMTI_ERROR_NONE →
  ∃ s' t,
    addPreparedClass host env k s = Ret tt s' ∧
    tags s' = <[k := t]> (tags s) ∧
    t ≠ NOT_TAGGED ∧
    jlong_to_ptr t = brk s ∧
    heap s' = <[brk s := BString str]> (heap s) ∧
    heap s' !! jlong_to_ptr t = Some (BString str) ∧
    tag_calls s' =
      CallSetTag k t
        :: (if checking_enabled host then [CallGetTag k] else []) ++ tag_calls s ∧
    allocated s' = brk s :: allocated s ∧
    released s' = released s.
Proof.
  intros Hpos Henv Hsig Hfit Htag Hget Hset.
  pose proof (block_size_pos (BString str)) as Hsz.
  pose proof (fresh_nonnull s _ Hpos Hfit) as Hnn.
  assert (jlong_to_ptr (ptr_to_jlong (brk s)) = brk s) as Hround
    by (apply jlong_ptr_roundtrip; lia).
  rewrite addPreparedClass_run by (unfold NULL; lia).
  unfold addPreparedClass_paths. rewrite Hsig, Htag. cbn [default from_option].
  same_error. rewrite decide_True by done.
  assert (∀ s1 calls,
    trackingEnv s1 = trackingEnv s → tags s1 = tags s →
    heap s1 = <[brk s := BString str]> (heap s) →
    tag_calls s1 = calls ++ tag_calls s →
    allocated s1 = brk s :: allocated s → released s1 = released s →
    ∃ s' t,
      set_path host k s1 (brk s) = Ret tt s' ∧
      tags s' = <[k := t]> (tags s) ∧ t ≠ NOT_TAGGED ∧
      jlong_to_ptr t = brk s ∧
      heap s' = <[brk s := BString str]> (heap s) ∧
      heap s' !! jlong_to_ptr t = Some (BString str) ∧
      tag_calls s' = CallSetTag k t :: calls ++ tag_calls s ∧
      allocated s' = brk s :: allocated s ∧ released s' = released s) as Hpath.
  { intros s1 calls E1 E2 E3 E4 E5 E6. unfold set_path, tag_written.
    rewrite E1. rewrite (decide_False (P := trackingEnv s = NULL)) by done.
    rewrite decide_True by done.
    rewrite (decide_False (P := ptr_to_jlong (brk s) = NOT_TAGGED)) by done.
    eexists _, (ptr_to_jlong (brk s)). split; [reflexivity|]. cbn.
    rewrite E2, E3, E4, E5, E6, Hround. split_and!; try done.
    apply lookup_insert_eq. }
  destruct (checking_enabled host).
  - rewrite (decide_False (P := trackingEnv s = NULL)) by done.
    same_error.
    by apply (Hpath _ [CallGetTag k]).
  - by apply (Hpath _ []).
Qed.

(** X7: when, with consistency checking enabled, the tag slot cannot be
    read, [addPreparedClass] ends the process without releasing the fresh
    identity string, which is still on the heap, and without a call of
    SetTag: unlike the failure of SetTag, this path has no
    [jvmtiDeallocate]. *)
Theorem addPreparedClass_GetTag_fails_keeps_string
    (env k : Z) (str : string) (s : State) :
  0 < brk s →
  checking_enabled host = true →
  trackingEnv s ≠ NULL →
  class_signature host (clock s) k = (JVMTI_ERROR_NONE, str) →
  brk s + block_size (BString str) ≤ ptr_modulus →
  GetTag_error host k ≠ JVMTI_ERROR_NONE →
  ∃ s', addPreparedClass host env k s =
          Exit (GetTag_error host k) "Unable to GetTag with class trackingEnv" s' ∧
        heap s' !! brk s = Some (BString str) ∧
        allocated s' = brk s :: allocated s ∧
        released s' = released s ∧
        tag_calls s' = CallGetTag k :: tag_calls s ∧
        tags s' = tags s.
Proof.
  intros Hpos Hchk Henv Hsig Hfit Hget.
  rewrite addPreparedClass_run by (unfold NULL; lia).
  unfold addPreparedClass_paths. rewrite Hsig, Hchk.
  same_error. rewrite decide_True by done.
  rewrite (decide_False (P := trackingEnv s = NULL)) by done.
  eexists. split; [reflexivity|]. cbn. split_and!; try done.
  apply lookup_insert_eq.
Qed.

(** A call of [addPreparedClass] that returns keeps the heap well formed
    and every tag the address of a live string. *)
Lemma addPreparedClass_paths_live (k : Z) (s s' : State) :
  heap_wf s → tags_live s →
  addPreparedClass_paths host k s = Ret tt s' →
  heap_wf s' ∧ tags_live s' ∧ trackingEnv s' = trackingEnv s.
Proof.
  intros Hwf Hlive Hrun.
  pose proof (wf_brk_pos s Hwf) as Hpos.
  pose proof (fresh_not_live s Hwf) as Hfresh.
  apply addPreparedClass_paths_Ret in Hrun
    as (str & _ & Hfit & _ & Eenv & Ebrk & _ & _ & Hcase); [|done].
  pose proof (block_size_pos (BString str)) as Hsz.
  destruct Hcase as [(_ & _ & Et & Eh & _)|(_ & Hnn & Et & Eh & _)].
  - rewrite delete_insert_id in Eh by done. split_and!; [|by intros k' t; rewrite Et, Eh; apply Hlive|done].
    split; [lia|]. rewrite Eh. intros p b Hb.
    apply (wf_heap_below _ Hwf) in Hb. lia.
  - split_and!; [| |done].
    + split; [lia|]. rewrite Eh. intros p b Hb.
      apply lookup_insert_Some in Hb as [[<- _]|[_ Hb]]; [lia|].
      apply (wf_heap_below _ Hwf) in Hb. lia.
    + intros k' t. rewrite Et, Eh. intros Ht.
      apply lookup_insert_Some in Ht as [[_ <-]|[_ Ht]].
      * exists str. rewrite jlong_ptr_roundtrip by lia. apply lookup_insert_eq.
      * destruct (Hlive k' t Ht) as [old Hold]. exists old.
        rewrite lookup_insert_ne; [done|]. intros E. rewrite <- E in Hold. congruence.
Qed.

Lemma addPreparedClass_paths_defined (k : Z) (s : State) (why : string) :
  heap_wf s → tags_live s → trackingEnv s ≠ NULL →
  addPreparedClass_paths host k s ≠ Fault why.
Proof.
  intros Hwf Hlive Henv Hrun.
  apply addPreparedClass_paths_Fault in Hrun
    as [?|(str & t & _ & Ht & _ & Hno)]; [done|].
  destruct (Hlive k t Ht) as [old Hold].
  apply (Hno old). rewrite lookup_insert_ne; [done|].
  intros E. rewrite <- E in Hold.
  pose proof (fresh_not_live s Hwf). congruence.
Qed.

(** X8: in a world whose heap is well formed, whose tags are all addresses
    of live strings and that has a tracking environment, [addPreparedClass]
    stays within defined behaviour: it reads no address that holds no
    string, gives back no block that is not live and dereferences no null
    environment; and when it returns, the world is again of that kind. *)
Theorem addPreparedClass_memory_safe (env k : Z) (s : State) :
  heap_wf s → tags_live s → trackingEnv s ≠ NULL →
  (∀ why, addPreparedClass host env k s ≠ Fault why) ∧
  (∀ s', addPreparedClass host env k s = Ret tt s' →
         heap_wf s' ∧ tags_live s' ∧ trackingEnv s' ≠ NULL).
Proof.
  intros Hwf Hlive Henv.
  pose proof (wf_brk_pos s Hwf) as Hpos.
  rewrite addPreparedClass_run by (unfold NULL; lia).
  split.
  - intros why. by apply addPreparedClass_paths_defined.
  - intros s' Hrun.
    apply addPreparedClass_paths_live in Hrun as (? & ? & E); [|done|done].
    split_and!; [done|done|by rewrite E].
Qed.

(** X9: with consistency checking enabled and a signature that does not
    change, preparing an untagged class object twice is preparing it once,
    as far as the tag store and the heap go: the second call returns with
    the tags and the heap of the first, records no failed assertion, and
    has released its own fresh string. *)
Theorem addPreparedClass_twice (env k : Z) (s s1 s2 : State) :
  checking_enabled host = true →
  signature_stable host →
  heap_wf s →
  tags s !! k = None →
  addPreparedClass host env k s = Ret tt s1 →
  addPreparedClass host env k s1 = Ret tt s2 →
  tags s2 = tags s1 ∧
  heap s2 = heap s1 ∧
  failed_asserts s2 = failed_asserts s ∧
  released s2 = brk s1 :: released s ∧
  unloads s2 = unloads s.
Proof.
  intros Hchk Hstable Hwf Hnone Hrun1 Hrun2.
  pose proof (wf_brk_pos s Hwf) as Hpos.
  pose proof (fresh_not_live s Hwf) as Hfresh.
  rewrite addPreparedClass_run in Hrun1 by (unfold NULL; lia).
  apply addPreparedClass_paths_Ret in Hrun1
    as (str & Hsig & Hfit & _ & _ & Ebrk & _ & Eunl & Hcase); [|done].
  pose proof (block_size_pos (BString str)) as Hsz.
  destruct Hcase as [(_ & (t & old & Ht & _) & _)|(_ & Hnn & Et & Eh & Erel & Efa)];
    [congruence|].
  assert (0 < brk s1) as Hpos1 by lia.
  assert (heap s1 !! brk s1 = None) as Hfresh1.
  { rewrite Eh, Ebrk. rewrite lookup_insert_ne by lia.
    destruct (heap s !! (brk s + block_size (BString str))) eqn:E; [|done].
    apply (wf_heap_below _ Hwf) in E. lia. }
  rewrite addPreparedClass_run in Hrun2 by (unfold NULL; lia).
  apply addPreparedClass_paths_Ret in Hrun2
    as (str2 & Hsig2 & _ & _ & _ & _ & _ & Eunl2 & Hcase2); [|done].
  rewrite Hstable in Hsig, Hsig2.
  assert (str2 = str) as -> by congruence.
  destruct Hcase2 as [(_ & (t & old & Ht & _ & Hold & Hcmp) & Et2 & Eh2 & Erel2)
                     |(Hwhy & _)].
  - rewrite Et, lookup_insert_eq in Ht. injection Ht as <-.
    rewrite jlong_ptr_roundtrip in Hold by lia.
    rewrite Eh in Hold.
    rewrite lookup_insert_ne in Hold by lia.
    rewrite lookup_insert_eq in Hold. injection Hold as <-.
    destruct Hcmp as [[_ Efa2]|[? _]]; [|done].
    rewrite delete_insert_id in Eh2 by done.
    split_and!; try done; congruence.
  - rewrite Et, lookup_insert_eq in Hwhy.
    destruct Hwhy as [?|[?|?]]; congruence.
Qed.

(** X10: preparing an untagged class object and then freeing it delivers
    its signature: the free makes one call of the event handler, whose first
    argument is the address at which the string allocated by
    [addPreparedClass] still holds the signature of the class, and the slot
    is empty again; the string has not been released. *)
Theorem prepare_then_free_reports_signature (env k : Z) (s s1 : State) :
  0 < brk s →
  tags s !! k = None →
  addPreparedClass host env k s = Ret tt s1 →
  ∃ str s2,
    class_signature host (clock s) k = (JVMTI_ERROR_NONE, str) ∧
    step host (ObjectFreed k) s1 = Ret tt s2 ∧
    unloads s2 = (brk s, current_env host) :: unloads s ∧
    heap s2 !! brk s = Some (BString str) ∧
    tags s2 !! k = None ∧
    released s2 = released s.
Proof.
  intros Hpos Hnone Hrun.
  rewrite addPreparedClass_run in Hrun by (unfold NULL; lia).
  apply addPreparedClass_paths_Ret in Hrun
    as (str & Hsig & Hfit & _ & _ & Ebrk & _ & Eunl & Hcase); [|done].
  pose proof (block_size_pos (BString str)) as Hsz.
  destruct Hcase as [(_ & (t & old & Ht & _) & _)|(_ & Hnn & Et & Eh & Erel & Efa)];
    [congruence|].
  exists str.
  rewrite step_run by (unfold NULL; lia). cbn [step_paths].
  rewrite Et, lookup_insert_eq.
  eexists. split; [done|]. split; [reflexivity|]. cbn.
  rewrite jlong_ptr_roundtrip by lia. rewrite Eunl, Eh, Erel.
  split_and!; try done.
  - apply lookup_insert_eq.
  - apply lookup_delete_eq.
Qed.

End AddPrepared.

(** ** More on [classTrack_initialize] *)

Section InitializeMore.
Variable host : Host.

(** [classTrack_initialize] up to the loop, with the states written out. *)
Lemma classTrack_initialize_unfold (env : Z) (s : State) :
  classTrack_initialize host env s =
    let s0 := with_trackingEnv (special_jvmti host) s in
    if decide (special_jvmti host = NULL)
    then Exit AGENT_ERROR_INTERNAL "Failed to allocate tag-tracking jvmtiEnv" s0
    else
      let s1 := setup_result host s0 in
      if setup_ok host then
        let '(error, l) := loaded_classes host in
        if decide (error = JVMTI_ERROR_NONE) then
          if decide (brk s + block_size (BClasses l) ≤ ptr_modulus) then
            (initialize_loop host env (brk s) 0 (length l);;
             jvmtiDeallocate (brk s)) (enumerated l s1)
          else Exit JVMTI_ERROR_OUT_OF_MEMORY "loaded classes array" s1
        else Exit error "loaded classes array" s1
      else Exit AGENT_ERROR_INTERNAL "Unable to setup ObjectFree tracking" s1.
Proof.
  unfold classTrack_initialize. rewrite bind_run. unfold getSpecialJvmti.
  rewrite ret_run. cbv beta iota zeta. rewrite bind_run. cbn [modify].
  rewrite bind_run.
  destruct (decide (special_jvmti host = NULL)) as [E0|E0]; [done|].
  rewrite ret_run. cbv beta iota.
  rewrite bind_run, setupEvents_state by done.
  destruct (setup_ok host); [|by rewrite bind_run].
  rewrite bind_run. cbn [negb]. rewrite ret_run. cbv beta iota.
  rewrite bind_run, allLoadedClasses_run.
  assert (brk (setup_result host (with_trackingEnv (special_jvmti host) s)) = brk s)
    as Ebrk by (unfold setup_result; repeat case_decide; done).
  rewrite Ebrk.
  destruct (loaded_classes host) as [e l].
  destruct (decide (e = JVMTI_ERROR_NONE)) as [->|He].
  2:{ by rewrite decide_False by done. }
  destruct (decide (brk s + block_size (BClasses l) ≤ ptr_modulus)) as [Hfit|Hfit].
  - rewrite decide_True by done. by rewrite Nat2Z.id.
  - by rewrite decide_False by (by intros ?).
Qed.

Lemma setup_result_frame (s : State) :
  trackingEnv (setup_result host s) = trackingEnv s ∧
  tags (setup_result host s) = tags s ∧
  heap (setup_result host s) = heap s ∧
  brk (setup_result host s) = brk s ∧
  clock (setup_result host s) = clock s ∧
  allocated (setup_result host s) = allocated s ∧
  released (setup_result host s) = released s ∧
  unloads (setup_result host s) = unloads s ∧
  tag_calls (setup_result host s) = tag_calls s ∧
  failed_asserts (setup_result host s) = failed_asserts s.
Proof. unfold setup_result. repeat case_decide; by cbn. Qed.

Lemma setup_result_ok (s : State) :
  setup_ok host = true →
  object_free_capability (setup_result host s) = true ∧
  callbacks (setup_result host s) = tracking_callbacks ∧
  enabled_events (setup_result host s) =
    JVMTI_EVENT_CLASS_PREPARE :: JVMTI_EVENT_OBJECT_FREE :: enabled_events s.
Proof.
  intros (E1 & E2 & E3 & E4)%bool_decide_eq_true. unfold setup_result.
  rewrite !decide_False by (intros ?; done). by cbn.
Qed.

(** The loop of [classTrack_initialize] keeps what every call of
    [addPreparedClass] on a wanted class of the enumeration keeps, and keeps
    the array it reads. *)
Lemma initialize_loop_invariant (env classes : Z) (l : list Z) (I : State → Prop) :
  (∀ k s s', k ∈ l → prepared_or_array (class_status host k) →
             0 < brk s → I s →
             addPreparedClass_paths host k s = Ret tt s' → I s') →
  ∀ (n i : nat) (s s' : State),
    heap s !! classes = Some (BClasses l) → classes < brk s → 0 < brk s →
    (i + n = length l)%nat →
    I s →
    initialize_loop host env classes (Z.of_nat i) n s = Ret tt s' →
    I s' ∧ heap s' !! classes = Some (BClasses l) ∧ brk s ≤ brk s'.
Proof.
  intros Hkeep. induction n as [|n IH]; intros i s s' Hh Hc Hpos Hlen HI.
  - cbn. intros [= <-]. split_and!; [done|done|lia].
  - cbn [initialize_loop]. rewrite bind_run.
    assert (is_Some (l !! i)) as [k Hk] by (apply lookup_lt_is_Some; lia).
    assert (k ∈ l) as Hin by (apply list_elem_of_lookup; by exists i).
    unfold initialize_body. rewrite bind_run.
    erewrite read_class_run; [|done|lia|by rewrite Nat2Z.id].
    rewrite bind_run. unfold classStatus. rewrite ret_run. cbv beta iota.
    replace (Z.of_nat i + 1) with (Z.of_nat (S i)) by lia.
    destruct (decide (Z.land (class_status host k)
                (Z.lor JVMTI_CLASS_STATUS_PREPARED JVMTI_CLASS_STATUS_ARRAY) ≠ 0))
      as [Hw|Hw].
    + rewrite addPreparedClass_run by (unfold NULL; lia).
      destruct (addPreparedClass_paths host k s) as [[] s1| |] eqn:Hadd; try done.
      pose proof (Hkeep k s s1 Hin (proj1 (wanted_bits _) Hw) Hpos HI Hadd) as HI1.
      apply addPreparedClass_paths_ret in Hadd as (_ & _ & Hheap & Hbrk & _ & _);
        [|done].
      intros Hloop.
      apply IH in Hloop as (? & ? & ?); [|by rewrite Hheap|lia|lia|lia|done].
      split_and!; [done|done|lia].
    + rewrite ret_run. cbv beta iota. intros Hloop.
      by apply IH in Hloop; [|done|lia|lia|lia|done].
Qed.

(** The loop stays within defined behaviour when every call of
    [addPreparedClass] does. *)
Lemma initialize_loop_defined (env classes : Z) (l : list Z) (I : State → Prop) :
  (∀ k s s', k ∈ l → prepared_or_array (class_status host k) →
             0 < brk s → I s →
             addPreparedClass_paths host k s = Ret tt s' → I s') →
  (∀ k s why, 0 < brk s → I s → addPreparedClass_paths host k s ≠ Fault why) →
  ∀ (n i : nat) (s : State) (why : string),
    heap s !! classes = Some (BClasses l) → classes < brk s → 0 < brk s →
    (i + n = length l)%nat →
    I s →
    initialize_loop host env classes (Z.of_nat i) n s ≠ Fault why.
Proof.
  intros Hkeep Hdef. induction n as [|n IH]; intros i s why Hh Hc Hpos Hlen HI.
  - done.
  - cbn [initialize_loop]. rewrite bind_run.
    assert (is_Some (l !! i)) as [k Hk] by (apply lookup_lt_is_Some; lia).
    assert (k ∈ l) as Hin by (apply list_elem_of_lookup; by exists i).
    unfold initialize_body. rewrite bind_run.
    erewrite read_class_run; [|done|lia|by rewrite Nat2Z.id].
    rewrite bind_run. unfold classStatus. rewrite ret_run. cbv beta iota.
    replace (Z.of_nat i + 1) with (Z.of_nat (S i)) by lia.
    destruct (decide (Z.land (class_status host k)
                (Z.lor JVMTI_CLASS_STATUS_PREPARED JVMTI_CLASS_STATUS_ARRAY) ≠ 0))
      as [Hw|Hw].
    + rewrite addPreparedClass_run by (unfold NULL; lia).
      destruct (addPreparedClass_paths host k s) as [[] s1| |why'] eqn:Hadd;
        [|done|by apply Hdef in Hadd].
      pose proof (Hkeep k s s1 Hin (proj1 (wanted_bits _) Hw) Hpos HI Hadd) as HI1.
      apply addPreparedClass_paths_ret in Hadd as (_ & _ & Hheap & Hbrk & _ & _);
        [|done].
      apply IH; [by rewrite Hheap|lia|lia|lia|done].
    + rewrite ret_run. cbv beta iota. by apply IH; [|lia|lia|lia|].
Qed.

(** A return of [classTrack_initialize] is a return of its loop followed by
    the release of the array. *)
Lemma classTrack_initialize_Ret (env : Z) (s s' : State) :
  0 < brk s →
  classTrack_initialize host env s = Ret tt s' →
  ∃ l s2,
    special_jvmti host ≠ NULL ∧ setup_ok host = true ∧
    loaded_classes host = (JVMTI_ERROR_NONE, l) ∧
    brk s + block_size (BClasses l) ≤ ptr_modulus ∧
    initialize_loop host env (brk s) 0 (length l)
      (enumerated l (setup_result host (with_trackingEnv (special_jvmti host) s)))
      = Ret tt s2 ∧
    heap s2 !! brk s = Some (BClasses l) ∧
    s' = freed (brk s) s2.
Proof.
  intros Hpos. rewrite classTrack_initialize_unfold. cbv zeta.
  destruct (decide (special_jvmti host = NULL)); [done|].
  destruct (setup_ok host) eqn:Hok; [|done].
  destruct (loaded_classes host) as [e l].
  destruct (decide (e = JVMTI_ERROR_NONE)) as [->|]; [|done].
  destruct (decide (brk s + block_size (BClasses l) ≤ ptr_modulus)); [|done].
  rewrite bind_run.
  set (s1 := setup_result host (with_trackingEnv (special_jvmti host) s)).
  destruct (setup_result_frame (with_trackingEnv (special_jvmti host) s))
    as (_ & _ & _ & Ebrk & _). fold s1 in Ebrk. cbn in Ebrk.
  pose proof (block_size_pos (BClasses l)) as Hsz.
  destruct (initialize_loop host env (brk s) 0 (length l) (enumerated l s1))
    as [[] s2| |] eqn:Hloop; try done.
  pose proof Hloop as Hloop'.
  apply (initialize_loop_invariant env (brk s) l (λ _, True)) with (i := 0%nat)
    in Hloop' as (_ & Harr & _); [|done| | | |done|done].
  2:{ cbn. rewrite Ebrk. apply lookup_insert_eq. }
  2:{ cbn. lia. }
  2:{ cbn. lia. }
  erewrite jvmtiDeallocate_run; [|unfold NULL; lia|done].
  intros [= <-]. by exists l, s2.
Qed.

(** X11: the code and the message with which [classTrack_initialize] ends
    the process.  Without a tracking environment it is
    [AGENT_ERROR_INTERNAL] and nothing has been registered.  When the set-up
    of the events fails it is again [AGENT_ERROR_INTERNAL], whatever error
    JVMTI gave, and the loaded classes have not been asked for.  When the
    enumeration fails it is the error of the enumeration, the events are
    enabled by then, and the tag store has not been called. *)
Theorem classTrack_initialize_exit_codes (env : Z) (s : State) :
  (special_jvmti host = NULL →
     ∃ s', classTrack_initialize host env s =
             Exit AGENT_ERROR_INTERNAL "Failed to allocate tag-tracking jvmtiEnv" s' ∧
           object_free_capability s' = object_free_capability s ∧
           callbacks s' = callbacks s ∧
           enabled_events s' = enabled_events s) ∧
  (special_jvmti host ≠ NULL → setup_ok host = false →
     ∃ s', classTrack_initialize host env s =
             Exit AGENT_ERROR_INTERNAL "Unable to setup ObjectFree tracking" s' ∧
           heap s' = heap s ∧ brk s' = brk s ∧ tag_calls s' = tag_calls s) ∧
  (special_jvmti host ≠ NULL → setup_ok host = true →
   (loaded_classes host).1 ≠ JVMTI_ERROR_NONE →
     ∃ s', classTrack_initialize host env s =
             Exit (loaded_classes host).1 "loaded classes array" s' ∧
           callbacks s' = [cbTrackingObjectFree_fn; cbTrackingClassPrepare_fn] ∧
           enabled_events s' =
             JVMTI_EVENT_CLASS_PREPARE :: JVMTI_EVENT_OBJECT_FREE
               :: enabled_events s ∧
           tags s' = tags s ∧ tag_calls s' = tag_calls s ∧ heap s' = heap s).
Proof.
  rewrite classTrack_initialize_unfold. cbv zeta.
  destruct (setup_result_frame (with_trackingEnv (special_jvmti host) s))
    as (_ & Et & Eh & Eb & _ & _ & _ & _ & Ec & _).
  split_and!.
  - intros E. rewrite decide_True by done. by eexists.
  - intros E Hok. rewrite decide_False by done. rewrite Hok. by eexists.
  - intros E Hok Herr. rewrite decide_False by done. rewrite Hok.
    destruct (setup_result_ok (with_trackingEnv (special_jvmti host) s) Hok)
      as (_ & Ecb & Eev).
    destruct (loaded_classes host) as [e l]. cbn [fst] in *.
    rewrite decide_False by done. by eexists.
Qed.

(** X12: when [classTrack_initialize] returns, the tracker is wired: the
    tracking environment is the one that was granted and is not null, the
    object-free capability is there, the two callbacks are installed and
    both events are enabled; the array of the enumeration has been released
    and is no longer on the heap; and the event handler has not been
    called. *)
Theorem classTrack_initialize_returns_wired (env : Z) (s s' : State) :
  0 < brk s →
  classTrack_initialize host env s = Ret tt s' →
  trackingEnv s' = special_jvmti host ∧
  trackingEnv s' ≠ NULL ∧
  object_free_capability s' = true ∧
  callbacks s' = [cbTrackingObjectFree_fn; cbTrackingClassPrepare_fn] ∧
  enabled_events s' =
    JVMTI_EVENT_CLASS_PREPARE :: JVMTI_EVENT_OBJECT_FREE :: enabled_events s ∧
  heap s' !! brk s = None ∧
  (∃ rest, released s' = brk s :: rest) ∧
  unloads s' = unloads s.
Proof.
  intros Hpos Hrun.
  apply classTrack_initialize_Ret in Hrun
    as (l & s2 & Henv & Hok & Hl & Hfit & Hloop & Harr & ->); [|done].
  set (s1 := setup_result host (with_trackingEnv (special_jvmti host) s)) in *.
  destruct (setup_result_frame (with_trackingEnv (special_jvmti host) s))
    as (Ee & _ & _ & Eb & _ & _ & _ & Eu & _). fold s1 in Ee, Eb, Eu.
  cbn in Ee, Eb, Eu.
  destruct (setup_result_ok (with_trackingEnv (special_jvmti host) s) Hok)
    as (Ecap & Ecb & Eev). fold s1 in Ecap, Ecb, Eev.
  pose proof (block_size_pos (BClasses l)) as Hsz.
  apply (initialize_loop_invariant env (brk s) l
           (λ x, trackingEnv x = special_jvmti host ∧
                 object_free_capability x = true ∧
                 callbacks x = tracking_callbacks ∧
                 enabled_events x =
                   JVMTI_EVENT_CLASS_PREPARE :: JVMTI_EVENT_OBJECT_FREE
                     :: enabled_events s ∧
                 unloads x = unloads s)) with (i := 0%nat)
    in Hloop as ((E1 & E2 & E3 & E4 & E5) & _ & _).
  - cbn. split_and!; try done; try congruence.
    + apply lookup_delete_eq.
    + by eexists.
  - intros k x x' _ _ _ (E1 & E2 & E3 & E4 & E5) Hadd.
    assert (final_state (addPreparedClass_paths host k x) = Some x') as Hf
      by (by rewrite Hadd).
    apply addPreparedClass_paths_frame in Hf as (? & ? & ? & ? & ? & _).
    split_and!; congruence.
  - cbn. rewrite Eb. apply lookup_insert_eq.
  - cbn. lia.
  - cbn. lia.
  - done.
  - cbn. split_and!; try done.
Qed.

(** X13: [classTrack_initialize] changes the slot of no class object other
    than the enumerated ones whose status has the "prepared" or the "array"
    bit: the slot of a class object that is not enumerated, or that has
    neither bit, is as it was when the function returns. *)
Theorem classTrack_initialize_skips_unprepared (env k : Z) (s s' : State) :
  0 < brk s →
  classTrack_initialize host env s = Ret tt s' →
  ¬ (k ∈ (loaded_classes host).2 ∧ prepared_or_array (class_status host k)) →
  tags s' !! k = tags s !! k.
Proof.
  intros Hpos Hrun Hskip.
  apply classTrack_initialize_Ret in Hrun
    as (l & s2 & Henv & Hok & Hl & Hfit & Hloop & Harr & ->); [|done].
  rewrite Hl in Hskip. cbn [snd] in Hskip.
  set (s1 := setup_result host (with_trackingEnv (special_jvmti host) s)) in *.
  destruct (setup_result_frame (with_trackingEnv (special_jvmti host) s))
    as (_ & Et & _ & Eb & _). fold s1 in Et, Eb. cbn in Et, Eb.
  pose proof (block_size_pos (BClasses l)) as Hsz.
  apply (initialize_loop_invariant env (brk s) l
           (λ x, tags x !! k = tags s !! k)) with (i := 0%nat)
    in Hloop as (E & _ & _).
  - done.
  - intros k' x x' Hin Hwant _ E Hadd.
    assert (final_state (addPreparedClass_paths host k' x) = Some x') as Hf
      by (by rewrite Hadd).
    apply addPreparedClass_paths_frame in Hf as (_ & _ & _ & _ & _ & _ & Hother & _).
    rewrite Hother; [done|]. intros ->. by apply Hskip.
  - cbn. rewrite Eb. apply lookup_insert_eq.
  - cbn. lia.
  - cbn. lia.
  - done.
  - cbn. by rewrite Et.
Qed.

(** X14: when the set-up succeeds and no enumerated class has the
    "prepared" or the "array" bit (the enumeration may be empty),
    [classTrack_initialize] returns without a call on the tag store and
    without a signature query: tags, heap and allocations are as they were,
    and the only block released is the array of the enumeration. *)
Theorem classTrack_initialize_nothing_prepared (env : Z) (l : list Z) (s : State) :
  heap_wf s →
  special_jvmti host ≠ NULL →
  setup_ok host = true →
  loaded_classes host = (JVMTI_ERROR_NONE, l) →
  brk s + block_size (BClasses l) ≤ ptr_modulus →
  (∀ k, k ∈ l → ¬ prepared_or_array (class_status host k)) →
  ∃ s', classTrack_initialize host env s = Ret tt s' ∧
        tags s' = tags s ∧ tag_calls s' = tag_calls s ∧
        clock s' = clock s ∧ allocated s' = allocated s ∧
        heap s' = heap s ∧
        released s' = brk s :: released s.
Proof.
  intros Hwf Henv Hok Hl Hfit Hnone.
  pose proof (wf_brk_pos s Hwf) as Hpos.
  pose proof (fresh_not_live s Hwf) as Hfresh.
  pose proof (block_size_pos (BClasses l)) as Hsz.
  rewrite classTrack_initialize_unfold. cbv zeta.
  rewrite decide_False by done. rewrite Hok, Hl.
  rewrite (decide_True (P := JVMTI_ERROR_NONE = JVMTI_ERROR_NONE)) by done.
  rewrite decide_True by done.
  set (s1 := setup_result host (with_trackingEnv (special_jvmti host) s)).
  destruct (setup_result_frame (with_trackingEnv (special_jvmti host) s))
    as (_ & Et & Eh & Eb & Ecl & Eal & Erel & _ & Ec & _).
  fold s1 in Et, Eh, Eb, Ecl, Eal, Erel, Ec. cbn in Et, Eh, Eb, Ecl, Eal, Erel, Ec.
  assert (∀ n i x, heap x !! brk s = Some (BClasses l) →
            (i + n = length l)%nat →
            initialize_loop host env (brk s) (Z.of_nat i) n x = Ret tt x) as Hloop.
  { induction n as [|n IH]; intros i x Hx Hlen; [done|].
    cbn [initialize_loop]. rewrite bind_run.
    assert (is_Some (l !! i)) as [k Hk] by (apply lookup_lt_is_Some; lia).
    unfold initialize_body. rewrite bind_run.
    erewrite read_class_run; [|done|lia|by rewrite Nat2Z.id].
    rewrite bind_run. unfold classStatus. rewrite ret_run. cbv beta iota.
    rewrite decide_False.
    - rewrite ret_run. cbv beta iota.
      replace (Z.of_nat i + 1) with (Z.of_nat (S i)) by lia.
      apply IH; [done|lia].
    - intros Hw. apply wanted_bits in Hw. apply (Hnone k); [|done].
      apply list_elem_of_lookup. by exists i. }
  rewrite bind_run.
  rewrite (Hloop (length l) 0%nat);
    [|cbn; rewrite Eb; apply lookup_insert_eq|lia].
  erewrite jvmtiDeallocate_run; [|unfold NULL; lia|cbn; rewrite Eb; apply lookup_insert_eq].
  eexists. split; [reflexivity|]. cbn. rewrite Eb.
  split_and!; try done.
  - rewrite Eh. by apply delete_insert_id.
  - by rewrite Erel.
Qed.

(** X15: started in a world whose heap is well formed and whose tags are
    all addresses of live strings (a fresh tag store has none),
    [classTrack_initialize] stays within defined behaviour on every host: it
    reads the array of the enumeration only within its bounds and while it
    is live, compares only live strings, releases only live blocks and calls
    JVMTI only on an environment that is not null; and when it returns the
    world is again of that kind. *)
Theorem classTrack_initialize_memory_safe (env : Z) (s : State) :
  heap_wf s → tags_live s →
  (∀ why, classTrack_initialize host env s ≠ Fault why) ∧
  (∀ s', classTrack_initialize host env s = Ret tt s' →
         heap_wf s' ∧ tags_live s').
Proof.
  intros Hwf Hlive.
  pose proof (wf_brk_pos s Hwf) as Hpos.
  pose proof (fresh_not_live s Hwf) as Hfresh.
  set (I := λ x : State, heap_wf x ∧ tags_live x ∧ trackingEnv x ≠ NULL).
  assert (∀ k x x', k ∈ (loaded_classes host).2 →
            prepared_or_array (class_status host k) → 0 < brk x → I x →
            addPreparedClass_paths host k x = Ret tt x' → I x') as Hkeep.
  { intros k x x' _ _ _ (H1 & H2 & H3) Hadd.
    apply addPreparedClass_paths_live in Hadd as (? & ? & E); [|done|done].
    split_and!; [done|done|by rewrite E]. }
  assert (∀ k x why, 0 < brk x → I x →
            addPreparedClass_paths host k x ≠ Fault why) as Hdef.
  { intros k x why _ (H1 & H2 & H3). by apply addPreparedClass_paths_defined. }
  rewrite classTrack_initialize_unfold. cbv zeta.
  destruct (decide (special_jvmti host = NULL)) as [|Henv]; [done|].
  destruct (setup_ok host); [|done].
  destruct (loaded_classes host) as [e l] eqn:Hl. cbn [snd] in Hkeep.
  destruct (decide (e = JVMTI_ERROR_NONE)) as [->|]; [|done].
  destruct (decide (brk s + block_size (BClasses l) ≤ ptr_modulus)); [|done].
  set (s1 := setup_result host (with_trackingEnv (special_jvmti host) s)).
  destruct (setup_result_frame (with_trackingEnv (special_jvmti host) s))
    as (Ee & Et & Eh & Eb & _). fold s1 in Ee, Et, Eh, Eb. cbn in Ee, Et, Eh, Eb.
  pose proof (block_size_pos (BClasses l)) as Hsz.
  assert (I (enumerated l s1)) as HI.
  { split_and!.
    - split; [cbn; lia|]. cbn. rewrite Eh, Eb. intros p b Hb.
      apply lookup_insert_Some in Hb as [[<- _]|[_ Hb]]; [lia|].
      apply (wf_heap_below _ Hwf) in Hb. lia.
    - intros k t. cbn. rewrite Et, Eh, Eb. intros Ht.
      destruct (Hlive k t Ht) as [str Hstr]. exists str.
      rewrite lookup_insert_ne; [done|]. intros E. rewrite <- E in Hstr. congruence.
    - cbn. by rewrite Ee. }
  assert (heap (enumerated l s1) !! brk s = Some (BClasses l)) as Harr0
    by (cbn; rewrite Eb; apply lookup_insert_eq).
  assert (brk s < brk (enumerated l s1)) as Hlt by (cbn; lia).
  rewrite bind_run.
  destruct (initialize_loop host env (brk s) 0 (length l) (enumerated l s1))
    as [[] s2| |why'] eqn:Hloop.
  - apply (initialize_loop_invariant env (brk s) l I) with (i := 0%nat)
      in Hloop as ((Hwf2 & Hlive2 & _) & Harr & Hbrk);
      [|done|done|done|lia|done|done].
    erewrite jvmtiDeallocate_run; [|unfold NULL; lia|done].
    split; [done|]. intros s' [= <-]. split.
    + split; [exact (wf_brk_pos _ Hwf2)|]. cbn. intros p b Hb.
      apply lookup_delete_Some in Hb as [_ Hb].
      by apply (wf_heap_below _ Hwf2) in Hb.
    + intros k t. cbn. intros Ht. destruct (Hlive2 k t Ht) as [str Hstr].
      exists str. rewrite lookup_delete_ne; [done|].
      intros E. rewrite <- E in Hstr. congruence.
  - split; [done|done].
  - exfalso.
    apply (initialize_loop_defined env (brk s) l I Hkeep Hdef (length l) 0%nat
             (enumerated l s1) why'); [done|lia|cbn; lia|done|done|exact Hloop].
Qed.

End InitializeMore.

Section BootstrapSignatures.
Variable host : Host.
Hypothesis stable : signature_stable host.

(** X16: when the signature of a class never changes, a
    [classTrack_initialize] that starts from an empty tag store on a well
    formed heap and returns leaves every tag it wrote as the address of a
    live string that is the signature of the tagged class, and records no
    failed assertion, even when the enumeration lists a class twice. *)
Theorem classTrack_initialize_tags_signatures (env : Z) (s s' : State) :
  heap_wf s →
  tags s = ∅ →
  classTrack_initialize host env s = Ret tt s' →
  consistent host s' ∧ failed_asserts s' = failed_asserts s.
Proof.
  intros Hwf Hempty Hrun.
  pose proof (wf_brk_pos s Hwf) as Hpos.
  pose proof (fresh_not_live s Hwf) as Hfresh.
  apply classTrack_initialize_Ret in Hrun
    as (l & s2 & Henv & Hok & Hl & Hfit & Hloop & Harr & ->); [|done].
  set (s1 := setup_result host (with_trackingEnv (special_jvmti host) s)) in *.
  destruct (setup_result_frame host (with_trackingEnv (special_jvmti host) s))
    as (Ee & Et & Eh & Eb & _ & _ & _ & _ & _ & Ef).
  fold s1 in Ee, Et, Eh, Eb, Ef. cbn in Ee, Et, Eh, Eb, Ef.
  pose proof (block_size_pos (BClasses l)) as Hsz.
  apply (initialize_loop_invariant host env (brk s) l
           (λ x, consistent host x ∧ failed_asserts x = failed_asserts s))
    with (i := 0%nat) in Hloop as ((Hc & Efa) & _ & _).
  - split; [|done]. destruct Hc as [Hwf2 Henv2 Htags2]. split.
    + split; [exact (wf_brk_pos _ Hwf2)|]. cbn. intros p b Hb.
      apply lookup_delete_Some in Hb as [_ Hb].
      by apply (wf_heap_below _ Hwf2) in Hb.
    + done.
    + cbn. intros k t Ht. destruct (Htags2 k t Ht) as (Hnz & str & Hstr & Hsig).
      split; [done|]. exists str. split; [|done].
      rewrite lookup_delete_ne; [done|]. intros E. rewrite <- E in Hstr. congruence.
  - intros k x x' _ _ _ (Hc & Efa) Hadd.
    pose proof (step_consistent host stable (Bootstrap k) x Hc) as Hstep.
    cbn [step_paths] in Hstep. rewrite Hadd in Hstep.
    destruct Hstep as [? ?]. split; [done|congruence].
  - cbn. rewrite Eb. apply lookup_insert_eq.
  - cbn. lia.
  - cbn. lia.
  - done.
  - split; [|done]. split.
    + split; [cbn; lia|]. cbn. rewrite Eh, Eb. intros p b Hb.
      apply lookup_insert_Some in Hb as [[<- _]|[_ Hb]]; [lia|].
      apply (wf_heap_below _ Hwf) in Hb. lia.
    + cbn. by rewrite Ee.
    + cbn. rewrite Et, Hempty. intros k t Ht. by rewrite lookup_empty in Ht.
Qed.

End BootstrapSignatures.

(** ** The further properties at concrete worlds *)

Lemma heap_wf_fresh_world : heap_wf fresh_world.
Proof. split; [done|]. intros p b Hb. cbn in Hb. by rewrite lookup_empty in Hb. Qed.

Lemma tags_live_fresh_world : tags_live fresh_world.
Proof. intros k t Ht. cbn in Ht. by rewrite lookup_empty in Ht. Qed.

Lemma tags_live_world_tagged : tags_live world_tagged.
Proof.
  intros k t Ht. cbn in Ht. apply lookup_singleton_Some in Ht as [_ <-].
  by exists "Lcom/app/Main;"%string.
Qed.

(** The set-up on a host on which every call succeeds. *)
Lemma setupEvents_wires_all_or_fails_witness :
  trackingEnv ready_world ≠ NULL ∧
  ∃ ok s', setupEvents host_checked ready_world = Ret ok s' ∧
           tags s' = tags ready_world ∧ heap s' = heap ready_world.
Proof.
  split; [discriminate|].
  destruct (setupEvents_wires_all_or_fails host_checked ready_world)
    as (ok & s' & Hrun & _ & _ & Ht & _ & Hh & _).
  - discriminate.
  - by exists ok, s'.
Defined.

(** SetEventCallbacks answers with error 98. *)
Lemma setupEvents_stops_at_first_failure_witness :
  ∃ s', setupEvents host_callbacks_fail ready_world = Ret false s' ∧
        object_free_capability s' = true ∧
        callbacks s' = callbacks ready_world ∧
        enabled_events s' = enabled_events ready_world.
Proof.
  apply (setupEvents_stops_at_first_failure host_callbacks_fail ready_world).
  - discriminate.
  - reflexivity.
  - discriminate.
Defined.

(** The free handler on environment 5000 with fatal assertions. *)
Lemma cbTrackingObjectFree_foreign_env_witness :
  ∃ s', cbTrackingObjectFree host_fatal 5000 65536 world_tagged
          = Exit AGENT_ERROR_INTERNAL "Assertion Failed" s' ∧
        unloads s' = unloads world_tagged ∧
        failed_asserts s' =
          "jvmti_env == trackingEnv"%string :: failed_asserts world_tagged.
Proof.
  apply (cbTrackingObjectFree_foreign_env host_fatal 5000 65536 world_tagged).
  - discriminate.
  - reflexivity.
  - reflexivity.
Defined.

(** The prepare callback on the tracking environment. *)
Lemma cbTrackingClassPrepare_delegates_witness :
  cbTrackingClassPrepare host_checked 4096 77 0 1 ready_world
    = addPreparedClass host_checked 77 1 ready_world.
Proof.
  apply (cbTrackingClassPrepare_delegates host_checked 4096 77 0 1 ready_world).
  left. reflexivity.
Defined.

Lemma addPreparedClass_frame_witness :
  tags (state_after (addPreparedClass host_checked 77 1 world_tagged)) !! 2
    = tags world_tagged !! 2 ∧
  unloads (state_after (addPreparedClass host_checked 77 1 world_tagged))
    = unloads world_tagged.
Proof.
  destruct (addPreparedClass_frame host_checked 77 1 world_tagged
              (state_after (addPreparedClass host_checked 77 1 world_tagged)))
    as (Hother & Hunl & _).
  - reflexivity.
  - vm_compute. reflexivity.
  - split; [apply Hother; discriminate|exact Hunl].
Defined.

Lemma addPreparedClass_tags_untagged_witness :
  ∃ s' t, addPreparedClass host_checked 77 1 ready_world = Ret tt s' ∧
          tags s' = <[1 := t]> (tags ready_world) ∧
          t ≠ NOT_TAGGED ∧
          heap s' !! jlong_to_ptr t = Some (BString "Lcom/app/Main;").
Proof.
  destruct (addPreparedClass_tags_untagged host_checked 77 1 "Lcom/app/Main;"
              ready_world)
    as (s' & t & Hrun & Ht & Hnz & _ & _ & Hh & _).
  - reflexivity.
  - discriminate.
  - reflexivity.
  - vm_compute. discriminate.
  - reflexivity.
  - reflexivity.
  - reflexivity.
  - by exists s', t.
Defined.

Lemma addPreparedClass_GetTag_fails_keeps_string_witness :
  ∃ s', addPreparedClass host_GetTag_fails 77 1 ready_world =
          Exit 20 "Unable to GetTag with class trackingEnv" s' ∧
        heap s' !! 65536 = Some (BString "Lcom/app/Main;") ∧
        released s' = released ready_world.
Proof.
  destruct (addPreparedClass_GetTag_fails_keeps_string host_GetTag_fails 77 1
              "Lcom/app/Main;" ready_world)
    as (s' & Hrun & Hh & _ & Hrel & _).
  - reflexivity.
  - reflexivity.
  - discriminate.
  - reflexivity.
  - vm_compute. discriminate.
  - discriminate.
  - by exists s'.
Defined.

Lemma addPreparedClass_memory_safe_witness :
  heap_wf (state_after (addPreparedClass host_checked 77 1 world_tagged)) ∧
  tags_live (state_after (addPreparedClass host_checked 77 1 world_tagged)).
Proof.
  destruct (addPreparedClass_memory_safe host_checked 77 1 world_tagged)
    as [_ Hret].
  - exact heap_wf_world_tagged.
  - exact tags_live_world_tagged.
  - discriminate.
  - destruct (Hret (state_after (addPreparedClass host_checked 77 1 world_tagged)))
      as (Hwf & Hlive & _).
    + vm_compute. reflexivity.
    + by split.
Defined.

Lemma addPreparedClass_twice_witness :
  tags (state_after (addPreparedClass host_checked 77 1
          (state_after (addPreparedClass host_checked 77 1 ready_world))))
  = tags (state_after (addPreparedClass host_checked 77 1 ready_world)) ∧
  heap (state_after (addPreparedClass host_checked 77 1
          (state_after (addPreparedClass host_checked 77 1 ready_world))))
  = heap (state_after (addPreparedClass host_checked 77 1 ready_world)).
Proof.
  destruct (addPreparedClass_twice host_checked 77 1 ready_world
              (state_after (addPreparedClass host_checked 77 1 ready_world))
              (state_after (addPreparedClass host_checked 77 1
                 (state_after (addPreparedClass host_checked 77 1 ready_world)))))
    as (Ht & Hh & _).
  - reflexivity.
  - exact signature_stable_checked.
  - exact heap_wf_ready_world.
  - reflexivity.
  - vm_compute. reflexivity.
  - vm_compute. reflexivity.
  - by split.
Defined.

Lemma prepare_then_free_reports_signature_witness :
  ∃ str s2,
    class_signature host_checked (clock ready_world) 1 = (JVMTI_ERROR_NONE, str) ∧
    step host_checked (ObjectFreed 1)
      (state_after (addPreparedClass host_checked 77 1 ready_world)) = Ret tt s2 ∧
    unloads s2 = (65536, 77) :: unloads ready_world ∧
    heap s2 !! 65536 = Some (BString str) ∧
    tags s2 !! 1 = None ∧
    released s2 = released ready_world.
Proof.
  apply (prepare_then_free_reports_signature host_checked 77 1 ready_world).
  - reflexivity.
  - reflexivity.
  - vm_compute. reflexivity.
Defined.

(** The enumeration answers with error 112. *)
Lemma classTrack_initialize_exit_codes_witness :
  ∃ s', classTrack_initialize host_enumeration_fails 77 fresh_world =
          Exit 112 "loaded classes array" s' ∧
        callbacks s' = [cbTrackingObjectFree_fn; cbTrackingClassPrepare_fn] ∧
        enabled_events s' =
          JVMTI_EVENT_CLASS_PREPARE :: JVMTI_EVENT_OBJECT_FREE
            :: enabled_events fresh_world ∧
        tags s' = tags fresh_world ∧ tag_calls s' = tag_calls fresh_world ∧
        heap s' = heap fresh_world.
Proof.
  apply (classTrack_initialize_exit_codes host_enumeration_fails 77 fresh_world).
  - discriminate.
  - reflexivity.
  - discriminate.
Defined.

Lemma classTrack_initialize_returns_wired_witness :
  trackingEnv (state_after (classTrack_initialize host_checked 77 fresh_world)) = 4096 ∧
  heap (state_after (classTrack_initialize host_checked 77 fresh_world)) !! 65536 = None.
Proof.
  destruct (classTrack_initialize_returns_wired host_checked 77 fresh_world
              (state_after (classTrack_initialize host_checked 77 fresh_world)))
    as (He & _ & _ & _ & _ & Hh & _).
  - reflexivity.
  - vm_compute. reflexivity.
  - by split.
Defined.

(** Class 3 is enumerated but neither prepared nor an array. *)
Lemma classTrack_initialize_skips_unprepared_witness :
  tags (state_after (classTrack_initialize host_checked 77 fresh_world)) !! 3
  = tags fresh_world !! 3.
Proof.
  apply (classTrack_initialize_skips_unprepared host_checked 77 3 fresh_world).
  - reflexivity.
  - vm_compute. reflexivity.
  - intros [_ [H|H]]; vm_compute in H; discriminate.
Defined.

Lemma classTrack_initialize_nothing_prepared_witness :
  ∃ s', classTrack_initialize host_nothing_prepared 77 fresh_world = Ret tt s' ∧
        tags s' = tags fresh_world ∧ tag_calls s' = tag_calls fresh_world ∧
        clock s' = clock fresh_world ∧ allocated s' = allocated fresh_world ∧
        heap s' = heap fresh_world ∧
        released s' = 65536 :: released fresh_world.
Proof.
  apply (classTrack_initialize_nothing_prepared host_nothing_prepared 77 [3; 5]
           fresh_world).
  - exact heap_wf_fresh_world.
  - discriminate.
  - reflexivity.
  - reflexivity.
  - vm_compute. discriminate.
  - intros k Hk [H|H];
      apply elem_of_cons in Hk as [->|Hk];
      try (apply list_elem_of_singleton in Hk as ->);
      vm_compute in H; discriminate.
Defined.

Lemma classTrack_initialize_memory_safe_witness :
  heap_wf (state_after (classTrack_initialize host_checked 77 fresh_world)) ∧
  tags_live (state_after (classTrack_initialize host_checked 77 fresh_world)).
Proof.
  destruct (classTrack_initialize_memory_safe host_checked 77 fresh_world)
    as [_ Hret].
  - exact heap_wf_fresh_world.
  - exact tags_live_fresh_world.
  - apply Hret. vm_compute. reflexivity.
Defined.

Lemma classTrack_initialize_tags_signatures_witness :
  consistent host_checked
    (state_after (classTrack_initialize host_checked 77 fresh_world)) ∧
  failed_asserts (state_after (classTrack_initialize host_checked 77 fresh_world))
  = failed_asserts fresh_world.
Proof.
  apply (classTrack_initialize_tags_signatures host_checked
           signature_stable_checked 77 fresh_world).
  - exact heap_wf_fresh_world.
  - reflexivity.
  - vm_compute. reflexivity.
Defined.
